(** * PubMed tool: record normalisation, table formatting and author queries

    A shallow embedding of the record-normalisation pipeline of
    [pubmed_tool] ([scr/scraper_functs.py], [pubmed_tool.py],
    [sql_functs.py], [validators/validators.py]) together with the
    properties its specification states about it.

    Python values are embedded as the inductive type [pyval]; a Python
    [str] is a Rocq [string] whose characters are read as the code points
    U+0000..U+00FF.  Code that can raise runs in the monad [M], which
    carries the raised exception and the messages handed to
    [logs.display_message]. *)

From Stdlib Require Import String Ascii List ZArith NArith Bool Lia.
From Stdlib Require Import DecimalString.
From Stdlib Require DecimalFacts DecimalPos.
Import ListNotations.

Local Open Scope string_scope.
Local Open Scope Z_scope.

(** ** Python strings *)

Module PyStr.

Definition code (c : ascii) : N := N_of_ascii c.

Definition between (lo hi : N) (c : ascii) : bool :=
  ((lo <=? code c) && (code c <=? hi))%N.

(** [c in '0123456789'], the class [[0-9]] of [re]. *)
Definition is_ascii_digit (c : ascii) : bool := between 48 57 c.

(** [str.isdigit] on one character: the decimal digits and the
    superscripts U+00B2, U+00B3, U+00B9. *)
Definition isdigit_char (c : ascii) : bool :=
  is_ascii_digit c
  || (code c =? 178)%N || (code c =? 179)%N || (code c =? 185)%N.

(** [str.isspace] on one character. *)
Definition isspace_char (c : ascii) : bool :=
  between 9 13 c || between 28 32 c
  || (code c =? 133)%N || (code c =? 160)%N.

Definition lower_char (c : ascii) : ascii :=
  if between 65 90 c
     || (between 192 222 c && negb (code c =? 215)%N)
  then ascii_of_N (code c + 32)
  else c.

Fixpoint lower (s : string) : string :=
  match s with
  | EmptyString => EmptyString
  | String c r => String (lower_char c) (lower r)
  end.

Fixpoint forallb (p : ascii -> bool) (s : string) : bool :=
  match s with
  | EmptyString => true
  | String c r => p c && forallb p r
  end.

Fixpoint existsb (p : ascii -> bool) (s : string) : bool :=
  match s with
  | EmptyString => false
  | String c r => p c || existsb p r
  end.

Definition nonempty (s : string) : bool :=
  match s with EmptyString => false | _ => true end.

(** [s.isdigit()]: false on the empty string. *)
Definition isdigit (s : string) : bool :=
  nonempty s && forallb isdigit_char s.

Fixpoint lstrip (s : string) : string :=
  match s with
  | EmptyString => EmptyString
  | String c r => if isspace_char c then lstrip r else s
  end.

Fixpoint rstrip (s : string) : string :=
  match s with
  | EmptyString => EmptyString
  | String c r =>
      match rstrip r with
      | EmptyString => if isspace_char c then EmptyString
                       else String c EmptyString
      | r' => String c r'
      end
  end.

(** [s.strip()] *)
Definition strip (s : string) : string := rstrip (lstrip s).

Fixpoint drop (n : nat) (s : string) : string :=
  match n, s with
  | O, _ => s
  | S _, EmptyString => EmptyString
  | S k, String _ r => drop k r
  end.

(** [s.replace(old, new)] for a non-empty [old]: occurrences are taken
    from the left and do not overlap.  [skip] counts the characters of
    an occurrence still to be passed over. *)
Fixpoint replace_from (old new : string) (skip : nat) (s : string)
  : string :=
  match s with
  | EmptyString => EmptyString
  | String c r =>
      match skip with
      | S k => replace_from old new k r
      | O =>
          if prefix old s
          then new ++ replace_from old new (Nat.pred (String.length old)) r
          else String c (replace_from old new O r)
      end
  end.

Definition replace (old new s : string) : string :=
  replace_from old new O s.

(** [sub in s] *)
Fixpoint contains (sub s : string) : bool :=
  prefix sub s
  || match s with
     | EmptyString => false
     | String _ r => contains sub r
     end.

(** [s.split(sep)] for a one-character separator. *)
Fixpoint split (sep : ascii) (s : string) : list string :=
  match s with
  | EmptyString => [EmptyString]
  | String c r =>
      if Ascii.eqb c sep then EmptyString :: split sep r
      else match split sep r with
           | [] => [String c EmptyString]
           | p :: ps => String c p :: ps
           end
  end.

(** [sep.join(l)] *)
Fixpoint join (sep : string) (l : list string) : string :=
  match l with
  | [] => EmptyString
  | [x] => x
  | x :: r => x ++ sep ++ join sep r
  end.

(** The longest prefix whose characters satisfy [p], and the rest. *)
Fixpoint span (p : ascii -> bool) (s : string) : string * string :=
  match s with
  | EmptyString => (EmptyString, EmptyString)
  | String c r =>
      if p c then let '(a, b) := span p r in (String c a, b)
      else (EmptyString, s)
  end.

Definition digit_val (c : ascii) : Z := Z.of_N (code c) - 48.

Fixpoint digits_value (acc : Z) (s : string) : Z :=
  match s with
  | EmptyString => acc
  | String c r => digits_value (10 * acc + digit_val c) r
  end.

(** The number of decimal digits among the characters of [s]. *)
Fixpoint digit_count (s : string) : nat :=
  match s with
  | EmptyString => O
  | String c r =>
      if is_ascii_digit c then S (digit_count r) else digit_count r
  end.

(** The decimal text of an integer. *)
Definition of_Z (z : Z) : string := NilZero.string_of_int (Z.to_int z).

Definition eqb (a b : string) : bool := String.eqb a b.

(** [s.rjust(width, '0')], the padding of [f'{n:0>width}']. *)
Fixpoint zeros (n : nat) : string :=
  match n with
  | O => EmptyString
  | S k => String "0"%char (zeros k)
  end.

Definition rjust_zero (width : nat) (s : string) : string :=
  zeros (width - String.length s) ++ s.

End PyStr.

(** The line feed and the tabulation, as one-character strings. *)
Definition nl : string := String (ascii_of_N 10) EmptyString.
Definition tab : string := String (ascii_of_N 9) EmptyString.

(** ** Python values, exceptions and logging *)

#[warnings="-register-all"]
Inductive pyval : Type :=
| PNone
| PBool (b : bool)
| PInt (z : Z)
| PStr (s : string)
| PList (l : list pyval)
| PDict (d : list (string * pyval)).

Inductive exn : Type :=
| AttributeError | TypeError | ValueError | KeyError | IndexError
| UnboundLocalError.

(** One call of [logs.display_message(message, type = level)]. *)
Record message : Type := Message { level : string; text : string }.

(** A computation either returns or raises; either way it has handed some
    messages to the logger. *)
Inductive M (A : Type) : Type :=
| Returns (v : A) (log : list message)
| Raises (e : exn) (log : list message).
Arguments Returns {A} v log.
Arguments Raises {A} e log.

Definition ret {A} (v : A) : M A := Returns v [].
Definition raise {A} (e : exn) : M A := Raises e [].
Definition display_message (msg lvl : string) : M unit :=
  Returns tt [Message lvl msg].

Definition bind {A B} (m : M A) (k : A -> M B) : M B :=
  match m with
  | Raises e l => Raises e l
  | Returns v l =>
      match k v with
      | Returns w l' => Returns w (l ++ l')
      | Raises e l' => Raises e (l ++ l')
      end
  end.

Notation "x <- m ;; k" := (bind m (fun x => k))
  (at level 61, m at next level, right associativity).
Notation "' p <- m ;; k" := (bind m (fun x => let p := x in k))
  (at level 61, p pattern, m at next level, right associativity).
Notation "m ;;; k" := (bind m (fun _ => k))
  (at level 61, right associativity).

(** [try: body  except Exception as e: handler(e)] *)
Definition try_except {A} (body : M A) (handler : exn -> M A) : M A :=
  match body with
  | Returns v l => Returns v l
  | Raises e l =>
      match handler e with
      | Returns w l' => Returns w (l ++ l')
      | Raises e' l' => Raises e' (l ++ l')
      end
  end.

(** The text [f'{e}'] puts in a message, abbreviated to the class of the
    exception. *)
Definition exn_text (e : exn) : string :=
  match e with
  | AttributeError => "AttributeError"
  | TypeError => "TypeError"
  | ValueError => "ValueError"
  | KeyError => "KeyError"
  | IndexError => "IndexError"
  | UnboundLocalError => "UnboundLocalError"
  end.

Definition raised {A} (m : M A) : option exn :=
  match m with Raises e _ => Some e | Returns _ _ => None end.

Definition log_of {A} (m : M A) : list message :=
  match m with Raises _ l => l | Returns _ l => l end.

(** ** Builtins on Python values *)

Module Py.

Definition hex_digit (n : N) : ascii :=
  if (n <? 10)%N then ascii_of_N (48 + n) else ascii_of_N (87 + n).

Definition printable (c : ascii) : bool :=
  PyStr.between 32 126 c
  || (PyStr.between 161 255 c && negb (PyStr.code c =? 173)%N).

(** The double quote character. *)
Definition dquote : ascii := ascii_of_N 34.

Definition repr_char (quote c : ascii) : string :=
  if Ascii.eqb c quote || Ascii.eqb c "\"%char
  then String "\"%char (String c EmptyString)
  else if (PyStr.code c =? 9)%N then "\t"
  else if (PyStr.code c =? 10)%N then "\n"
  else if (PyStr.code c =? 13)%N then "\r"
  else if printable c then String c EmptyString
  else String "\"%char (String "x"%char
         (String (hex_digit (PyStr.code c / 16))
            (String (hex_digit (PyStr.code c mod 16)) EmptyString))).

Fixpoint repr_chars (quote : ascii) (s : string) : string :=
  match s with
  | EmptyString => EmptyString
  | String c r => repr_char quote c ++ repr_chars quote r
  end.

(** [repr(s)] of a [str]: single quotes unless the text has a single
    quote and no double quote. *)
Definition repr_str (s : string) : string :=
  let quote :=
    if PyStr.existsb (Ascii.eqb "'"%char) s
       && negb (PyStr.existsb (Ascii.eqb dquote) s)
    then dquote else "'"%char in
  String quote (repr_chars quote s ++ String quote EmptyString).

(** [repr(v)], with [PList] and [PDict] the builtin [list] and [dict]. *)
Fixpoint repr (v : pyval) : string :=
  match v with
  | PNone => "None"
  | PBool true => "True"
  | PBool false => "False"
  | PInt z => PyStr.of_Z z
  | PStr s => repr_str s
  | PList l =>
      "[" ++ PyStr.join ", " (List.map repr l) ++ "]"
  | PDict d =>
      "{" ++ PyStr.join ", "
               ((fix items (d : list (string * pyval)) : list string :=
                   match d with
                   | [] => []
                   | (k, x) :: r => (repr_str k ++ ": " ++ repr x) :: items r
                   end) d)
          ++ "}"
  end.

(** The text of [str(v)], when [str(v)] gives one. *)
Definition str (v : pyval) : string :=
  match v with
  | PStr s => s
  | _ => repr v
  end.

(** The interpreter's bound on the decimal digits of an [int] that is
    written to a text or read from one: [sys.get_int_max_str_digits()],
    which is 4300 unless the interpreter is started otherwise. *)
Definition max_str_digits : Z := 4300.

Definition int_writes (z : Z) : bool :=
  Z.of_nat (String.length (PyStr.of_Z (Z.abs z))) <=? max_str_digits.

(** No [int] inside [v] has more digits than the bound. *)
Fixpoint writes (v : pyval) : bool :=
  match v with
  | PInt z => int_writes z
  | PList l => List.forallb writes l
  | PDict d =>
      (fix values (d : list (string * pyval)) : bool :=
         match d with
         | [] => true
         | (_, x) :: r => writes x && values r
         end) d
  | _ => true
  end.

(** [str(v)] and [f'{v}']: writing an [int] beyond the bound raises
    ValueError. *)
Definition format (v : pyval) : M string :=
  if writes v then ret (str v) else raise ValueError.

(** Truth value of [v] in a condition. *)
Definition truthy (v : pyval) : bool :=
  match v with
  | PNone => false
  | PBool b => b
  | PInt z => negb (z =? 0)
  | PStr s => PyStr.nonempty s
  | PList l => match l with [] => false | _ => true end
  | PDict d => match d with [] => false | _ => true end
  end.

Fixpoint lookup (k : string) (d : list (string * pyval)) : option pyval :=
  match d with
  | [] => None
  | (k', v) :: r => if String.eqb k k' then Some v else lookup k r
  end.

(** [k in v.keys()] *)
Definition has_key (k : string) (v : pyval) : M bool :=
  match v with
  | PDict d => ret (match lookup k d with Some _ => true | None => false end)
  | _ => raise AttributeError
  end.

Fixpoint chars (s : string) : list pyval :=
  match s with
  | EmptyString => []
  | String c r => PStr (String c EmptyString) :: chars r
  end.

(** [v[k]] for a string key. *)
Definition getitem (v : pyval) (k : string) : M pyval :=
  match v with
  | PDict d => match lookup k d with
               | Some x => ret x
               | None => raise KeyError
               end
  | _ => raise TypeError
  end.

(** [v[i]] for an integer [0 <= i]. *)
Definition getindex (v : pyval) (i : nat) : M pyval :=
  match v with
  | PList l => match nth_error l i with
               | Some x => ret x
               | None => raise IndexError
               end
  | PStr s => match nth_error (chars s) i with
              | Some x => ret x
              | None => raise IndexError
              end
  | PDict _ => raise KeyError
  | _ => raise TypeError
  end.

(** [len(v)] *)
Definition len (v : pyval) : M nat :=
  match v with
  | PStr s => ret (String.length s)
  | PList l => ret (List.length l)
  | PDict d => ret (List.length d)
  | _ => raise TypeError
  end.

(** [v.lower()], [v.strip()]: methods of [str] only. *)
Definition lower (v : pyval) : M string :=
  match v with
  | PStr s => ret (PyStr.lower s)
  | _ => raise AttributeError
  end.

Definition strip (v : pyval) : M string :=
  match v with
  | PStr s => ret (PyStr.strip s)
  | _ => raise AttributeError
  end.

(** After [_] the next character must be a digit; the text may not end
    on [_]. *)
Fixpoint int_body (after_digit : bool) (acc : Z) (s : string) : option Z :=
  match s with
  | EmptyString => if after_digit then Some acc else None
  | String c r =>
      if PyStr.is_ascii_digit c
      then int_body true (10 * acc + PyStr.digit_val c) r
      else if Ascii.eqb c "_"%char && after_digit
      then int_body false acc r
      else None
  end.

(** [int(s)] for a [str]: surrounding white space, an optional sign,
    decimal digits with single underscores between them; a text with more
    digits than the bound is refused like one that is no number. *)
Definition int (s : string) : M Z :=
  let t := PyStr.strip s in
  let '(sign, body) :=
    match t with
    | String c r =>
        if Ascii.eqb c "-"%char then (-1, r)
        else if Ascii.eqb c "+"%char then (1, r)
        else (1, t)
    | EmptyString => (1, t)
    end in
  match int_body false 0 body with
  | Some z =>
      if max_str_digits <? Z.of_nat (PyStr.digit_count body)
      then raise ValueError
      else ret (sign * z)
  | None => raise ValueError
  end.

Definition type_name (v : pyval) : string :=
  match v with
  | PNone => "<class 'NoneType'>"
  | PBool _ => "<class 'bool'>"
  | PInt _ => "<class 'int'>"
  | PStr _ => "<class 'str'>"
  | PList _ => "<class 'list'>"
  | PDict _ => "<class 'dict'>"
  end.

End Py.

(** ** Calendar dates and [datetime.strptime] *)

Record date : Type := Date { year : Z; month : Z; day : Z }.

Definition is_leap (y : Z) : bool :=
  (y mod 4 =? 0) && (negb (y mod 100 =? 0) || (y mod 400 =? 0)).

Definition days_in_month (y m : Z) : Z :=
  if m =? 2 then (if is_leap y then 29 else 28)
  else if (m =? 4) || (m =? 6) || (m =? 9) || (m =? 11) then 30
  else 31.

(** The triples [datetime.date(y, m, d)] accepts. *)
Definition valid_date (y m d : Z) : bool :=
  (1 <=? y) && (y <=? 9999) && (1 <=? m) && (m <=? 12)
  && (1 <=? d) && (d <=? days_in_month y m).

(** What [validators.date] is given: a [datetime.date] or
    [datetime.datetime] object, known by its calendar date, or any other
    value. *)
Inductive date_arg : Type :=
| DateObject (d : date)
| Plain (v : pyval).

Coercion Plain : pyval >-> date_arg.

Module Strptime.

(** [%Y]: four decimal digits. *)
Definition parse_Y (s : string) : option (Z * string) :=
  match s with
  | String a (String b (String c (String d r))) =>
      if PyStr.forallb PyStr.is_ascii_digit
           (String a (String b (String c (String d EmptyString))))
      then Some (PyStr.digits_value 0
                   (String a (String b (String c (String d EmptyString)))), r)
      else None
  | _ => None
  end.

(** [%m]: [1[0-2]|0[1-9]|[1-9]], alternatives tried in this order. *)
Definition parse_m (s : string) : option (Z * string) :=
  match s with
  | String a r =>
      let one := if PyStr.between 49 57 a
                 then Some (PyStr.digit_val a, r) else None in
      match r with
      | String b r' =>
          if Ascii.eqb a "1"%char && PyStr.between 48 50 b
          then Some (10 + PyStr.digit_val b, r')
          else if Ascii.eqb a "0"%char && PyStr.between 49 57 b
          then Some (PyStr.digit_val b, r')
          else one
      | EmptyString => one
      end
  | EmptyString => None
  end.

(** [%d]: [3[0-1]|[1-2]\d|0[1-9]|[1-9]| [1-9]]. *)
Definition parse_d (s : string) : option (Z * string) :=
  match s with
  | String a r =>
      let one := if PyStr.between 49 57 a
                 then Some (PyStr.digit_val a, r) else None in
      match r with
      | String b r' =>
          if Ascii.eqb a "3"%char && PyStr.between 48 49 b
          then Some (30 + PyStr.digit_val b, r')
          else if PyStr.between 49 50 a && PyStr.is_ascii_digit b
          then Some (10 * PyStr.digit_val a + PyStr.digit_val b, r')
          else if Ascii.eqb a "0"%char && PyStr.between 49 57 b
          then Some (PyStr.digit_val b, r')
          else if PyStr.between 49 57 a then one
          else if Ascii.eqb a " "%char && PyStr.between 49 57 b
          then Some (PyStr.digit_val b, r')
          else None
      | EmptyString => one
      end
  | EmptyString => None
  end.

Definition slash (s : string) : option string :=
  match s with
  | String c r => if Ascii.eqb c "/"%char then Some r else None
  | EmptyString => None
  end.

(** The three formats [format_date] uses. *)
Inductive format : Type := Y | Ym | Ymd.

Definition fields (f : format) (s : string) : option (Z * Z * Z * string) :=
  match parse_Y s with
  | None => None
  | Some (y, r) =>
      match f with
      | Y => Some (y, 1, 1, r)
      | Ym =>
          match slash r with
          | None => None
          | Some r1 =>
              match parse_m r1 with
              | None => None
              | Some (m, r2) => Some (y, m, 1, r2)
              end
          end
      | Ymd =>
          match slash r with
          | None => None
          | Some r1 =>
              match parse_m r1 with
              | None => None
              | Some (m, r2) =>
                  match slash r2 with
                  | None => None
                  | Some r3 =>
                      match parse_d r3 with
                      | None => None
                      | Some (d, r4) => Some (y, m, d, r4)
                      end
                  end
              end
          end
      end
  end.

(** [dt.datetime.strptime(s, f).date()]: the text must match the format
    with nothing left over, and the fields must be a calendar date. *)
Definition strptime (s : string) (f : format) : M date :=
  match fields f s with
  | Some (y, m, d, EmptyString) =>
      if valid_date y m d then ret (Date y m d) else raise ValueError
  | _ => raise ValueError
  end.

End Strptime.

(** ** [validators.py] *)

Module validators.

(** [validators.pmid]: the identifier as an integer, or [None] with a
    warning. *)
Definition pmid_body (pmid : pyval) : M (option Z) :=
  s <- match pmid with
       | PInt _ | PBool _ | PStr _ => Py.format pmid
       | _ => raise ValueError
       end ;;
  z <- Py.int (PyStr.strip (PyStr.lower s)) ;;
  (* [str] of what [int] has just read stays within the bound *)
  let t := PyStr.of_Z z in
  if (String.length t <? 1)%nat || (8 <? String.length t)%nat
  then raise ValueError
  else if String.eqb t "0" then raise ValueError
  else z' <- Py.int t ;; ret (Some z').

Definition pmid (p_v : pyval) : M (option Z) :=
  try_except (pmid_body p_v)
    (fun e =>
       value <- Py.format p_v ;;
       display_message
         ("<pmid>: " ++ Py.type_name p_v ++ " and value " ++
          "'" ++ value ++ "' is not valid. Removing." ++
          nl ++ " " ++ tab ++ "Additional details: " ++ exn_text e)
         "warning" ;;;
       ret None).

(** *** [validators.date] *)

(** The separators of [date_regex], [[ -/]]: the range from the space to
    the slash. *)
Definition is_date_sep (c : ascii) : bool := PyStr.between 32 47 c.

(** [$]: the end of the text, or a line feed that ends it. *)
Definition at_end (s : string) : bool := String.eqb s "" || String.eqb s nl.

(** The last group of [date_regex] and the end: two digits if the text
    then ends, else one. *)
Definition day_group (s : string) : option string :=
  match s with
  | String a r =>
      if PyStr.is_ascii_digit a then
        match r with
        | String b r' =>
            if PyStr.is_ascii_digit b && at_end r'
            then Some (String a (String b EmptyString))
            else if at_end r then Some (String a EmptyString) else None
        | EmptyString => Some (String a EmptyString)
        end
      else None
  | EmptyString => None
  end.

(** Separators, then the last group. *)
Definition sep_day (s : string) : option string :=
  day_group (snd (PyStr.span is_date_sep s)).

(** The month group, two digits before one, and what follows it. *)
Definition month_day (s : string) : option (string * string) :=
  match s with
  | String a r =>
      if PyStr.is_ascii_digit a then
        let one := option_map (fun d => (String a EmptyString, d))
                     (sep_day r) in
        match r with
        | String b r' =>
            if PyStr.is_ascii_digit b then
              match sep_day r' with
              | Some d => Some (String a (String b EmptyString), d)
              | None => one
              end
            else one
        | EmptyString => one
        end
      else None
  | EmptyString => None
  end.

(** [re.findall(date_regex, s)]: the groups of the one match, if any. *)
Definition date_elem (s : string) : option (string * string * string) :=
  match s with
  | String a (String b (String c (String d r))) =>
      let y := String a (String b (String c (String d EmptyString))) in
      if PyStr.forallb PyStr.is_ascii_digit y then
        match month_day (snd (PyStr.span is_date_sep r)) with
        | Some (m, dd) => Some (y, m, dd)
        | None => None
        end
      else None
  | _ => None
  end.

(** The checks of the [while year:] block: [true] when [year] is kept. *)
Definition date_checks (year month day : Z) : bool :=
  if (month <? 1) || (year <? 1) || (day <? 1) then false
  else if 12 <? month then false
  else
    let leap := year mod 4 =? 0 in
    if leap && (year =? 2) && (29 <? day) then false
    else if (month =? 2) && (28 <? day) then false
    else if ((month =? 4) || (month =? 6) || (month =? 9) || (month =? 11))
            && (30 <? day)
    then false
    else if 31 <? day then false
    else true.

(** [date.strftime('%Y/%m/%d')]: the year as the C library writes it,
    with no zeros before it, the month and the day in two digits. *)
Definition strftime (d : date) : string :=
  PyStr.join "/"
    [PyStr.of_Z (year d);
     PyStr.rjust_zero 2 (PyStr.of_Z (month d));
     PyStr.rjust_zero 2 (PyStr.of_Z (day d))].

(** The body of [date]: the text of a date object is returned as
    [strftime] gives it, a [str] is examined, anything else is
    refused. *)
Definition date_body (date : date_arg) : M string :=
  match date with
  | DateObject d => ret (strftime d)
  | Plain (PStr s) =>
      let text := PyStr.strip (PyStr.lower s) in
      match date_elem text with
      | Some (y, m, d) =>
          year <- Py.int y ;;
          month <- Py.int m ;;
          day <- Py.int d ;;
          if negb (year =? 0) && date_checks year month day
          then ret (PyStr.join "/"
                      [PyStr.rjust_zero 4 (PyStr.of_Z year);
                       PyStr.rjust_zero 2 (PyStr.of_Z month);
                       PyStr.rjust_zero 2 (PyStr.of_Z day)])
          else raise ValueError
      | None => raise ValueError
      end
  | Plain _ => raise ValueError
  end.

(** [type(d_v)] and [f'{d_v}'] in the message of [date]; the text of a
    date object is its ISO form. *)
Definition date_arg_type (d_v : date_arg) : string :=
  match d_v with
  | DateObject _ => "<class 'datetime.date'>"
  | Plain v => Py.type_name v
  end.

Definition date_arg_format (d_v : date_arg) : M string :=
  match d_v with
  | DateObject d =>
      ret (PyStr.join "-"
             [PyStr.rjust_zero 4 (PyStr.of_Z (year d));
              PyStr.rjust_zero 2 (PyStr.of_Z (month d));
              PyStr.rjust_zero 2 (PyStr.of_Z (day d))])
  | Plain v => Py.format v
  end.

Definition date (d_v : date_arg) : M (option string) :=
  try_except (t <- date_body d_v ;; ret (Some t))
    (fun e =>
       value <- date_arg_format d_v ;;
       display_message
         ("<date>: " ++ date_arg_type d_v ++ " and value " ++
          "'" ++ value ++ "' is not valid." ++
          nl ++ " " ++ tab ++ "Additional messages: " ++ exn_text e)
         "warning" ;;;
       ret None).

(** *** [validators.email] *)

(** The characters of the local part, [[a-z0-9!#$%&'*+/=?^_`{|}~-]]. *)
Definition is_alnum (c : ascii) : bool :=
  PyStr.between 97 122 c || PyStr.is_ascii_digit c.

Definition is_atext (c : ascii) : bool :=
  is_alnum c
  || List.existsb (Ascii.eqb c)
       (list_ascii_of_string "!#$%&'*+/=?^_`{|}~-").

(** The local part: atoms of [is_atext] characters joined by dots. *)
Definition local_part (s : string) : bool :=
  List.forallb (fun a => PyStr.nonempty a && PyStr.forallb is_atext a)
    (PyStr.split "." s).

Fixpoint last_char (s : string) : option ascii :=
  match s with
  | EmptyString => None
  | String c EmptyString => Some c
  | String _ r => last_char r
  end.

(** A label of the domain, [[a-z0-9](?:[a-z0-9-]*[a-z0-9])?]. *)
Definition label (s : string) : bool :=
  match s, last_char s with
  | String c _, Some l =>
      is_alnum c && is_alnum l
      && PyStr.forallb (fun x => is_alnum x || Ascii.eqb x "-"%char) s
  | _, _ => false
  end.

(** The domain: two labels or more joined by dots, up to the end of the
    text. *)
Definition domain (s : string) : bool :=
  let s := match PyStr.split (ascii_of_N 10) s with
           | [d; EmptyString] => d
           | _ => s
           end in
  let labels := PyStr.split "." s in
  (2 <=? List.length labels)%nat && List.forallb label labels.

(** [re.search(email_regex, s)] as a truth value: the text before the
    first [@] is a local part and the text after it a domain. *)
Definition email_match (s : string) : bool :=
  match PyStr.split "@" s with
  | l :: d :: [] => local_part l && domain d
  | _ => false
  end.

(** The body of [email]: a value that is false in a condition is returned
    as it is. *)
Definition email_body (email : pyval) : M pyval :=
  if Py.truthy email then
    l <- Py.lower email ;;
    let e := PyStr.strip l in
    if email_match e then ret (PStr e) else raise ValueError
  else ret email.

Definition email (e_v : pyval) : M pyval :=
  try_except (email_body e_v)
    (fun e =>
       value <- Py.format e_v ;;
       display_message
         ("<email>: " ++ Py.type_name e_v ++ " and value " ++
          "'" ++ value ++ "' is not valid." ++
          nl ++ " " ++ tab ++ "Additional messages: " ++ exn_text e)
         "warning" ;;;
       ret PNone).

End validators.

(** ** [scr/scraper_functs.py] *)

Module scr.

(** The dictionary [{order, first, last, initials}] of one author. *)
Record name_dict : Type := NameDict {
  order : string;
  first : option string;
  last : option string;
  initials : option string
}.

Definition months_dict : list (string * string) :=
  [("jan", "01"); ("feb", "02"); ("mar", "03");
   ("apr", "04"); ("may", "05"); ("jun", "06");
   ("jul", "07"); ("aug", "08"); ("sep", "09");
   ("oct", "10"); ("nov", "11"); ("dec", "12");
   ("spr", "03"); ("sum", "06"); ("fal", "09");
   ("win", "11")].

Fixpoint assoc (k : string) (d : list (string * string)) : option string :=
  match d with
  | [] => None
  | (k', v) :: r => if String.eqb k k' then Some v else assoc k r
  end.

(** Truth value of a variable holding a [str] or [None]. *)
Definition truthy (o : option string) : bool :=
  match o with
  | Some s => PyStr.nonempty s
  | None => false
  end.

(** [d[k].lower().strip()] *)
Definition lower_strip (d : pyval) (k : string) : M string :=
  v <- Py.getitem d k ;;
  l <- Py.lower v ;;
  ret (PyStr.strip l).

(** The [Year] step of [format_date]. *)
Definition accept_year (date_obj : pyval) : M (option string) :=
  has <- Py.has_key "Year" date_obj ;;
  if has then
    year <- lower_strip date_obj "Year" ;;
    if (String.length year <? 4)%nat || negb (PyStr.isdigit year)
    then ret None else ret (Some year)
  else ret None.

(** [int(s) in range(1, 13)] *)
Definition in_range_1_13 (s : string) : M bool :=
  z <- Py.int s ;; ret ((1 <=? z) && (z <? 13)).

(** ['0' + str(int(s))] *)
Definition zero_pad (s : string) : M string :=
  z <- Py.int s ;; ret ("0" ++ PyStr.of_Z z).

(** The [Month] step of [format_date]. *)
Definition accept_month (date_obj : pyval) : M (option string) :=
  has <- Py.has_key "Month" date_obj ;;
  if has then
    month <- lower_strip date_obj "Month" ;;
    match negb (PyStr.isdigit month), assoc month months_dict with
    | true, Some m => ret (Some m)
    | _, _ =>
        if PyStr.isdigit month then
          inr <- in_range_1_13 month ;;
          if inr && (String.length month <? 2)%nat
          then m <- zero_pad month ;; ret (Some m)
          else ret None
        else ret None
    end
  else ret None.

(** The [Day] step of [format_date]. *)
Definition accept_day (date_obj : pyval) : M (option string) :=
  has <- Py.has_key "Day" date_obj ;;
  if has then
    day <- lower_strip date_obj "Day" ;;
    if PyStr.isdigit day then
      inr <- in_range_1_13 day ;;
      if inr && (String.length day <? 2)%nat
      then d <- zero_pad day ;; ret (Some d)
      else ret None
    else ret None
  else ret None.

(** [re.search(r'[0-9]{4}', s)[0]], when there is a match. *)
Fixpoint search_4_digits (s : string) : option string :=
  match s with
  | EmptyString => None
  | String a r =>
      match r with
      | String b (String c (String d _)) =>
          if PyStr.forallb PyStr.is_ascii_digit
               (String a (String b (String c (String d EmptyString))))
          then Some (String a (String b (String c (String d EmptyString))))
          else search_4_digits r
      | _ => None
      end
  end.

(** [re.search(pattern, v)] needs a [str]. *)
Definition re_subject (v : pyval) : M string :=
  match v with
  | PStr s => ret s
  | _ => raise TypeError
  end.

(** The [MedlineDate] step: runs when no year was accepted.  The month it
    looks up is the match object itself, never a key of [months_dict], so
    the month comes out as [None]. *)
Definition medline_date (date_obj : pyval)
  (year month : option string) : M (option string * option string) :=
  if negb (truthy year) then
    has <- Py.has_key "MedlineDate" date_obj ;;
    if has then
      v <- Py.getitem date_obj "MedlineDate" ;;
      s <- re_subject v ;;
      let year' := search_4_digits s in
      v' <- Py.getitem date_obj "MedlineDate" ;;
      _ <- re_subject v' ;;
      ret (year', None)
    else ret (year, month)
  else ret (year, month).

(** The text an option holds when it is formatted into an f-string. *)
Definition fmt (o : option string) : string :=
  match o with Some s => s | None => "None" end.

(** The [Attempt to Format] step, with its bare [except]. *)
Definition attempt_format (year month day : option string)
  : M (option date) :=
  try_except
    (if truthy year && truthy month && truthy day then
       d <- Strptime.strptime (fmt year ++ "/" ++ fmt month ++ "/" ++ fmt day)
              Strptime.Ymd ;;
       ret (Some d)
     else if truthy year && truthy month then
       d <- Strptime.strptime (fmt year ++ "/" ++ fmt month) Strptime.Ym ;;
       ret (Some d)
     else if truthy year then
       d <- Strptime.strptime (fmt year) Strptime.Y ;;
       ret (Some d)
     else ret None)
    (fun _ => ret None).

Definition format_date_body (date_obj : pyval) : M (option date) :=
  year <- accept_year date_obj ;;
  month <- accept_month date_obj ;;
  day <- accept_day date_obj ;;
  ym <- medline_date date_obj year month ;;
  attempt_format (fst ym) (snd ym) day.

(** [f'{pmid}'] for the identifier of the record, an [int] or [None]. *)
Definition pmid_format (pmid : option Z) : M string :=
  match pmid with
  | Some z => Py.format (PInt z)
  | None => ret "None"
  end.

Definition error_message (pmid : string) (place : string) (e : exn)
  : string :=
  PyStr.join " "
    ["Unable to process search due to error in record: " ++ pmid ++ ".";
     " In " ++ place ++ ". Errors: " ++ exn_text e].

(** The [except] block of the normalisers: the message is written and the
    result is missing. *)
Definition report {A} (pmid : option Z) (place : string) (e : exn)
  : M (option A) :=
  text <- pmid_format pmid ;;
  display_message (error_message text place e) "error" ;;;
  ret None.

Definition format_date (date_obj : pyval) (pmid : option Z)
  : M (option date) :=
  try_except (format_date_body date_obj)
    (report pmid "Date").

(** [d[k]] when [k in d.keys() and len(d[k]) > 0], else nothing. *)
Definition nonempty_item (d : pyval) (k : string) : M (option pyval) :=
  has <- Py.has_key k d ;;
  if has then
    v <- Py.getitem d k ;;
    n <- Py.len v ;;
    if (0 <? n)%nat then ret (Some v) else ret None
  else ret None.

(** [d[k].lower().strip()] under the same guard. *)
Definition nonempty_lower_strip (d : pyval) (k : string)
  : M (option string) :=
  o <- nonempty_item d k ;;
  match o with
  | Some _ => s <- lower_strip d k ;; ret (Some s)
  | None => ret None
  end.

Definition clean_piece (name : string) : string :=
  PyStr.replace "," "" (PyStr.replace "." "" (PyStr.strip name)).

Definition first_char (s : string) : string :=
  match s with
  | String c _ => String c EmptyString
  | EmptyString => EmptyString
  end.

(** The pieces of a first name, the initials they spell, and the pieces
    longer than one character. *)
Definition first_name_pieces (first_nm : string) : list string :=
  List.filter (fun p => negb (String.eqb p ""))
    (List.map clean_piece (PyStr.split " " first_nm)).

Definition poss_initials_of (pieces : list string) : string :=
  PyStr.join "" (List.map first_char pieces).

Definition long_pieces (pieces : list string) : list string :=
  List.filter (fun p => (1 <? String.length p)%nat) pieces.

Definition opt_eqb (a : string) (b : option string) : bool :=
  match b with
  | Some s => String.eqb a s
  | None => false
  end.

(** The [Basic Checks and Standardization] steps of [format_author] on the
    extracted fields.  [index] is the position of the author in the author
    list of the article, the only value the code passes, so [str(index+1)]
    always gives a text. *)
Definition standardize (index : Z)
  (first_nm initials last_nm : option string) : name_dict :=
  (* first name equal to the initials *)
  let first_nm :=
    match first_nm with
    | Some f =>
        if PyStr.nonempty f && opt_eqb (PyStr.replace " " "" f) initials
        then None else first_nm
    | None => None
    end in
  (* first name with a space in it *)
  let '(first_nm, poss_initials) :=
    match first_nm with
    | Some f =>
        if PyStr.nonempty f && PyStr.contains " " f then
          let pieces := first_name_pieces f in
          let poss := poss_initials_of pieces in
          if truthy initials && opt_eqb poss initials
          then (Some (PyStr.join " " (long_pieces pieces)), Some poss)
          else (first_nm, Some poss)
        else (first_nm, None)
    | None => (None, None)
    end in
  (* initials taken from the first name *)
  let initials :=
    if negb (truthy initials) then
      if truthy poss_initials then poss_initials
      else if truthy first_nm
      then option_map first_char first_nm
      else initials
    else initials in
  NameDict (PyStr.of_Z (index + 1)) first_nm last_nm initials.

Definition format_author_body (author_dict : pyval) (index : Z)
  : M name_dict :=
  first_nm <- nonempty_lower_strip author_dict "ForeName" ;;
  initials <- nonempty_lower_strip author_dict "Initials" ;;
  let initials := option_map (PyStr.replace " " "") initials in
  last_nm <- nonempty_lower_strip author_dict "LastName" ;;
  ret (standardize index first_nm initials last_nm).

Definition format_author (author_dict : pyval) (index : Z)
  (pmid : option Z) : M (option name_dict) :=
  try_except
    (d <- format_author_body author_dict index ;; ret (Some d))
    (report pmid "Author Processing").

(** The three groups [re.findall] finds at the start of [s]: leading
    decimal digits, then characters that are no decimal digits, then
    decimal digits again; each may be empty. *)
Definition three_groups (s : string) : string * string * string :=
  let '(g0, r0) := PyStr.span PyStr.is_ascii_digit s in
  let '(g1, r1) := PyStr.span (fun c => negb (PyStr.is_ascii_digit c)) r0 in
  let '(g2, _) := PyStr.span PyStr.is_ascii_digit r1 in
  (g0, g1, g2).

(** [any(sub in s for s in search)] *)
Definition any_contains (sub : string) (search : string * string * string)
  : bool :=
  let '(g0, g1, g2) := search in
  PyStr.contains sub g0 || PyStr.contains sub g1 || PyStr.contains sub g2.

(** [('vol' in search[1] or 'iss' in search[1]) and search[2].isdigit()] *)
Definition number_is_third (search : string * string * string) : bool :=
  let '(_, g1, g2) := search in
  (PyStr.contains "vol" g1 || PyStr.contains "iss" g1) && PyStr.isdigit g2.

Definition vol_of (search : string * string * string) : M (option Z) :=
  let '(g0, g1, g2) := search in
  if negb (String.eqb g0 "") then z <- Py.int g0 ;; ret (Some z)
  else if number_is_third search then z <- Py.int g2 ;; ret (Some z)
  else if String.eqb g1 "" && negb (String.eqb g2 "")
  then z <- Py.int g2 ;; ret (Some z)
  else ret None.

Definition other_type_of (search : string * string * string)
  : option string :=
  let '(_, g1, _) := search in
  if String.eqb g1 "-" then Some "Issue Range"
  else if any_contains "sup" search then Some "Supplement"
  else if any_contains "part" search || any_contains "pt" search
          || any_contains "cz" search
  then Some "Part"
  else if any_contains "spec" search then Some "Special No."
  else None.

Definition other_of (search : string * string * string) : option string :=
  let '(_, _, g2) := search in
  if negb (number_is_third search) then Some g2 else None.

(** [(vol, other_type, other)] *)
Definition triple : Type := (option Z * option string * option string)%type.

Definition issue_vol_body (in_vol : pyval) : M triple :=
  text <- Py.format in_vol ;;
  let in_vol :=
    PyStr.strip (PyStr.lower (PyStr.replace "\xa0" " " text)) in
  if PyStr.existsb (fun c => negb (PyStr.is_ascii_digit c)) in_vol then
    let search := three_groups in_vol in
    vol <- vol_of search ;;
    ret (vol, other_type_of search, other_of search)
  else if PyStr.isdigit in_vol then
    z <- Py.int in_vol ;; ret (Some z, None, None)
  else ret (None, None, None).

Definition issue_vol (in_vol : pyval) (pmid : option Z) : M (option triple) :=
  try_except
    (t <- issue_vol_body in_vol ;; ret (Some t))
    (report pmid "Volume/Issue Processing").

(** The dictionary [jour_data]. *)
Record jour_data : Type := JourData {
  journal : option string;
  isoabbrev : option string;
  issue : option Z;
  volume : option Z;
  other_type : option string;
  other_val : option string;
  pubdate : option date
}.

(** [str(d[k]).lower().strip()] when [k in d.keys() and len(d[k]) > 0]. *)
Definition nonempty_str_lower_strip (d : pyval) (k : string)
  : M (option string) :=
  o <- nonempty_item d k ;;
  match o with
  | Some _ =>
      v <- Py.getitem d k ;;
      text <- Py.format v ;;
      ret (Some (PyStr.strip (PyStr.lower text)))
  | None => ret None
  end.

(** [a, b, c = issue_vol(v, pmid)]: unpacking [None] raises. *)
Definition unpack_issue_vol (v : pyval) (pmid : option Z) : M triple :=
  r <- issue_vol v pmid ;;
  match r with
  | Some t => ret t
  | None => raise TypeError
  end.

(** The [Journal Issue Items] of [journal_content]: the issue, the volume,
    the designator kind and value, and the publication date. *)
Definition journal_issue_items (record : pyval) (pmid : option Z)
  : M (option Z * option Z * option string * option string * option date) :=
  has <- Py.has_key "JournalIssue" record ;;
  if has then
    (* ISSUE *)
    ji <- Py.getitem record "JournalIssue" ;;
    i <- nonempty_item ji "Issue" ;;
    '(iss, oth, val) <-
      match i with
      | Some _ =>
          ji <- Py.getitem record "JournalIssue" ;;
          v <- Py.getitem ji "Issue" ;;
          unpack_issue_vol v pmid
      | None => ret (None, None, None)
      end ;;
    (* VOLUME *)
    ji <- Py.getitem record "JournalIssue" ;;
    o <- nonempty_item ji "Volume" ;;
    '(vol, oth, val) <-
      match o with
      | Some _ =>
          ji <- Py.getitem record "JournalIssue" ;;
          v <- Py.getitem ji "Volume" ;;
          unpack_issue_vol v pmid
      | None => ret (None, oth, val)
      end ;;
    (* PUBLICATION DATE *)
    ji <- Py.getitem record "JournalIssue" ;;
    p <- nonempty_item ji "PubDate" ;;
    date <-
      match p with
      | Some _ =>
          ji <- Py.getitem record "JournalIssue" ;;
          v <- Py.getitem ji "PubDate" ;;
          format_date v pmid
      | None => ret None
      end ;;
    ret (iss, vol, oth, val, date)
  else ret (None, None, None, None, None).

Definition journal_content_body (record : pyval) (pmid : option Z)
  : M jour_data :=
  title <- nonempty_str_lower_strip record "Title" ;;
  abbrev <- nonempty_str_lower_strip record "ISOAbbreviation" ;;
  '(iss, vol, oth, val, date) <- journal_issue_items record pmid ;;
  ret (JourData title abbrev iss vol oth val date).

Definition journal_content (record : pyval) (pmid : option Z)
  : M (option jour_data) :=
  try_except
    (d <- journal_content_body record pmid ;; ret (Some d))
    (report pmid "Journal Processing").

(** The characters of the page groups of [pgn_regex], [[0-9a-z]], and of
    its separator, [[ -:/]]: the range from the space to the colon. *)
Definition is_page_char (c : ascii) : bool :=
  PyStr.between 48 57 c || PyStr.between 97 122 c.

Definition is_page_sep (c : ascii) : bool := PyStr.between 32 58 c.

(** The second page group: page characters up to the end of the text (or
    up to a last line feed). *)
Definition pgn_end (s : string) : option string :=
  let '(g, r) := PyStr.span is_page_char s in
  if PyStr.nonempty g
     && (String.eqb r "" || String.eqb r nl)
  then Some g else None.

(** The separator, as short as possible, then the second group. *)
Fixpoint pgn_sep (s : string) : option string :=
  match s with
  | EmptyString => None
  | String c r =>
      if is_page_sep c then
        match pgn_end r with
        | Some g => Some g
        | None => pgn_sep r
        end
      else None
  end.

(** [re.search(pgn_regex, s)]: the first group as long as possible. *)
Fixpoint pgn_search (s : string) : option (string * string) :=
  match s with
  | EmptyString => None
  | String c r =>
      if is_page_char c then
        match pgn_search r with
        | Some (g1, g2) => Some (String c g1, g2)
        | None =>
            match pgn_sep r with
            | Some g2 => Some (String c EmptyString, g2)
            | None => None
            end
        end
      else None
  end.

(** [sep.join(v)]: the items of [v] must be [str]. *)
Definition join_value (sep : string) (v : pyval) : M string :=
  let strs :=
    fix strs (l : list pyval) : option (list string) :=
      match l with
      | [] => Some []
      | PStr s :: r => option_map (cons s) (strs r)
      | _ :: _ => None
      end in
  match v with
  | PList l =>
      match strs l with
      | Some ss => ret (PyStr.join sep ss)
      | None => raise TypeError
      end
  | PStr s =>
      match strs (Py.chars s) with
      | Some ss => ret (PyStr.join sep ss)
      | None => raise TypeError
      end
  | PDict d => ret (PyStr.join sep (List.map fst d))
  | _ => raise TypeError
  end.

Fixpoint mapM {A B} (f : A -> M B) (l : list A) : M (list B) :=
  match l with
  | [] => ret []
  | x :: r => y <- f x ;; ys <- mapM f r ;; ret (y :: ys)
  end.

(** [[f(v[i], i) for i in range(0, len(v))]] *)
Definition for_range {B} (v : pyval) (f : pyval -> nat -> M B)
  : M (list B) :=
  n <- Py.len v ;;
  mapM (fun i => x <- Py.getindex v i ;; f x i) (List.seq 0 n).

(** The dictionary [article_data]. *)
Record article_data : Type := ArticleData {
  title : option string;
  abstract : option string;
  page_start : option pyval;
  page_end : option pyval;
  authors : option (list (option name_dict));
  language : option pyval;
  jour : jour_data
}.

Definition abstract_of (record : pyval) : M (option string) :=
  a <- nonempty_item record "Abstract" ;;
  match a with
  | Some ab =>
      t <- nonempty_item ab "AbstractText" ;;
      match t with
      | Some txt => s <- join_value " " txt ;; ret (Some s)
      | None => ret None
      end
  | None => ret None
  end.

Definition article_date_of (record : pyval) (pmid : option Z)
  : M (option date) :=
  a <- nonempty_item record "ArticleDate" ;;
  match a with
  | Some l => d <- Py.getindex l 0 ;; format_date d pmid
  | None => ret None
  end.

Definition truthy_value (o : option pyval) : bool :=
  match o with Some v => Py.truthy v | None => false end.

Definition pagination_of (record : pyval)
  : M (option pyval * option pyval) :=
  p <- nonempty_item record "Pagination" ;;
  match p with
  | Some pg =>
      page_start <- nonempty_item pg "StartPage" ;;
      page_end <- nonempty_item pg "EndPage" ;;
      '(page_start, page_end) <-
        (if negb (truthy_value page_start || truthy_value page_end) then
           m <- nonempty_item pg "MedlinePgn" ;;
           match m with
           | Some v =>
               s <- re_subject v ;;
               match pgn_search s with
               | Some (g1, g2) => ret (Some (PStr g1), Some (PStr g2))
               | None => ret (page_start, page_end)
               end
           | None => ret (page_start, page_end)
           end
         else ret (page_start, page_end)) ;;
      let page_end :=
        if negb (truthy_value page_end) && truthy_value page_start
        then page_start else page_end in
      ret (page_start, page_end)
  | None => ret (None, None)
  end.

Definition authors_of (record : pyval) (pmid : option Z)
  : M (option (list (option name_dict))) :=
  a <- nonempty_item record "AuthorList" ;;
  match a with
  | Some l =>
      authors <- for_range l
                   (fun x i => format_author x (Z.of_nat i) pmid) ;;
      ret (Some authors)
  | None => ret None
  end.

Definition article_content_body (record : pyval) (pmid : option Z)
  : M article_data :=
  title <- nonempty_str_lower_strip record "ArticleTitle" ;;
  abstract <- abstract_of record ;;
  date <- article_date_of record pmid ;;
  pages <- pagination_of record ;;
  authors <- authors_of record pmid ;;
  language <- nonempty_item record "Language" ;;
  j <- Py.getitem record "Journal" ;;
  jour_content <- journal_content j pmid ;;
  match jour_content with
  | None => raise AttributeError
  | Some jd =>
      let jd :=
        match pubdate jd, date with
        | None, Some d =>
            JourData (journal jd) (isoabbrev jd) (issue jd) (volume jd)
              (other_type jd) (other_val jd) (Some d)
        | _, _ => jd
        end in
      ret (ArticleData title abstract (fst pages) (snd pages)
             authors language jd)
  end.

Definition article_content (record : pyval) (pmid : option Z)
  : M (option article_data) :=
  try_except
    (d <- article_content_body record pmid ;; ret (Some d))
    (report pmid "Article Processing").

(** The dictionary [content]. *)
Record content : Type := Content {
  pmid : option Z;
  keywords : option (list string);
  article : article_data
}.

(** [content['keywords'].add(val)].  The list stands for the set: the
    order in which [list] later enumerates a set follows the hashes of its
    members, and no property below depends on the order chosen here, the
    order of insertion. *)
Definition set_add (val : string) (set : list string) : list string :=
  if List.existsb (String.eqb val) set then set else set ++ [val].

Definition keyword_of (v : pyval) : M string :=
  s <- Py.strip v ;; ret (PyStr.lower s).

Definition keywords_of (record : pyval) : M (option (list string)) :=
  k <- nonempty_item record "KeywordList" ;;
  match k with
  | Some kl =>
      groups <- for_range kl
                  (fun g _ => for_range g (fun v _ => keyword_of v)) ;;
      ret (Some (List.fold_left (fun set val => set_add val set)
                   (List.concat groups) []))
  | None => ret None
  end.

Definition single_record_body (record : pyval) : M content :=
  p <- nonempty_item record "PMID" ;;
  pmid <- match p with
          | Some v =>
              text <- Py.format v ;;
              z <- validators.pmid
                     (PStr (PyStr.strip (PyStr.lower text))) ;;
              ret (Some z)
          | None => ret None
          end ;;
  keywords <- keywords_of record ;;
  a <- Py.getitem record "Article" ;;
  match pmid with
  | None => raise UnboundLocalError
  | Some pmid =>
      article_items <- article_content a pmid ;;
      match article_items with
      | None => raise AttributeError
      | Some ad => ret (Content pmid keywords ad)
      end
  end.

Definition single_record (record : pyval) : M (option content) :=
  try_except
    (c <- single_record_body record ;; ret (Some c))
    (fun e =>
       text <- Py.format record ;;
       display_message
         (PyStr.join " "
            ["Unable to process search due to error in record";
             " in any processing. Record: " ++ text
               ++ " " ++ nl ++ " " ++ tab;
             "Errors: " ++ exn_text e])
         "error" ;;;
       ret None).

End scr.

(** ** [pubmed_tool.py]: the table formatter *)

Module pubmed_tool.

(** The columns of the scraper's table other than [pmid] and [authors]. *)
Record paper_cols : Type := PaperCols {
  title : option string;
  pubdate : option string;
  keywords : option string;
  journal : option string;
  isoabbrev : option string;
  volume : option Z;
  issue : option Z;
  page_start : option string;
  page_end : option string;
  language : option string;
  abstract : option string;
  other_type : option string;
  other_val : option string
}.

(** One row of the data frame read from the scraper's output.  The
    [authors] cell is what its text evaluates to: the list the scraper
    wrote, or nothing when the cell is empty. *)
Record in_row : Type := InRow {
  in_pmid : Z;
  in_authors : option (list (option scr.name_dict));
  in_paper : paper_cols
}.

(** One item of an exploded [authors] cell: an item of the scraper's list,
    or the dictionary [{'last': None}] that fills an empty cell. *)
Inductive author_item : Type :=
| Item (d : option scr.name_dict)
| Filler.

(** A row after the explosion and the join of the normalised author
    columns; [order] is [None] where pandas holds NaN. *)
Record row : Type := Row {
  pmid : Z;
  paper : paper_cols;
  order : option Z;
  first : option string;
  last : option string;
  initials : option string
}.

(** A row of the formatted table. *)
Record out_row : Type := OutRow {
  out_pmid : Z;
  out_paper : paper_cols;
  numauthors : Z;
  firstauthor : bool;
  out_first : option string;
  out_last : option string;
  out_initials : option string
}.

(** [replace('', nan)] on one cell. *)
Definition blank_to_nan (o : option string) : option string :=
  match o with
  | Some s => if String.eqb s "" then None else o
  | None => None
  end.

(** The keywords cell: an empty cell becomes ['[]'], braces become
    brackets. *)
Definition format_keywords (o : option string) : option string :=
  let s := match o with Some s => s | None => "[]" end in
  Some (PyStr.replace "}" "]" (PyStr.replace "{" "[" s)).

(** The language cell: double quotes become single quotes, then every key
    of [lang_dict] is replaced by its language name, in the order of the
    table.  The keys and names are quoted codes and names, plain text to
    [re]. *)
Definition format_language (lang_dict : list (string * string))
  (o : option string) : option string :=
  option_map
    (fun s =>
       List.fold_left (fun s kv => PyStr.replace (fst kv) (snd kv) s)
         lang_dict
         (PyStr.replace (String Py.dquote EmptyString) "'" s))
    o.

Definition format_paper (lang_dict : list (string * string))
  (p : paper_cols) : paper_cols :=
  PaperCols (blank_to_nan (title p)) (blank_to_nan (pubdate p))
    (format_keywords (blank_to_nan (keywords p)))
    (blank_to_nan (journal p)) (blank_to_nan (isoabbrev p))
    (volume p) (issue p)
    (blank_to_nan (page_start p)) (blank_to_nan (page_end p))
    (format_language lang_dict (blank_to_nan (language p)))
    (blank_to_nan (abstract p))
    (blank_to_nan (other_type p)) (blank_to_nan (other_val p)).

(** [explode]: one row per item of the list; an empty list leaves one row
    with nothing in it. *)
Definition explode (r : in_row) : list (in_row * author_item) :=
  match in_authors r with
  | None => [(r, Filler)]
  | Some [] => [(r, Item None)]
  | Some l => List.map (fun d => (r, Item d)) l
  end.

(** The table has a column [order] when some item is a dictionary with
    that key. *)
Definition has_order_column (items : list (in_row * author_item)) : bool :=
  List.existsb
    (fun x => match snd x with Item (Some _) => true | _ => false end)
    items.

(** [fillna(0)] and [astype(int)] on one [order] cell. *)
Definition order_int (o : option string) : M Z :=
  match o with
  | Some s => Py.int s
  | None => ret 0
  end.

(** The joined row: the columns of [json_normalize], blanks replaced by
    nothing, [order] made an integer. *)
Definition joined_row (lang_dict : list (string * string))
  (x : in_row * author_item) : M row :=
  let '(r, item) := x in
  let '(o, f, l, i) :=
    match item with
    | Item (Some d) =>
        (blank_to_nan (Some (scr.order d)), blank_to_nan (scr.first d),
         blank_to_nan (scr.last d), blank_to_nan (scr.initials d))
    | _ => (None, None, None, None)
    end in
  n <- order_int o ;;
  ret (Row (in_pmid r) (format_paper lang_dict (in_paper r)) (Some n) f l i).

(** [t_df['pmid'].value_counts()[p]] *)
Definition value_count (p : Z) (t_df : list row) : nat :=
  List.length (List.filter (fun r => pmid r =? p) t_df).

Definition isna {A} (o : option A) : bool :=
  match o with None => true | Some _ => false end.

(** Papers with no authors listed: a single row with no last name. *)
Definition none_listed (t_df : list row) (r : row) : row :=
  if isna (last r) && (value_count (pmid r) t_df =? 1)%nat
  then Row (pmid r) (paper r) None (first r) (Some "None Listed")
         (initials r)
  else r.

(** [order < 2], false on NaN. *)
Definition order_lt_2 (o : option Z) : bool :=
  match o with Some n => n <? 2 | None => false end.

Definition failed_capture (r : row) : row :=
  if order_lt_2 (order r) && isna (last r)
  then Row (pmid r) (paper r) (order r) (first r) (Some "Failed Capture")
         (initials r)
  else r.

(** [dropna(subset = ['last'])] *)
Definition dropna_last (t_df : list row) : list row :=
  List.filter (fun r => negb (isna (last r))) t_df.

Definition opt_is (s : string) (o : option string) : bool :=
  match o with Some t => String.eqb t s | None => false end.

(** The author count and the first-author flag of one row. *)
Definition finish_row (t_df : list row) (r : row) : out_row :=
  let n := if opt_is "None Listed" (last r) then 0
           else Z.of_nat (value_count (pmid r) t_df) in
  let fa := match order r with Some o => o =? 1 | None => false end in
  OutRow (pmid r) (paper r) n fa (first r) (last r) (initials r).

(** [t_df['language'].str]: a column read from the file holds texts when
    some row has a language; when every cell is empty it holds floats,
    which have no [.str]. *)
Definition has_language (in_df : list in_row) : bool :=
  List.existsb
    (fun r => negb (isna (blank_to_nan (language (in_paper r))))) in_df.

(** [format_df(in_df)]; [lang_dict] is the table of language codes and
    names the function downloads.  The language cells are rewritten row
    by row in [joined_row]; the step itself comes last in the code, and
    raises when the column has no [.str]. *)
Definition format_df (lang_dict : list (string * string))
  (in_df : list in_row) : M (list out_row) :=
  let items := List.concat (List.map explode in_df) in
  if has_order_column items then
    t_df <- scr.mapM (joined_row lang_dict) items ;;
    let t_df := List.map (none_listed t_df) t_df in
    let t_df := List.map failed_capture t_df in
    let t_df := dropna_last t_df in
    if has_language in_df
    then ret (List.map (finish_row t_df) t_df)
    else raise AttributeError
  else raise AttributeError.

End pubmed_tool.

(** ** [sql_functs.py]: the table splitter and the query composer *)

Module sql.

Import pubmed_tool.

(** A row of [papers_df]: every column that is no author column, with
    [pmid] as the index. *)
Record paper_row : Type := PaperRow {
  p_pmid : Z;
  p_cols : paper_cols;
  p_numauthors : Z
}.

(** A row of [author_df], with [fullname] as the index. *)
Record author_row : Type := AuthorRow {
  a_fullname : option string;
  a_first : option string;
  a_last : option string;
  a_initials : option string
}.

(** A row of [author_paper_df]. *)
Record pair_row : Type := PairRow {
  r_pmid : Z;
  r_fullname : option string;
  r_firstauthor : bool
}.

Definition option_eq_dec {A} (dec : forall a b : A, {a = b} + {a <> b})
  (x y : option A) : {x = y} + {x <> y}.
Proof. decide equality. Defined.

Definition paper_cols_eq_dec (x y : paper_cols) : {x = y} + {x <> y}.
Proof.
  decide equality;
    first [ apply (option_eq_dec string_dec) | apply (option_eq_dec Z.eq_dec) ].
Defined.

Definition paper_row_eq_dec (x y : paper_row) : {x = y} + {x <> y}.
Proof.
  decide equality;
    first [ apply Z.eq_dec | apply paper_cols_eq_dec ].
Defined.

Definition author_row_eq_dec (x y : author_row) : {x = y} + {x <> y}.
Proof. decide equality; apply (option_eq_dec string_dec). Defined.

Definition pair_row_eq_dec (x y : pair_row) : {x = y} + {x <> y}.
Proof.
  decide equality;
    first [ apply Z.eq_dec | apply bool_dec
          | apply (option_eq_dec string_dec) ].
Defined.

(** [drop_duplicates]: the first of equal rows is kept, missing values
    counting as equal. *)
Fixpoint drop_duplicates {A} (dec : forall a b : A, {a = b} + {a <> b})
  (seen : list A) (l : list A) : list A :=
  match l with
  | [] => []
  | x :: r =>
      if in_dec dec x seen then drop_duplicates dec seen r
      else x :: drop_duplicates dec (x :: seen) r
  end.

(** [initials.str.cat([last, first], sep = ' ')]: missing as soon as one
    of the three is. *)
Definition fullname (initials last first : option string) : option string :=
  match initials, last, first with
  | Some i, Some l, Some f => Some (i ++ " " ++ l ++ " " ++ f)
  | _, _, _ => None
  end.

Definition paper_of (r : out_row) : paper_row :=
  PaperRow (out_pmid r) (out_paper r) (numauthors r).

Definition author_of (r : out_row) : author_row :=
  AuthorRow (fullname (out_initials r) (out_last r) (out_first r))
    (out_first r) (out_last r) (out_initials r).

Definition pair_of (r : out_row) : pair_row :=
  PairRow (out_pmid r) (fullname (out_initials r) (out_last r) (out_first r))
    (firstauthor r).

(** [split_tables(in_df)]: [(papers_df, author_df, author_paper_df)]. *)
Definition split_tables (in_df : list out_row)
  : list paper_row * list author_row * list pair_row :=
  (drop_duplicates paper_row_eq_dec [] (List.map paper_of in_df),
   drop_duplicates author_row_eq_dec [] (List.map author_of in_df),
   drop_duplicates pair_row_eq_dec [] (List.map pair_of in_df)).

(** *** [query] *)

(** A row of the frame [read_sql_query] returns. *)
Record match_row : Type := MatchRow {
  m_fullname : pyval;
  m_firstauthor : pyval;
  m_paper : list pyval
}.

(** An open connection: which tables the database has, and what it
    answers to the text of a query. *)
Record connection : Type := Connection {
  has_table : string -> bool;
  read_sql_query : string -> M (list match_row)
}.

(** [name_query] is first a list, later a string. *)
Inductive name_query : Type :=
| NList (l : list string)
| NStr (s : string).

(** [term = source.strip().lower()] when [term] is given. *)
Definition assign_from (term source : pyval) : M pyval :=
  if Py.truthy term then
    s <- Py.strip source ;; ret (PStr (PyStr.lower s))
  else ret term.

(** The [Strip strings, make names lowercase] step. *)
Definition normalize (any_nm last_nm first_nm initials_nm : pyval)
  : M (pyval * pyval * pyval * pyval) :=
  last_nm <- assign_from last_nm last_nm ;;
  first_nm <- assign_from first_nm last_nm ;;
  initials_nm <- assign_from initials_nm last_nm ;;
  any_nm <- assign_from any_nm any_nm ;;
  ret (any_nm, last_nm, first_nm, initials_nm).

(** [f"({authors_name}.{field} LIKE '%{term}%')"] *)
Definition like (authors_name field : string) (term : pyval) : string :=
  "(" ++ authors_name ++ "." ++ field ++ " LIKE '%" ++ Py.str term ++ "%')".

Definition any_name_query (authors_name : string) (any_nm : pyval) : string :=
  if Py.truthy any_nm then
    PyStr.join ""
      ["(" ++ like authors_name "last" any_nm ++ " OR ";
       like authors_name "first" any_nm ++ " OR ";
       like authors_name "initials" any_nm ++ ")"]
  else "".

(** The list [name_query] after the optional pieces are appended. *)
Definition name_pieces (authors_name : string)
  (last_nm first_nm initials_nm : pyval) : list string :=
  (if Py.truthy first_nm then [like authors_name "first" first_nm] else [])
  ++ (if Py.truthy initials_nm
      then [like authors_name "initials" initials_nm] else [])
  ++ (if Py.truthy last_nm then [like authors_name "last" last_nm] else []).

(** The [Join name portion of query] step. *)
Definition join_names (pieces : list string) (any_q : string) : name_query :=
  let nq := match pieces with
            | [] => NList pieces
            | _ => NStr (PyStr.join " OR " pieces)
            end in
  match nq with
  | NStr s => if negb (String.eqb any_q "")
              then NStr (s ++ " OR " ++ any_q) else nq
  | NList _ => if negb (String.eqb any_q "") then NStr any_q else nq
  end.

Definition join_clause (paper_name authors_name pairs_name : string)
  : list string :=
  [pairs_name ++ ".fullname == ";
   authors_name ++ ".fullname AND ";
   paper_name ++ ".pmid ";
   "== " ++ pairs_name ++ ".pmid"; nl;
   "GROUP BY " ++ pairs_name ++ ".fullname;"].

Definition select_clause (paper_name authors_name pairs_name : string)
  : string :=
  PyStr.join ""
    ["SELECT " ++ pairs_name ++ ".fullname,";
     " " ++ pairs_name ++ ".firstauthor, " ++ paper_name ++ ".* " ++ nl
     ++ "FROM " ++ paper_name ++ ", " ++ pairs_name ++ ", " ++ authors_name;
     " " ++ nl].

(** [''.join(items)]: every item must be a string. *)
Definition join_items (items : list name_query) : M string :=
  let strs :=
    fix strs (l : list name_query) : option (list string) :=
      match l with
      | [] => Some []
      | NStr s :: r => option_map (cons s) (strs r)
      | NList _ :: _ => None
      end in
  match strs items with
  | Some ss => ret (PyStr.join "" ss)
  | None => raise TypeError
  end.

(** The [Fully join query] step. *)
Definition full_query (paper_name authors_name pairs_name : string)
  (nq : name_query) : M string :=
  let q := select_clause paper_name authors_name pairs_name in
  let tail := join_clause paper_name authors_name pairs_name in
  let differs := match nq with
                 | NStr s => negb (String.eqb s "")
                 | NList _ => true
                 end in
  if differs then
    join_items
      ([NStr q; NStr "WHERE "; nq]
       ++ match tail with
          | t :: r => List.map NStr (("AND " ++ t) :: r)
          | [] => []
          end)
  else
    join_items ([NStr q; NStr "WHERE "] ++ List.map NStr tail).

(** The text of the query for the given terms. *)
Definition compose (paper_name authors_name pairs_name : string)
  (any_nm last_nm first_nm initials_nm : pyval) : M string :=
  full_query paper_name authors_name pairs_name
    (join_names (name_pieces authors_name last_nm first_nm initials_nm)
       (any_name_query authors_name any_nm)).

Definition require_table (conx : connection) (name : string) : M unit :=
  if has_table conx name then ret tt else raise ValueError.

(** [matches.firstauthor.astype(bool)] *)
Definition firstauthor_bool (r : match_row) : match_row :=
  MatchRow (m_fullname r) (PBool (Py.truthy (m_firstauthor r))) (m_paper r).

(** The body of [query] from the connection on. *)
Definition run_query (conx : connection)
  (db_name paper_name authors_name pairs_name : string)
  (any_nm last_nm first_nm initials_nm : pyval) : M (list match_row) :=
  require_table conx paper_name ;;;
  require_table conx authors_name ;;;
  require_table conx pairs_name ;;;
  q <- compose paper_name authors_name pairs_name
         any_nm last_nm first_nm initials_nm ;;
  display_message
    ("Attempting SQLite query on database:" ++ db_name
     ++ " " ++ nl ++ " " ++ tab ++ " Query text: " ++ nl ++ " " ++ tab ++ q)
    "info" ;;;
  matches <- read_sql_query conx q ;;
  let matches := List.map firstauthor_bool matches in
  display_message
    ("Query successful. Returning "
     ++ PyStr.of_Z (Z.of_nat (List.length matches))
     ++ " records as pandas dataframe.") "info" ;;;
  ret matches.

Definition query_error (e : exn) : M (option (list match_row)) :=
  display_message
    ("There was an error in querying SQLite." ++ nl ++ tab
     ++ " Error details: "
     ++ exn_text e) "error" ;;;
  ret None.

(** [finally: if conx: conx.close()] where [conx] was never assigned. *)
Definition finally_unbound {A} (m : M A) : M A :=
  match m with
  | Returns _ l => Raises UnboundLocalError l
  | Raises _ l => Raises UnboundLocalError l
  end.

(** [query]: [validate] is the outcome of [validators.path] on the
    database path, [connect] the outcome of [sqlite3.connect]. *)
Definition query (validate : M string) (connect : string -> M connection)
  (paper_name authors_name pairs_name : string)
  (any_nm last_nm first_nm initials_nm : pyval)
  : M (option (list match_row)) :=
  let before :=
    db_name <- validate ;;
    terms <- normalize any_nm last_nm first_nm initials_nm ;;
    conx <- connect db_name ;;
    ret (db_name, terms, conx) in
  match before with
  | Raises e l =>
      finally_unbound (try_except (Raises e l) query_error)
  | Returns (db_name, (any_nm, last_nm, first_nm, initials_nm), conx) l =>
      try_except
        (Returns tt l ;;;
         m <- run_query conx db_name paper_name authors_name pairs_name
                any_nm last_nm first_nm initials_nm ;;
         ret (Some m))
        query_error
  end.

End sql.

(** ** Inputs of the scenarios *)

(** Year "2021", Month "10", Day "15". *)
Definition date_obj_2021_10_15 : pyval :=
  PDict [("Year", PStr "2021"); ("Month", PStr "10"); ("Day", PStr "15")].

(** The raw record of the end-to-end scenario. *)
Definition study_x : pyval :=
  PDict
    [("PMID", PStr "12345");
     ("Article",
      PDict
        [("ArticleTitle", PStr "Study X");
         ("AuthorList",
          PList [PDict [("ForeName", PStr "Jane Q");
                        ("Initials", PStr "JQ");
                        ("LastName", PStr "Doe")]]);
         ("Journal",
          PDict
            [("Title", PStr "J Test");
             ("JournalIssue",
              PDict [("Volume", PStr "12");
                     ("Issue", PStr "Suppl 2");
                     ("PubDate",
                      PDict [("Year", PStr "2020");
                             ("Month", PStr "Jan")])])])])].


(** A database that has the three default tables and answers every query
    with no row. *)
Definition three_tables : sql.connection :=
  sql.Connection
    (fun name =>
       List.existsb (String.eqb name)
         ["papers"; "authors"; "pairs_authorpapers"])
    (fun _ => ret []).

(** ** Notions used in the statements *)

(** What [f'{pmid}'] writes for the identifier of a record: the decimal
    digits of the integer, or the name of [None]. *)
Definition id_text (pmid : option Z) : string :=
  match pmid with
  | Some z => PyStr.of_Z z
  | None => "None"
  end.

(** The number a text of decimal digits stands for. *)
Definition number (s : string) : Z := PyStr.digits_value 0 s.

(** A year as [%Y] reads it: four decimal digits. *)
Definition four_digits (y : string) : bool :=
  (String.length y =? 4)%nat && PyStr.forallb PyStr.is_ascii_digit y.

(** The calendar date that the texts of a year, a month and a day form,
    when they form one. *)
Definition calendar_date (y m d : string) : option date :=
  if four_digits y && valid_date (number y) (number m) (number d)
  then Some (Date (number y) (number m) (number d))
  else None.

(** The month and day texts the acceptance steps of [format_date] let
    through. *)
Definition month_texts : list string :=
  ["01"; "02"; "03"; "04"; "05"; "06"; "07"; "08"; "09"; "10"; "11"; "12"].

Definition day_texts : list string :=
  ["01"; "02"; "03"; "04"; "05"; "06"; "07"; "08"; "09"].

(** The date the accepted fields resolve to: without a day it is the first
    of the month, without a month the first of January. *)
Definition resolved_date (y : string) (om od : option string)
  : option date :=
  match om, od with
  | Some m, Some d => calendar_date y m d
  | Some m, None => calendar_date y m "01"
  | None, _ => calendar_date y "01" "01"
  end.

(** The year texts the acceptance step lets through, by cases: four
    decimal digits; or a text that [%Y] cannot read, because one of its
    first four characters is no decimal digit or because a fifth character
    follows. *)
Inductive year_shape (y : string) : Prop :=
| YearFour (a b c e : ascii) :
    y = String a (String b (String c (String e EmptyString))) ->
    PyStr.forallb PyStr.is_ascii_digit y = true ->
    year_shape y
| YearOdd (a b c e : ascii) (r : string) :
    y = String a (String b (String c (String e r))) ->
    PyStr.forallb PyStr.is_ascii_digit
      (String a (String b (String c (String e EmptyString)))) = false ->
    year_shape y
| YearLong (a b c e g : ascii) (r : string) :
    y = String a (String b (String c (String e (String g r)))) ->
    PyStr.forallb PyStr.is_ascii_digit
      (String a (String b (String c (String e EmptyString)))) = true ->
    PyStr.isdigit_char g = true ->
    year_shape y.

(** What the specification asks of the three relations
    [(papers, authors, pairs)]: no identifier twice among the papers, no
    full name twice among the authors, and every pair pointing at a paper
    and at an author. *)
Definition keys_hold
  (tables : list sql.paper_row * list sql.author_row * list sql.pair_row)
  : Prop :=
  let '(papers, authors, pairs) := tables in
  NoDup (List.map sql.p_pmid papers)
  /\ NoDup (List.map sql.a_fullname authors)
  /\ forall pr, In pr pairs ->
       In (sql.r_pmid pr) (List.map sql.p_pmid papers)
       /\ In (sql.r_fullname pr) (List.map sql.a_fullname authors).

(** The language table of the scenarios, and the paper columns of a paper
    in English with a title and nothing else. *)
Definition english : list (string * string) := [("'eng'", "'English'")].

Definition sample_cols : pubmed_tool.paper_cols :=
  pubmed_tool.PaperCols (Some "study x") None None None None None None None
    None (Some "['eng']") None None None.

Definition one_author (pmid : Z) (first last initials : string)
  : pubmed_tool.in_row :=
  pubmed_tool.InRow pmid
    (Some [Some (scr.NameDict "1" (Some first) (Some last) (Some initials))])
    sample_cols.

(** Two papers by two different authors whose name fields concatenate to
    the same full name. *)
Definition same_fullname_batch : list pubmed_tool.in_row :=
  [one_author 1 "li wei" "chen" "l"; one_author 2 "wei" "chen li" "l"].

(** The paper columns of [sample_cols] in a formatted table. *)
Definition formatted_cols : pubmed_tool.paper_cols :=
  pubmed_tool.PaperCols (Some "study x") None (Some "[]") None None None None
    None None (Some "['English']") None None None.

(** The table [same_fullname_batch] is formatted to. *)
Definition same_fullname_table : list pubmed_tool.out_row :=
  [pubmed_tool.OutRow 1 formatted_cols 1 true
     (Some "li wei") (Some "chen") (Some "l");
   pubmed_tool.OutRow 2 formatted_cols 1 true
     (Some "wei") (Some "chen li") (Some "l")].

(** A paper without authors and a paper with one author. *)
Definition mixed_batch : list pubmed_tool.in_row :=
  [pubmed_tool.InRow 1 None sample_cols; one_author 2 "jane" "doe" "jq"].

(** A formatted table of two papers that share an author. *)
Definition shared_author_table : list pubmed_tool.out_row :=
  [pubmed_tool.OutRow 1 sample_cols 2 true
     (Some "jane") (Some "doe") (Some "jq");
   pubmed_tool.OutRow 1 sample_cols 2 false
     (Some "john") (Some "roe") (Some "j");
   pubmed_tool.OutRow 2 sample_cols 1 true
     (Some "jane") (Some "doe") (Some "jq")].

(** The rows of the formatted table for the paper [p] are one row, the
    row of a paper with no author listed. *)
Definition none_listed_once (out : list pubmed_tool.out_row) (p : Z) : Prop :=
  exists o,
    List.filter (fun r => pubmed_tool.out_pmid r =? p) out = [o]
    /\ pubmed_tool.out_last o = Some "None Listed"
    /\ pubmed_tool.numauthors o = 0
    /\ pubmed_tool.firstauthor o = false.

(** The [order] cell of an exploded item converts to an integer. *)
Definition order_converts (x : pubmed_tool.in_row * pubmed_tool.author_item)
  : bool :=
  match snd x with
  | pubmed_tool.Item (Some d) =>
      match pubmed_tool.order_int
              (pubmed_tool.blank_to_nan (Some (scr.order d))) with
      | Returns _ _ => true
      | Raises _ _ => false
      end
  | _ => true
  end.

Definition items_of (in_df : list pubmed_tool.in_row)
  : list (pubmed_tool.in_row * pubmed_tool.author_item) :=
  List.concat (List.map pubmed_tool.explode in_df).

(** The number of rows of the batch with the identifier [p]. *)
Definition occurrences (p : Z) (in_df : list pubmed_tool.in_row) : nat :=
  List.length (List.filter (fun x => pubmed_tool.in_pmid x =? p) in_df).

(** The month and day texts [%m] and [%d] read: one or two digits. *)
Definition month_forms : list string :=
  (month_texts ++ ["1"; "2"; "3"; "4"; "5"; "6"; "7"; "8"; "9"])%list.

Definition day_forms : list string :=
  (day_texts
   ++ ["10"; "11"; "12"; "13"; "14"; "15"; "16"; "17"; "18"; "19";
       "20"; "21"; "22"; "23"; "24"; "25"; "26"; "27"; "28"; "29";
       "30"; "31"]
   ++ ["1"; "2"; "3"; "4"; "5"; "6"; "7"; "8"; "9"])%list.



(** A text of two decimal digits. *)
Definition two_digits (s : string) : bool :=
  (String.length s =? 2)%nat && PyStr.forallb PyStr.is_ascii_digit s.

(** A month and a day of that month in a year that is no leap year. *)
Definition common_year_day (m d : Z) : bool := valid_date 2001 m d.

(** The ten decimal digits. *)
Definition decimal_digits : list ascii := list_ascii_of_string "0123456789".

(** * Properties *)

(** ** Worked values of the string and builtin layer *)

Example lower_strip_ex : PyStr.strip (PyStr.lower "  Suppl 2 ") = "suppl 2".
Proof. reflexivity. Qed.

Example replace_ex : PyStr.replace "ab" "x" "aababab" = "axxx".
Proof. reflexivity. Qed.

Example split_ex : PyStr.split " " "jane  q" = ["jane"; ""; "q"].
Proof. reflexivity. Qed.

Example of_Z_ex : PyStr.of_Z 12345 = "12345" /\ PyStr.of_Z 0 = "0".
Proof. split; reflexivity. Qed.

Example int_ex :
  Py.int " +1_000 " = ret 1000 /\ Py.int "1__0" = raise ValueError.
Proof. split; reflexivity. Qed.

Example pgn_search_ex :
  scr.pgn_search "e12-e34" = Some ("e12", "e34")
  /\ scr.pgn_search "1234" = Some ("12", "4").
Proof. split; reflexivity. Qed.

(** ** Facts about [lower] and [strip] *)

Lemma lower_char_idem :
  forall c, PyStr.lower_char (PyStr.lower_char c) = PyStr.lower_char c.
Proof. intros [[] [] [] [] [] [] [] []]; reflexivity. Qed.

Lemma isspace_lower_char :
  forall c, PyStr.isspace_char (PyStr.lower_char c) = PyStr.isspace_char c.
Proof. intros [[] [] [] [] [] [] [] []]; reflexivity. Qed.

Lemma lower_idem : forall s, PyStr.lower (PyStr.lower s) = PyStr.lower s.
Proof.
  induction s as [|c r IH]; simpl; [ reflexivity | ].
  now rewrite lower_char_idem, IH.
Qed.

Lemma lstrip_lower :
  forall s, PyStr.lstrip (PyStr.lower s) = PyStr.lower (PyStr.lstrip s).
Proof.
  induction s as [|c r IH]; simpl; [ reflexivity | ].
  rewrite isspace_lower_char.
  destruct (PyStr.isspace_char c); [ exact IH | reflexivity ].
Qed.

Lemma rstrip_lower :
  forall s, PyStr.rstrip (PyStr.lower s) = PyStr.lower (PyStr.rstrip s).
Proof.
  induction s as [|c r IH]; simpl; [ reflexivity | ].
  rewrite IH, isspace_lower_char.
  destruct (PyStr.rstrip r); simpl;
    [ destruct (PyStr.isspace_char c); reflexivity | reflexivity ].
Qed.

Lemma strip_lower :
  forall s, PyStr.strip (PyStr.lower s) = PyStr.lower (PyStr.strip s).
Proof.
  intros s. unfold PyStr.strip. now rewrite lstrip_lower, rstrip_lower.
Qed.

Lemma rstrip_idem : forall s, PyStr.rstrip (PyStr.rstrip s) = PyStr.rstrip s.
Proof.
  induction s as [|c r IH]; simpl; [ reflexivity | ].
  destruct (PyStr.rstrip r) as [|c' r'] eqn:E.
  - destruct (PyStr.isspace_char c) eqn:Ec; simpl;
      [ reflexivity | now rewrite Ec ].
  - simpl. simpl in IH. rewrite IH. reflexivity.
Qed.

Lemma lstrip_head :
  forall s,
    PyStr.lstrip s = EmptyString
    \/ exists c r,
        PyStr.lstrip s = String c r /\ PyStr.isspace_char c = false.
Proof.
  induction s as [|c r IH]; simpl; [ now left | ].
  destruct (PyStr.isspace_char c) eqn:E; [ exact IH | right; eauto ].
Qed.

Lemma rstrip_head :
  forall c r, PyStr.isspace_char c = false ->
    exists r', PyStr.rstrip (String c r) = String c r'.
Proof.
  intros c r E. simpl. destruct (PyStr.rstrip r); [ rewrite E | ]; eauto.
Qed.

Lemma strip_idem : forall s, PyStr.strip (PyStr.strip s) = PyStr.strip s.
Proof.
  intros s. unfold PyStr.strip.
  destruct (lstrip_head s) as [E | [c [r [E Ec]]]]; rewrite E;
    [ reflexivity | ].
  destruct (rstrip_head c r Ec) as [r' E'].
  rewrite E'. simpl PyStr.lstrip. rewrite Ec. rewrite <- E'.
  apply rstrip_idem.
Qed.

(** Stripping and lower-casing a second time changes nothing. *)
Lemma lower_strip_idem :
  forall s,
    PyStr.lower (PyStr.strip (PyStr.lower (PyStr.strip s)))
    = PyStr.lower (PyStr.strip s).
Proof. intros s. now rewrite strip_lower, strip_idem, lower_idem. Qed.

(** ** Volume and issue tokens *)

Example issue_vol_supplement :
  scr.issue_vol (PStr "Suppl 2") None
  = ret (Some (None, Some "Supplement", Some "2")).
Proof. reflexivity. Qed.

Example issue_vol_number :
  scr.issue_vol (PStr "12") None = ret (Some (Some 12, None, None)).
Proof. reflexivity. Qed.

(** C8, as stated, fails: resolving the token "3-4" does not give a
    missing number together with the kind "Issue Range". *)
Lemma issue_vol_3_4_number_not_missing :
  ~ (exists aux log,
        scr.issue_vol (PStr "3-4") None
        = Returns (Some (None, Some "Issue Range", aux)) log).
Proof.
  intros [aux [log H]]. vm_compute in H. discriminate H.
Qed.

(** C8 (amended): for the token "3-4" the number is the leading digit
    group, 3, the designator kind is "Issue Range", and the trailing group
    "4" is the auxiliary value. *)
Theorem issue_vol_3_4 :
  forall pmid,
    scr.issue_vol (PStr "3-4") pmid
    = ret (Some (Some 3, Some "Issue Range", Some "4")).
Proof. intros pmid. reflexivity. Qed.

(** ** Field acceptance of dates *)

(** C3: the code refuses a two-digit month and a two-digit day.  For
    Year "2021", Month "10", Day "15" neither field is accepted, and the
    date comes out as the first of January. *)
Theorem format_date_refuses_two_digit_month_and_day :
  scr.accept_year date_obj_2021_10_15 = ret (Some "2021")
  /\ scr.accept_month date_obj_2021_10_15 = ret None
  /\ scr.accept_day date_obj_2021_10_15 = ret None
  /\ scr.format_date date_obj_2021_10_15 None = ret (Some (Date 2021 1 1)).
Proof. repeat split; reflexivity. Qed.

Example format_date_feb_30 :
  scr.format_date
    (PDict [("Year", PStr "2023"); ("Month", PStr "2"); ("Day", PStr "30")])
    None
  = ret (Some (Date 2023 2 1)).
Proof. reflexivity. Qed.

Example format_date_one_digit_fields :
  scr.format_date
    (PDict [("Year", PStr "2023"); ("Month", PStr "2"); ("Day", PStr "3")])
    None
  = ret (Some (Date 2023 2 3)).
Proof. reflexivity. Qed.

Example format_date_season :
  scr.format_date (PDict [("Year", PStr "1999"); ("Month", PStr "Fal")]) None
  = ret (Some (Date 1999 9 1)).
Proof. reflexivity. Qed.

(** ** The end-to-end scenario *)

(** C1: on the record of the scenario the scraped fields come out as
    stated except the designator.  The issue "Suppl 2" resolves to the kind
    "Supplement", but the volume "12" is resolved afterwards and its empty
    designator is stored over it: [other_type] and [other_val] are missing
    in the scraped record.  The author count and the first-author flag are
    never computed: the record has no language, and the table of this one
    record is refused by [format_df] whatever its other columns are. *)
Theorem study_x_designator_lost :
  scr.issue_vol (PStr "Suppl 2") (Some 12345)
  = ret (Some (None, Some "Supplement", Some "2"))
  /\ exists c,
    scr.single_record study_x = ret (Some c)
    /\ scr.pmid c = Some 12345
    /\ scr.authors (scr.article c)
       = Some [Some (scr.NameDict "1" (Some "jane") (Some "doe")
                       (Some "jq"))]
    /\ scr.volume (scr.jour (scr.article c)) = Some 12
    /\ scr.pubdate (scr.jour (scr.article c)) = Some (Date 2020 1 1)
    /\ scr.language (scr.article c) = None
    /\ scr.other_type (scr.jour (scr.article c)) = None
    /\ scr.other_val (scr.jour (scr.article c)) = None
    /\ forall lang_dict p,
      pubmed_tool.language p = None ->
      pubmed_tool.format_df lang_dict
        [pubmed_tool.InRow 12345 (scr.authors (scr.article c)) p]
      = raise AttributeError.
Proof.
  split; [ reflexivity | ].
  eexists.
  split; [ vm_compute; reflexivity | ].
  repeat (split; [ reflexivity | ]).
  intros lang_dict p Hp. unfold pubmed_tool.format_df.
  cbn [scr.authors scr.article List.map List.concat pubmed_tool.explode
       pubmed_tool.in_authors app pubmed_tool.has_order_column List.existsb
       snd orb].
  assert (Hl : pubmed_tool.has_language
                 [pubmed_tool.InRow 12345
                    (Some [Some (scr.NameDict "1" (Some "jane") (Some "doe")
                                   (Some "jq"))]) p] = false).
  { unfold pubmed_tool.has_language. cbn. now rewrite Hp. }
  rewrite Hl. reflexivity.
Qed.

(** ** The query composer *)

(** C6: with no search term the list of name predicates is still a list
    when the clauses are joined, the join raises, and [query] reports the
    error and returns nothing; the database is never asked. *)
Theorem query_without_terms_returns_nothing :
  forall db_name connect conx paper_name authors_name pairs_name,
    connect db_name = ret conx ->
    sql.has_table conx paper_name = true ->
    sql.has_table conx authors_name = true ->
    sql.has_table conx pairs_name = true ->
    sql.query (ret db_name) connect paper_name authors_name pairs_name
      PNone PNone PNone PNone
    = Returns None
        [Message "error"
           ("There was an error in querying SQLite." ++ nl ++ tab
            ++ " Error details: " ++ exn_text TypeError)].
Proof.
  intros db_name connect conx paper_name authors_name pairs_name
    Hconx Hp Ha Hr.
  unfold sql.query. simpl. rewrite Hconx. simpl.
  unfold sql.run_query, sql.require_table.
  rewrite Hp, Ha, Hr. reflexivity.
Qed.

Lemma query_without_terms_returns_nothing_witness :
  sql.query (ret "publications.db") (fun _ => ret three_tables)
    "papers" "authors" "pairs_authorpapers" PNone PNone PNone PNone
  = Returns None
      [Message "error"
         ("There was an error in querying SQLite." ++ nl ++ tab
          ++ " Error details: " ++ exn_text TypeError)].
Proof.
  apply (query_without_terms_returns_nothing "publications.db"
           (fun _ => ret three_tables) three_tables);
    reflexivity.
Defined.

Example query_any_term_reaches_database :
  raised
    (sql.query (ret "publications.db") (fun _ => ret three_tables)
       "papers" "authors" "pairs_authorpapers" (PStr "doe") PNone PNone PNone)
  = None
  /\ exists log,
      sql.query (ret "publications.db") (fun _ => ret three_tables)
        "papers" "authors" "pairs_authorpapers" (PStr "doe") PNone PNone PNone
      = Returns (Some []) log.
Proof. split; [ reflexivity | eexists; reflexivity ]. Qed.

(** Without a last-name term a first-name term makes [query] raise: the
    handler reports the error, and the final clause then meets a connection
    that was never opened. *)
Example query_first_name_alone_raises :
  raised
    (sql.query (ret "publications.db") (fun _ => ret three_tables)
       "papers" "authors" "pairs_authorpapers" PNone PNone (PStr "Jane") PNone)
  = Some UnboundLocalError.
Proof. reflexivity. Qed.

(** Normalisation with a last-name term [l]: the three name terms, when
    given, all become the stripped, lower-cased [l]. *)
Lemma normalize_with_last_name :
  forall any_nm l first_nm initials_nm,
    l <> "" ->
    let term := PStr (PyStr.lower (PyStr.strip l)) in
    sql.normalize any_nm (PStr l) first_nm initials_nm
    = (any_nm' <- sql.assign_from any_nm any_nm ;;
       ret (any_nm', term,
            (if Py.truthy first_nm then term else first_nm),
            (if Py.truthy initials_nm then term else initials_nm))).
Proof.
  intros any_nm l first_nm initials_nm Hl term.
  assert (Hlt : Py.truthy (PStr l) = true).
  { destruct l; [ congruence | reflexivity ]. }
  unfold sql.normalize.
  assert (H1 : sql.assign_from (PStr l) (PStr l) = ret term).
  { unfold sql.assign_from. rewrite Hlt. reflexivity. }
  assert (H2 : forall t, sql.assign_from t term
                         = ret (if Py.truthy t then term else t)).
  { intros t. unfold sql.assign_from.
    destruct (Py.truthy t); [ | reflexivity ].
    unfold term. simpl. rewrite lower_strip_idem. reflexivity. }
  rewrite H1. simpl. rewrite (H2 first_nm). simpl.
  rewrite (H2 initials_nm). simpl.
  destruct (sql.assign_from any_nm any_nm); reflexivity.
Qed.



(** The query text for the last name "Doe" and the first name "Jane"
    matches the first-name column against "doe"; "jane" is nowhere in
    it. *)
Example compose_first_name_ignored :
  forall first_nm,
    Py.truthy first_nm = true ->
    (terms <- sql.normalize PNone (PStr "Doe") first_nm PNone ;;
     let '(a, l, f, i) := terms in
     sql.compose "papers" "authors" "pairs" a l f i)
    = (terms <- sql.normalize PNone (PStr "Doe") (PStr "Doe") PNone ;;
       let '(a, l, f, i) := terms in
       sql.compose "papers" "authors" "pairs" a l f i).
Proof.
  intros first_nm Hf.
  rewrite !normalize_with_last_name by discriminate.
  simpl. rewrite Hf. reflexivity.
Qed.

(** ** Facts about the monad *)

Lemma bind_ret_l : forall {A B} (a : A) (k : A -> M B), bind (ret a) k = k a.
Proof. intros A B a k. unfold bind, ret. destruct (k a); reflexivity. Qed.

Lemma bind_returns :
  forall {A B} (m : M A) (k : A -> M B) (b : B) (l : list message),
    bind m k = Returns b l ->
    exists a l1 l2,
      m = Returns a l1 /\ k a = Returns b l2 /\ l = (l1 ++ l2)%list.
Proof.
  intros A B m k b l H. destruct m as [a l1 | e l1]; simpl in H.
  - destruct (k a) as [w l2 | e l2] eqn:E; inversion H; subst.
    exists a, l1, l2. repeat split; assumption.
  - discriminate H.
Qed.

Lemma bind_ret_inv :
  forall {A B} (m : M A) (k : A -> M B) (b : B),
    bind m k = ret b -> exists a, m = ret a /\ k a = ret b.
Proof.
  intros A B m k b H. unfold ret in H.
  apply bind_returns in H as (a & l1 & l2 & Hm & Hk & Hl).
  symmetry in Hl. apply app_eq_nil in Hl as [-> ->]. eauto.
Qed.

Lemma returns_inj :
  forall {A} (a b : A) (l l' : list message),
    Returns a l = Returns b l' -> a = b.
Proof. intros A a b l l' H. now inversion H. Qed.

(** A normaliser that returns a value returns what its body returns. *)
Lemma try_except_report_some :
  forall {A} (body : M (option A)) (pmid : option Z) (place : string)
         (x : A) (l : list message),
    try_except body (scr.report pmid place) = Returns (Some x) l ->
    body = Returns (Some x) l.
Proof.
  intros A body pmid place x l H. destruct body as [v lb | e lb]; simpl in H.
  - exact H.
  - unfold scr.report in H.
    destruct (scr.pmid_format pmid) as [t lt | e' lt]; simpl in H;
      discriminate H.
Qed.

(** ** Computations that write no message *)

Lemma bind_log :
  forall {A B} (m : M A) (k : A -> M B),
    log_of m = [] -> (forall a, log_of (k a) = []) ->
    log_of (bind m k) = [].
Proof.
  intros A B m k Hm Hk. destruct m as [a l | e l]; simpl in *.
  - subst l. specialize (Hk a). destruct (k a); simpl in *; assumption.
  - assumption.
Qed.

Lemma int_log : forall s, log_of (Py.int s) = [].
Proof.
  intros s. unfold Py.int.
  destruct (PyStr.strip s) as [|c r].
  - destruct (Py.int_body false 0 ""); [ | reflexivity ].
    destruct (_ <? _); reflexivity.
  - destruct (Ascii.eqb c "-"%char); [ | destruct (Ascii.eqb c "+"%char) ];
      match goal with
      | |- log_of (match ?b with _ => _ end) = _ =>
          destruct b; [ destruct (_ <? _) | ]; reflexivity
      end.
Qed.

Lemma int_no_message :
  forall s z l, Py.int s = Returns z l -> l = [].
Proof.
  intros s z l H. pose proof (int_log s) as Hl. rewrite H in Hl. exact Hl.
Qed.

Lemma format_log : forall v, log_of (Py.format v) = [].
Proof. intros v. unfold Py.format. destruct (Py.writes v); reflexivity. Qed.

Lemma format_str : forall s, Py.format (PStr s) = ret s.
Proof. reflexivity. Qed.

Lemma format_returns :
  forall v t l, Py.format v = Returns t l -> Py.writes v = true /\ l = [].
Proof.
  intros v t l H. unfold Py.format in H.
  destruct (Py.writes v); inversion H; split; reflexivity.
Qed.

Lemma mapM_log :
  forall {A B} (f : A -> M B) (l : list A),
    (forall x, log_of (f x) = []) -> log_of (scr.mapM f l) = [].
Proof.
  intros A B f l Hf. induction l as [|x r IH]; simpl; [ reflexivity | ].
  apply bind_log; [ apply Hf | intros y ].
  apply bind_log; [ exact IH | reflexivity ].
Qed.

Lemma has_key_log : forall k v, log_of (Py.has_key k v) = [].
Proof. intros k [| | | | |d]; reflexivity. Qed.

Lemma getitem_log : forall v k, log_of (Py.getitem v k) = [].
Proof.
  intros [| | | | |d] k; try reflexivity.
  simpl. destruct (Py.lookup k d); reflexivity.
Qed.

Lemma getindex_log : forall v i, log_of (Py.getindex v i) = [].
Proof.
  intros [| | | |l|d] i; try reflexivity; simpl;
    match goal with |- log_of (match ?x with _ => _ end) = [] => destruct x end;
    reflexivity.
Qed.

Lemma len_log : forall v, log_of (Py.len v) = [].
Proof. intros [| | | | |]; reflexivity. Qed.

Lemma lower_log : forall v, log_of (Py.lower v) = [].
Proof. intros [| | | | |]; reflexivity. Qed.

Lemma strip_log : forall v, log_of (Py.strip v) = [].
Proof. intros [| | | | |]; reflexivity. Qed.

(** Solves goals [log_of m = []] for computations built from the builtins
    with [bind], [if] and [match]. *)
Ltac silent :=
  repeat first
    [ reflexivity
    | apply int_log | apply format_log | apply has_key_log
    | apply getitem_log | apply getindex_log | apply len_log
    | apply lower_log | apply strip_log
    | apply bind_log; [ | intros ? ]
    | apply mapM_log; intros ?
    | match goal with
      | |- log_of (if ?b then _ else _) = [] => destruct b
      | |- log_of (match ?x with _ => _ end) = [] => destruct x
      end ].

Lemma lower_strip_log : forall d k, log_of (scr.lower_strip d k) = [].
Proof. intros d k. unfold scr.lower_strip. silent. Qed.

Lemma nonempty_item_log : forall d k, log_of (scr.nonempty_item d k) = [].
Proof. intros d k. unfold scr.nonempty_item. silent. Qed.

Lemma accept_year_log : forall v, log_of (scr.accept_year v) = [].
Proof.
  intros v. unfold scr.accept_year.
  apply bind_log; [ apply has_key_log | intros [|]; [ | reflexivity ] ].
  apply bind_log; [ apply lower_strip_log | intros y ]. silent.
Qed.

Lemma numeric_field_log :
  forall s,
    log_of (if PyStr.isdigit s then
              inr <- scr.in_range_1_13 s ;;
              if inr && (String.length s <? 2)%nat
              then m <- scr.zero_pad s ;; ret (Some m)
              else ret None
            else ret None) = [].
Proof. intros s. unfold scr.in_range_1_13, scr.zero_pad. silent. Qed.

Lemma accept_month_log : forall v, log_of (scr.accept_month v) = [].
Proof.
  intros v. unfold scr.accept_month.
  apply bind_log; [ apply has_key_log | intros [|]; [ | reflexivity ] ].
  apply bind_log; [ apply lower_strip_log | intros m ].
  destruct (negb (PyStr.isdigit m));
    destruct (scr.assoc m scr.months_dict);
    first [ reflexivity | apply numeric_field_log ].
Qed.

Lemma accept_day_log : forall v, log_of (scr.accept_day v) = [].
Proof.
  intros v. unfold scr.accept_day.
  apply bind_log; [ apply has_key_log | intros [|]; [ | reflexivity ] ].
  apply bind_log; [ apply lower_strip_log | intros m ].
  apply numeric_field_log.
Qed.

Lemma returns_ret :
  forall {A} (m : M A) (a : A) (l : list message),
    m = Returns a l -> log_of m = [] -> m = ret a.
Proof. intros A m a l -> H. simpl in H. now subst l. Qed.

(** ** Decimal digit strings *)

Ltac ascii_cases c := destruct c as [[] [] [] [] [] [] [] []].

Lemma digit_facts :
  forall c, PyStr.is_ascii_digit c = true ->
    PyStr.isspace_char c = false /\ PyStr.lower_char c = c
    /\ PyStr.isdigit_char c = true
    /\ Ascii.eqb c "-"%char = false /\ Ascii.eqb c "+"%char = false
    /\ Ascii.eqb c "_"%char = false
    /\ (if ascii_dec "\"%char c then true else false) = false.
Proof.
  intros c H. ascii_cases c; try discriminate H; repeat split; reflexivity.
Qed.

Lemma digits_lower :
  forall s, PyStr.forallb PyStr.is_ascii_digit s = true -> PyStr.lower s = s.
Proof.
  induction s as [|c r IH]; simpl; intros H; [ reflexivity | ].
  apply andb_prop in H as [Hc Hr].
  destruct (digit_facts c Hc) as (_ & -> & _). now rewrite IH.
Qed.

Lemma digits_rstrip :
  forall s, PyStr.forallb PyStr.is_ascii_digit s = true -> PyStr.rstrip s = s.
Proof.
  induction s as [|c r IH]; simpl; intros H; [ reflexivity | ].
  apply andb_prop in H as [Hc Hr].
  destruct (digit_facts c Hc) as (Hs & _). rewrite (IH Hr), Hs.
  destruct r; reflexivity.
Qed.

Lemma digits_strip :
  forall s, PyStr.forallb PyStr.is_ascii_digit s = true -> PyStr.strip s = s.
Proof.
  intros s H. unfold PyStr.strip.
  assert (E : PyStr.lstrip s = s).
  { destruct s as [|c r]; [ reflexivity | ]. simpl in *.
    apply andb_prop in H as [Hc _].
    destruct (digit_facts c Hc) as (-> & _). reflexivity. }
  rewrite E. now apply digits_rstrip.
Qed.

Lemma digits_replace :
  forall s, PyStr.forallb PyStr.is_ascii_digit s = true ->
    PyStr.replace "\xa0" " " s = s.
Proof.
  unfold PyStr.replace.
  induction s as [|c r IH]; intros H; [ reflexivity | ].
  simpl in H. apply andb_prop in H as [Hc Hr].
  destruct (digit_facts c Hc) as (_ & _ & _ & _ & _ & _ & Hb).
  cbn [PyStr.replace_from prefix]. 
  destruct (ascii_dec "\"%char c) as [E|E]; [ discriminate Hb | ].
  now rewrite (IH Hr).
Qed.

Lemma digits_int_body :
  forall s acc b, PyStr.forallb PyStr.is_ascii_digit s = true ->
    (b = true \/ s <> "") ->
    Py.int_body b acc s = Some (PyStr.digits_value acc s).
Proof.
  induction s as [|c r IH]; intros acc b H Hb.
  - destruct Hb as [-> | Hn]; [ reflexivity | congruence ].
  - simpl in H. apply andb_prop in H as [Hc Hr]. simpl. rewrite Hc.
    apply IH; [ exact Hr | now left ].
Qed.

Lemma digits_count :
  forall s, PyStr.forallb PyStr.is_ascii_digit s = true ->
    PyStr.digit_count s = String.length s.
Proof.
  induction s as [|c r IH]; simpl; intros H; [ reflexivity | ].
  apply andb_prop in H as [Hc Hr]. now rewrite Hc, IH.
Qed.

(** [int] on a non-empty string of decimal digits, no more of them than
    the bound, returns its value. *)
Lemma digits_int :
  forall s, PyStr.forallb PyStr.is_ascii_digit s = true -> s <> "" ->
    Z.of_nat (String.length s) <= Py.max_str_digits ->
    Py.int s = ret (PyStr.digits_value 0 s).
Proof.
  intros s H Hn Hb. unfold Py.int. rewrite (digits_strip s H).
  destruct s as [|c r]; [ congruence | ].
  assert (Hc : PyStr.is_ascii_digit c = true).
  { simpl in H. now apply andb_prop in H as [Hc _]. }
  destruct (digit_facts c Hc) as (_ & _ & _ & -> & -> & _).
  rewrite (digits_int_body (String c r) 0 false H) by (right; discriminate).
  rewrite (digits_count _ H).
  destruct (Z.ltb_spec Py.max_str_digits
              (Z.of_nat (String.length (String c r)))) as [Hlt | _];
    [ lia | ].
  f_equal. destruct (PyStr.digits_value 0 (String c r)); reflexivity.
Qed.

(** A text of a few digits is within the bound. *)
Lemma short_within_bound :
  forall s, (String.length s <= 8)%nat ->
    Z.of_nat (String.length s) <= Py.max_str_digits.
Proof. intros s H. unfold Py.max_str_digits. lia. Qed.

Lemma forallb_existsb :
  forall p s, PyStr.forallb p s = true ->
    PyStr.existsb (fun c => negb (p c)) s = false.
Proof.
  intros p. induction s as [|c r IH]; simpl; intros H; [ reflexivity | ].
  apply andb_prop in H as [Hc Hr]. rewrite Hc. simpl. now apply IH.
Qed.

Lemma digits_forallb_isdigit :
  forall s, PyStr.forallb PyStr.is_ascii_digit s = true ->
    PyStr.forallb PyStr.isdigit_char s = true.
Proof.
  induction s as [|c r IH]; simpl; intros H; [ reflexivity | ].
  apply andb_prop in H as [Hc Hr].
  destruct (digit_facts c Hc) as (_ & _ & -> & _). now apply IH.
Qed.

Lemma digits_isdigit :
  forall s, PyStr.forallb PyStr.is_ascii_digit s = true -> s <> "" ->
    PyStr.isdigit s = true.
Proof.
  intros s H Hn. unfold PyStr.isdigit.
  rewrite (digits_forallb_isdigit s H).
  destruct s; [ congruence | reflexivity ].
Qed.

(** ** [issue_vol] *)

Lemma issue_vol_body_log : forall v, log_of (scr.issue_vol_body v) = [].
Proof.
  intros v. unfold scr.issue_vol_body.
  apply bind_log; [ apply format_log | intros text ].
  cbv zeta. unfold scr.vol_of.
  destruct (scr.three_groups _) as [[g0 g1] g2]. silent.
Qed.

Lemma issue_vol_returns :
  forall v pmid t, scr.issue_vol_body v = ret t ->
    scr.issue_vol v pmid = ret (Some t).
Proof. intros v pmid t H. unfold scr.issue_vol. rewrite H. reflexivity. Qed.

(** When [issue_vol] returns a triple, its body returned it, without a
    message. *)
Lemma issue_vol_some :
  forall v pmid t l, scr.issue_vol v pmid = Returns (Some t) l ->
    scr.issue_vol_body v = ret t.
Proof.
  intros v pmid t l H. unfold scr.issue_vol in H.
  apply try_except_report_some in H.
  apply bind_returns in H as (t' & l1 & l2 & Hb & Hret & _).
  apply returns_inj in Hret. injection Hret as ->.
  exact (returns_ret _ _ _ Hb (issue_vol_body_log v)).
Qed.

Lemma unpack_issue_vol_returns :
  forall v pmid t l, scr.unpack_issue_vol v pmid = Returns t l ->
    scr.issue_vol_body v = ret t.
Proof.
  intros v pmid t l H. unfold scr.unpack_issue_vol in H.
  apply bind_returns in H as (r & l1 & l2 & Hr & Ht & _).
  destruct r as [t'|]; [ | discriminate Ht ].
  apply returns_inj in Ht. subst t'.
  exact (issue_vol_some v pmid t l1 Hr).
Qed.

(** A token of decimal digits alone is read as a number, and has no
    designator. *)
Lemma issue_vol_body_digits_read :
  forall s, PyStr.forallb PyStr.is_ascii_digit s = true -> s <> "" ->
    scr.issue_vol_body (PStr s)
    = (z <- Py.int s ;; ret (Some z, None, None)).
Proof.
  intros s H Hn. unfold scr.issue_vol_body. rewrite format_str, bind_ret_l.
  cbv zeta.
  rewrite (digits_replace s H), (digits_lower s H), (digits_strip s H).
  rewrite (forallb_existsb _ _ H), (digits_isdigit s H Hn).
  reflexivity.
Qed.

Lemma issue_vol_body_digits :
  forall s, PyStr.forallb PyStr.is_ascii_digit s = true -> s <> "" ->
    Z.of_nat (String.length s) <= Py.max_str_digits ->
    scr.issue_vol_body (PStr s)
    = ret (Some (PyStr.digits_value 0 s), None, None).
Proof.
  intros s H Hn Hb. rewrite (issue_vol_body_digits_read s H Hn).
  rewrite (digits_int s H Hn Hb), bind_ret_l. reflexivity.
Qed.

(** ** [journal_content] *)

Lemma getitem_has_key :
  forall d k x, Py.getitem d k = ret x -> Py.has_key k d = ret true.
Proof.
  intros d k x H. destruct d; try discriminate H. simpl in *.
  destruct (Py.lookup k d); [ reflexivity | discriminate H ].
Qed.

Lemma nonempty_item_str :
  forall d k s, Py.getitem d k = ret (PStr s) -> s <> "" ->
    scr.nonempty_item d k = ret (Some (PStr s)).
Proof.
  intros d k s H Hn. unfold scr.nonempty_item.
  rewrite (getitem_has_key d k _ H), bind_ret_l, H, bind_ret_l.
  destruct s; [ congruence | reflexivity ].
Qed.

(** C10: when Volume and Issue are both present and non-empty, the
    designator kind and value of the assembled journal data are the ones
    the Volume token resolves to, whatever the Issue token gave; for a
    Volume of decimal digits alone both are missing. *)
Theorem volume_designator_overwrites_issue :
  forall record pmid ji v i jd log,
    Py.getitem record "JournalIssue" = ret ji ->
    Py.getitem ji "Volume" = ret (PStr v) -> v <> "" ->
    Py.getitem ji "Issue" = ret (PStr i) -> i <> "" ->
    scr.journal_content record pmid = Returns (Some jd) log ->
    scr.issue_vol_body (PStr v)
    = ret (scr.volume jd, scr.other_type jd, scr.other_val jd)
    /\ (PyStr.forallb PyStr.is_ascii_digit v = true ->
        scr.other_type jd = None /\ scr.other_val jd = None).
Proof.
  intros record pmid ji v i jd log Hji Hv Hvn Hi Hin Hjc.
  assert (Hvol : scr.issue_vol_body (PStr v)
                 = ret (scr.volume jd, scr.other_type jd, scr.other_val jd)).
  { unfold scr.journal_content in Hjc.
    apply try_except_report_some in Hjc.
    apply bind_returns in Hjc as (d & l1 & l2 & Hbody & Hret & _).
    inversion Hret; subst d. clear Hret.
    unfold scr.journal_content_body in Hbody.
    apply bind_returns in Hbody as (title & ? & ? & _ & Hbody & _).
    apply bind_returns in Hbody as (abbrev & ? & ? & _ & Hbody & _).
    apply bind_returns in Hbody as (items & ? & ? & Hitems & Hret & _).
    destruct items as [[[[iss vol] oth] val] date].
    inversion Hret; subst jd. clear Hret. simpl.
    unfold scr.journal_issue_items in Hitems.
    rewrite (getitem_has_key _ _ _ Hji), bind_ret_l in Hitems.
    rewrite !Hji, !bind_ret_l in Hitems.
    rewrite (nonempty_item_str ji "Issue" i Hi Hin), bind_ret_l in Hitems.
    rewrite Hi, bind_ret_l in Hitems.
    apply bind_returns in Hitems as (ti & ? & ? & _ & Hitems & _).
    destruct ti as [[iss' oth'] val']. rewrite bind_ret_l in Hitems.
    rewrite (nonempty_item_str ji "Volume" v Hv Hvn), bind_ret_l in Hitems.
    apply bind_returns in Hitems as (tv & ? & ? & Htv & Hitems & _).
    rewrite Hv, bind_ret_l in Htv.
    apply unpack_issue_vol_returns in Htv.
    destruct tv as [[vol' oth''] val'']. rewrite bind_ret_l in Hitems.
    apply bind_returns in Hitems as (p & ? & ? & _ & Hitems & _).
    apply bind_returns in Hitems as (dt & ? & ? & _ & Hret & _).
    inversion Hret; subst. exact Htv. }
  split; [ exact Hvol | ].
  intros Hd. rewrite (issue_vol_body_digits_read v Hd Hvn) in Hvol.
  apply bind_ret_inv in Hvol as (z & _ & Hret).
  inversion Hret. split; reflexivity.
Qed.

Lemma volume_designator_overwrites_issue_witness :
  scr.issue_vol_body (PStr "12") = ret (Some 12, None, None)
  /\ scr.issue_vol_body (PStr "Suppl 2")
     = ret (None, Some "Supplement", Some "2").
Proof.
  split; [ | reflexivity ].
  refine (proj1
    (volume_designator_overwrites_issue
       (PDict [("Title", PStr "J Test");
               ("JournalIssue",
                PDict [("Volume", PStr "12"); ("Issue", PStr "Suppl 2")])])
       None
       (PDict [("Volume", PStr "12"); ("Issue", PStr "Suppl 2")])
       "12" "Suppl 2"
       (scr.JourData (Some "j test") None None (Some 12) None None None)
       [] eq_refl eq_refl _ eq_refl _ eq_refl));
    discriminate.
Defined.

(** ** Date resolution *)

Lemma assoc_in :
  forall k d v, scr.assoc k d = Some v -> In v (List.map snd d).
Proof.
  intros k. induction d as [|[k' v'] r IH]; simpl; intros v H.
  - discriminate H.
  - destruct (String.eqb k k'); [ inversion H; now left | right; auto ].
Qed.

(** A one-character text that [int] reads as a number from 1 to 12 is one
    of the digits 1 to 9; padded with a zero it is one of [day_texts]. *)
Lemma one_char_zero_pad :
  forall c z, Py.int (String c EmptyString) = ret z -> 1 <= z -> z < 13 ->
    In ("0" ++ PyStr.of_Z z) day_texts.
Proof.
  intros c z H H1 H13.
  ascii_cases c; vm_compute in H; try discriminate H;
    inversion H; subst z; try lia; vm_compute; tauto.
Qed.

Lemma short_text :
  forall s, PyStr.isdigit s = true -> (String.length s <? 2)%nat = true ->
    exists c, s = String c EmptyString.
Proof.
  intros s Hd Hl. destruct s as [|c [|c' r]]; try discriminate; eauto.
Qed.

(** What the numeric branch of the month and day steps lets through. *)
Lemma numeric_field_accepted :
  forall s o,
    (if PyStr.isdigit s then
       inr <- scr.in_range_1_13 s ;;
       if inr && (String.length s <? 2)%nat
       then m <- scr.zero_pad s ;; ret (Some m)
       else ret None
     else ret None) = ret (Some o) ->
    In o day_texts.
Proof.
  intros s o H. destruct (PyStr.isdigit s) eqn:Hd; [ | discriminate H ].
  apply bind_ret_inv in H as (inr & Hr & H).
  destruct inr; simpl in H; [ | discriminate H ].
  destruct (String.length s <? 2)%nat eqn:Hl; [ | discriminate H ].
  destruct (short_text s Hd Hl) as [c ->].
  unfold scr.in_range_1_13 in Hr.
  apply bind_ret_inv in Hr as (z & Hz & Hr). inversion Hr as [Hb].
  apply andb_prop in Hb as [H1 H13].
  apply bind_ret_inv in H as (m & Hm & H). inversion H; subst o.
  unfold scr.zero_pad in Hm. rewrite Hz, bind_ret_l in Hm.
  inversion Hm; subst m.
  apply (one_char_zero_pad c z Hz); lia.
Qed.

Lemma day_in_month_texts : forall d, In d day_texts -> In d month_texts.
Proof. intros d H. simpl in *. tauto. Qed.

Lemma accept_month_values :
  forall date_obj m,
    scr.accept_month date_obj = ret (Some m) -> In m month_texts.
Proof.
  intros date_obj m H. unfold scr.accept_month in H.
  apply bind_ret_inv in H as (has & _ & H).
  destruct has; [ | discriminate H ].
  apply bind_ret_inv in H as (month & _ & H).
  destruct (negb (PyStr.isdigit month)) eqn:Hn;
    destruct (scr.assoc month scr.months_dict) as [v|] eqn:Ha.
  - inversion H; subst v. apply assoc_in in Ha. simpl in Ha. simpl. tauto.
  - apply day_in_month_texts. now apply (numeric_field_accepted month).
  - apply day_in_month_texts. now apply (numeric_field_accepted month).
  - apply day_in_month_texts. now apply (numeric_field_accepted month).
Qed.

Lemma accept_day_values :
  forall date_obj d,
    scr.accept_day date_obj = ret (Some d) -> In d day_texts.
Proof.
  intros date_obj d H. unfold scr.accept_day in H.
  apply bind_ret_inv in H as (has & _ & H).
  destruct has; [ | discriminate H ].
  apply bind_ret_inv in H as (day & _ & H).
  now apply (numeric_field_accepted day).
Qed.

Lemma accept_year_values :
  forall date_obj y,
    scr.accept_year date_obj = ret (Some y) ->
    (4 <= String.length y)%nat /\ PyStr.isdigit y = true.
Proof.
  intros date_obj y H. unfold scr.accept_year in H.
  apply bind_ret_inv in H as (has & _ & H).
  destruct has; [ | discriminate H ].
  apply bind_ret_inv in H as (year & _ & H).
  destruct (String.length year <? 4)%nat eqn:Hl; [ discriminate H | ].
  destruct (PyStr.isdigit year) eqn:Hd; [ | discriminate H ].
  inversion H; subst y. apply Nat.ltb_ge in Hl. split; assumption.
Qed.

Lemma parse_Y_four :
  forall a b c e r,
    Strptime.parse_Y (String a (String b (String c (String e r))))
    = if PyStr.forallb PyStr.is_ascii_digit
           (String a (String b (String c (String e EmptyString))))
      then Some (number (String a (String b (String c (String e EmptyString)))),
                 r)
      else None.
Proof. reflexivity. Qed.

Lemma isdigit_not_slash :
  forall g, PyStr.isdigit_char g = true -> Ascii.eqb g "/"%char = false.
Proof. intros g H. ascii_cases g; try discriminate H; reflexivity. Qed.

Lemma four_digits_prefix_false :
  forall a b c e r,
    PyStr.forallb PyStr.is_ascii_digit
      (String a (String b (String c (String e EmptyString)))) = false ->
    four_digits (String a (String b (String c (String e r)))) = false.
Proof.
  intros a b c e r H. unfold four_digits. simpl in *.
  destruct (PyStr.is_ascii_digit a), (PyStr.is_ascii_digit b),
    (PyStr.is_ascii_digit c), (PyStr.is_ascii_digit e);
    try discriminate H; simpl; apply andb_false_r.
Qed.

Lemma four_digits_exact :
  forall a b c e,
    four_digits (String a (String b (String c (String e EmptyString))))
    = PyStr.forallb PyStr.is_ascii_digit
        (String a (String b (String c (String e EmptyString)))).
Proof. reflexivity. Qed.

Lemma accepted_year_shape :
  forall y, (4 <= String.length y)%nat -> PyStr.isdigit y = true ->
    year_shape y.
Proof.
  intros y Hl Hd.
  destruct y as [|a [|b [|c [|e r]]]]; simpl in Hl; try lia.
  destruct (PyStr.forallb PyStr.is_ascii_digit
              (String a (String b (String c (String e EmptyString)))))
    eqn:E4.
  - destruct r as [|g r].
    + now apply (YearFour _ a b c e).
    + apply (YearLong _ a b c e g r); [ reflexivity | exact E4 | ].
      unfold PyStr.isdigit in Hd. simpl in Hd.
      repeat (apply andb_prop in Hd as [? Hd]). assumption.
  - now apply (YearOdd _ a b c e r).
Qed.

Lemma strptime_Ymd :
  forall y m d, year_shape y -> In m month_forms -> In d day_forms ->
    Strptime.strptime (y ++ "/" ++ m ++ "/" ++ d) Strptime.Ymd
    = match calendar_date y m d with
      | Some dt => ret dt
      | None => raise ValueError
      end.
Proof.
  intros y m d Hy Hm Hd. unfold Strptime.strptime, calendar_date.
  destruct Hy as [a b c e -> H4 | a b c e r -> H4 | a b c e g r -> H4 Hg].
  - rewrite four_digits_exact, H4.
    assert (E : Strptime.fields Strptime.Ymd
                  (String a (String b (String c (String e EmptyString)))
                   ++ "/" ++ m ++ "/" ++ d)
                = Some (number (String a (String b (String c
                                  (String e EmptyString)))),
                        number m, number d, EmptyString)).
    { simpl in Hm, Hd. unfold Strptime.fields. cbn [append].
      rewrite parse_Y_four, H4.
      repeat (destruct Hm as [<- | Hm]; [ | ]); try contradiction;
        repeat (destruct Hd as [<- | Hd]; [ | ]); try contradiction;
        reflexivity. }
    rewrite E. cbn [andb].
    destruct (valid_date _ _ _); reflexivity.
  - rewrite (four_digits_prefix_false a b c e r H4). cbn [andb append].
    unfold Strptime.fields. rewrite parse_Y_four, H4. reflexivity.
  - assert (F : four_digits
                  (String a (String b (String c (String e (String g r)))))
                = false) by reflexivity.
    rewrite F. cbn [andb append]. unfold Strptime.fields.
    rewrite parse_Y_four, H4. cbn [Strptime.slash].
    rewrite (isdigit_not_slash g Hg). reflexivity.
Qed.

Lemma strptime_Ym :
  forall y m, year_shape y -> In m month_forms ->
    Strptime.strptime (y ++ "/" ++ m) Strptime.Ym
    = match calendar_date y m "01" with
      | Some dt => ret dt
      | None => raise ValueError
      end.
Proof.
  intros y m Hy Hm. unfold Strptime.strptime, calendar_date.
  destruct Hy as [a b c e -> H4 | a b c e r -> H4 | a b c e g r -> H4 Hg].
  - rewrite four_digits_exact, H4.
    assert (E : Strptime.fields Strptime.Ym
                  (String a (String b (String c (String e EmptyString)))
                   ++ "/" ++ m)
                = Some (number (String a (String b (String c
                                  (String e EmptyString)))),
                        number m, 1, EmptyString)).
    { simpl in Hm. unfold Strptime.fields. cbn [append].
      rewrite parse_Y_four, H4.
      repeat (destruct Hm as [<- | Hm]; [ | ]); try contradiction;
        reflexivity. }
    rewrite E. cbn [andb]. change (number "01") with 1.
    destruct (valid_date _ _ _); reflexivity.
  - rewrite (four_digits_prefix_false a b c e r H4). cbn [andb append].
    unfold Strptime.fields. rewrite parse_Y_four, H4. reflexivity.
  - assert (F : four_digits
                  (String a (String b (String c (String e (String g r)))))
                = false) by reflexivity.
    rewrite F. cbn [andb append]. unfold Strptime.fields.
    rewrite parse_Y_four, H4. cbn [Strptime.slash].
    rewrite (isdigit_not_slash g Hg). reflexivity.
Qed.

Lemma strptime_Y :
  forall y, year_shape y ->
    Strptime.strptime y Strptime.Y
    = match calendar_date y "01" "01" with
      | Some dt => ret dt
      | None => raise ValueError
      end.
Proof.
  intros y Hy. unfold Strptime.strptime, calendar_date.
  destruct Hy as [a b c e -> H4 | a b c e r -> H4 | a b c e g r -> H4 Hg].
  - rewrite four_digits_exact, H4. unfold Strptime.fields.
    rewrite parse_Y_four, H4. cbn [andb]. change (number "01") with 1.
    destruct (valid_date _ _ _); reflexivity.
  - rewrite (four_digits_prefix_false a b c e r H4). cbn [andb].
    unfold Strptime.fields. rewrite parse_Y_four, H4. reflexivity.
  - assert (F : four_digits
                  (String a (String b (String c (String e (String g r)))))
                = false) by reflexivity.
    rewrite F. cbn [andb]. unfold Strptime.fields.
    rewrite parse_Y_four, H4. reflexivity.
Qed.

Lemma month_forms_truthy :
  forall m, In m month_forms -> scr.truthy (Some m) = true.
Proof.
  intros m H. simpl in H.
  repeat (destruct H as [<- | H]; [ reflexivity | ]). contradiction.
Qed.

Lemma day_forms_truthy :
  forall d, In d day_forms -> scr.truthy (Some d) = true.
Proof.
  intros d H. simpl in H.
  repeat (destruct H as [<- | H]; [ reflexivity | ]). contradiction.
Qed.

Lemma month_texts_forms : forall m, In m month_texts -> In m month_forms.
Proof. intros m H. unfold month_forms. apply in_or_app. now left. Qed.

Lemma day_texts_forms : forall d, In d day_texts -> In d day_forms.
Proof. intros d H. unfold day_forms. apply in_or_app. now left. Qed.

Lemma try_format :
  forall (o : option date),
    try_except
      (d <- match o with
            | Some dt => ret dt
            | None => raise ValueError
            end ;;
       ret (Some d))
      (fun _ => ret None)
    = ret o.
Proof. intros [dt|]; reflexivity. Qed.

(** The [Attempt to Format] step on an accepted year and on month and day
    texts of one or two digits. *)
Lemma attempt_format_accepted :
  forall y om od,
    (4 <= String.length y)%nat -> PyStr.isdigit y = true ->
    (forall m, om = Some m -> In m month_forms) ->
    (forall d, od = Some d -> In d day_forms) ->
    scr.attempt_format (Some y) om od = ret (resolved_date y om od).
Proof.
  intros y om od Hl Hd Hm Hday.
  pose proof (accepted_year_shape y Hl Hd) as Hy.
  assert (Ty : scr.truthy (Some y) = true).
  { destruct y; [ simpl in Hl; lia | reflexivity ]. }
  unfold scr.attempt_format, resolved_date. rewrite Ty. cbn [andb].
  destruct om as [m|].
  - rewrite (month_forms_truthy m (Hm m eq_refl)).
    destruct od as [d|].
    + rewrite (day_forms_truthy d (Hday d eq_refl)).
      cbn [scr.fmt].
      rewrite (strptime_Ymd y m d Hy (Hm m eq_refl) (Hday d eq_refl)).
      apply try_format.
    + cbn [scr.truthy scr.fmt].
      rewrite (strptime_Ym y m Hy (Hm m eq_refl)). apply try_format.
  - cbn [scr.truthy scr.fmt]. rewrite (strptime_Y y Hy). apply try_format.
Qed.

(** Date resolution on a date whose year is accepted and whose month and
    day steps return. *)
Lemma format_date_accepted :
  forall date_obj pmid y om od,
    scr.accept_year date_obj = ret (Some y) ->
    scr.accept_month date_obj = ret om ->
    scr.accept_day date_obj = ret od ->
    scr.format_date date_obj pmid = ret (resolved_date y om od).
Proof.
  intros date_obj pmid y om od Hy Hm Hd.
  destruct (accept_year_values date_obj y Hy) as [Hl Hdig].
  assert (Ty : scr.truthy (Some y) = true).
  { destruct y; [ simpl in Hl; lia | reflexivity ]. }
  unfold scr.format_date, scr.format_date_body.
  rewrite Hy, bind_ret_l, Hm, bind_ret_l, Hd, bind_ret_l.
  unfold scr.medline_date. rewrite Ty. cbn [negb]. rewrite bind_ret_l.
  cbn [fst snd].
  rewrite (attempt_format_accepted y om od Hl Hdig).
  - reflexivity.
  - intros m ->. apply month_texts_forms.
    exact (accept_month_values date_obj m Hm).
  - intros d ->. apply day_texts_forms.
    exact (accept_day_values date_obj d Hd).
Qed.

Lemma four_digits_number :
  forall y, four_digits y = true -> number y <= 9999.
Proof.
  unfold four_digits. intros y H. apply andb_prop in H as [Hl Hd].
  destruct y as [|a [|b [|c [|e [|g r]]]]]; try discriminate Hl.
  simpl in Hd. repeat (apply andb_prop in Hd as [? Hd]).
  unfold number. cbn [PyStr.digits_value]. unfold PyStr.digit_val.
  unfold PyStr.is_ascii_digit, PyStr.between in *.
  repeat match goal with
         | H : (_ && _)%bool = true |- _ => apply andb_prop in H as [? ?]
         | H : (_ <=? _)%N = true |- _ => apply N.leb_le in H
         end.
  lia.
Qed.

(** Date resolution on a date input whose year is accepted: accepted
    month and day that form a calendar date with the year give that date;
    with no accepted month the result is the first of January; with an
    accepted month and no accepted day it is the first of the month. *)
Lemma format_date_on_accepted_fields :
  forall date_obj pmid y,
    scr.accept_year date_obj = ret (Some y) ->
    (forall m d,
        scr.accept_month date_obj = ret (Some m) ->
        scr.accept_day date_obj = ret (Some d) ->
        four_digits y = true ->
        valid_date (number y) (number m) (number d) = true ->
        scr.format_date date_obj pmid
        = ret (Some (Date (number y) (number m) (number d))))
    /\ (forall m d,
           scr.accept_month date_obj = ret (Some m) ->
           scr.accept_day date_obj = ret (Some d) ->
           four_digits y && valid_date (number y) (number m) (number d)
           = false ->
           scr.format_date date_obj pmid = ret None)
    /\ (forall od,
           scr.accept_month date_obj = ret None ->
           scr.accept_day date_obj = ret od ->
           four_digits y = true -> 1 <= number y ->
           scr.format_date date_obj pmid = ret (Some (Date (number y) 1 1)))
    /\ (forall m,
           scr.accept_month date_obj = ret (Some m) ->
           scr.accept_day date_obj = ret None ->
           four_digits y = true -> 1 <= number y ->
           scr.format_date date_obj pmid
           = ret (Some (Date (number y) (number m) 1))).
Proof.
  intros date_obj pmid y Hy.
  pose proof (four_digits_number y) as Hmax.
  repeat split.
  - intros m d Hm Hd H4 Hv.
    rewrite (format_date_accepted date_obj pmid y _ _ Hy Hm Hd).
    unfold resolved_date, calendar_date. now rewrite H4, Hv.
  - intros m d Hm Hd Hv.
    rewrite (format_date_accepted date_obj pmid y _ _ Hy Hm Hd).
    unfold resolved_date, calendar_date. now rewrite Hv.
  - intros od Hm Hd H4 H1.
    rewrite (format_date_accepted date_obj pmid y _ _ Hy Hm Hd).
    unfold resolved_date, calendar_date. rewrite H4.
    change (number "01") with 1.
    assert (Hv : valid_date (number y) 1 1 = true).
    { unfold valid_date. specialize (Hmax H4).
      rewrite (proj2 (Z.leb_le _ _) H1), (proj2 (Z.leb_le _ _) Hmax).
      reflexivity. }
    now rewrite Hv.
  - intros m Hm Hd H4 H1.
    rewrite (format_date_accepted date_obj pmid y _ _ Hy Hm Hd).
    unfold resolved_date, calendar_date. rewrite H4.
    change (number "01") with 1.
    assert (Hv : valid_date (number y) (number m) 1 = true).
    { unfold valid_date. specialize (Hmax H4).
      rewrite (proj2 (Z.leb_le _ _) H1), (proj2 (Z.leb_le _ _) Hmax).
      pose proof (accept_month_values date_obj m Hm) as Hin.
      simpl in Hin.
      repeat (destruct Hin as [<- | Hin];
              [ cbn; destruct (is_leap (number y)); reflexivity | ]).
      contradiction. }
    now rewrite Hv.
Qed.

(** The day step refuses every day of two digits. *)
Lemma accept_day_two_digits :
  forall date_obj d,
    Py.getitem date_obj "Day" = ret (PStr d) -> two_digits d = true ->
    scr.accept_day date_obj = ret None.
Proof.
  intros date_obj d Hg H2. unfold two_digits in H2.
  apply andb_prop in H2 as [Hl Hd]. apply Nat.eqb_eq in Hl.
  assert (Hn : d <> "") by (intros ->; discriminate Hl).
  unfold scr.accept_day, scr.lower_strip.
  rewrite (getitem_has_key _ _ _ Hg), bind_ret_l, Hg, bind_ret_l.
  cbn [Py.lower]. rewrite !bind_ret_l.
  rewrite (digits_lower d Hd), (digits_strip d Hd), (digits_isdigit d Hd Hn).
  unfold scr.in_range_1_13.
  rewrite (digits_int d Hd Hn) by (apply short_within_bound; lia).
  rewrite bind_ret_l, Hl. change (2 <? 2)%nat with false.
  rewrite bind_ret_l, andb_false_r. reflexivity.
Qed.

(** C2: the day step refuses every day text of two digits, the days from
    the 10th on and the padded days alike.  So on a date input whose year
    and month are accepted and whose day has two digits, the calendar
    check never sees the day and the result is the first of the month,
    the 31st of February included: Year "2023", Month "Feb", Day "31"
    gives 1 February 2023 and not a missing date. *)
Theorem format_date_two_digit_day_is_first_of_month :
  forall date_obj pmid y m d,
    scr.accept_year date_obj = ret (Some y) ->
    four_digits y = true -> 1 <= number y ->
    scr.accept_month date_obj = ret (Some m) ->
    Py.getitem date_obj "Day" = ret (PStr d) ->
    two_digits d = true ->
    scr.accept_day date_obj = ret None
    /\ scr.format_date date_obj pmid
       = ret (Some (Date (number y) (number m) 1)).
Proof.
  intros date_obj pmid y m d Hy H4 H1 Hm Hg H2.
  pose proof (accept_day_two_digits date_obj d Hg H2) as Hd.
  split; [ exact Hd | ].
  exact (proj2 (proj2 (proj2
           (format_date_on_accepted_fields date_obj pmid y Hy)))
           m Hm Hd H4 H1).
Qed.

Lemma format_date_two_digit_day_is_first_of_month_witness :
  scr.accept_day
    (PDict [("Year", PStr "2023"); ("Month", PStr "Feb"); ("Day", PStr "31")])
  = ret None
  /\ scr.format_date
       (PDict [("Year", PStr "2023"); ("Month", PStr "Feb");
               ("Day", PStr "31")])
       None
     = ret (Some (Date 2023 2 1)).
Proof.
  refine (format_date_two_digit_day_is_first_of_month
            (PDict [("Year", PStr "2023"); ("Month", PStr "Feb");
                    ("Day", PStr "31")])
            None "2023" "02" "31" eq_refl eq_refl _ eq_refl eq_refl eq_refl).
  vm_compute. discriminate.
Defined.

(** A year of more than four digits passes the year step and is then
    refused by the format: the date is missing. *)
Example format_date_five_digit_year :
  scr.accept_year (PDict [("Year", PStr "02020")]) = ret (Some "02020")
  /\ scr.format_date (PDict [("Year", PStr "02020")]) None = ret None.
Proof. split; reflexivity. Qed.

(** ** The table splitter *)

Section DropDuplicates.

Context {A : Type} (dec : forall a b : A, {a = b} + {a <> b}).

Lemma drop_duplicates_in :
  forall l seen x,
    In x (sql.drop_duplicates dec seen l) <-> In x l /\ ~ In x seen.
Proof.
  induction l as [|y r IH]; intros seen x; simpl.
  - tauto.
  - destruct (in_dec dec y seen) as [Hy | Hy].
    + rewrite IH. split.
      * intros [H1 H2]. tauto.
      * intros [[-> | H1] H2]; [ contradiction | tauto ].
    + simpl. rewrite IH. simpl. split.
      * intros [-> | [H1 H2]]; [ tauto | ]. split; [ tauto | ].
        intros H. apply H2. now right.
      * intros [[-> | H1] H2]; [ now left | ].
        destruct (dec y x) as [-> | Hne]; [ now left | right ].
        split; [ assumption | ]. intros [E | H]; [ contradiction | tauto ].
Qed.

Lemma drop_duplicates_nodup :
  forall l seen, NoDup (sql.drop_duplicates dec seen l).
Proof.
  induction l as [|y r IH]; intros seen; simpl.
  - constructor.
  - destruct (in_dec dec y seen) as [Hy | Hy]; [ apply IH | ].
    constructor; [ | apply IH ].
    rewrite drop_duplicates_in. simpl. tauto.
Qed.

End DropDuplicates.

Lemma nodup_map_injective :
  forall {A B} (f : A -> B) (l : list A) (x y : A),
    NoDup (List.map f l) -> In x l -> In y l -> f x = f y -> x = y.
Proof.
  intros A B f l x y. induction l as [|a r IH]; simpl; intros Hn Hx Hy E.
  - contradiction.
  - inversion Hn as [|? ? Ha Hr]; subst.
    destruct Hx as [-> | Hx]; destruct Hy as [-> | Hy].
    + reflexivity.
    + exfalso. apply Ha. rewrite E. now apply in_map.
    + exfalso. apply Ha. rewrite <- E. now apply in_map.
    + now apply IH.
Qed.

(** Every pair of the third relation points at a paper of the first and
    at an author of the second, whatever the table. *)
Lemma split_tables_pairs_refer :
  forall t_df papers authors pairs pr,
    sql.split_tables t_df = (papers, authors, pairs) ->
    In pr pairs ->
    In (sql.r_pmid pr) (List.map sql.p_pmid papers)
    /\ In (sql.r_fullname pr) (List.map sql.a_fullname authors).
Proof.
  intros t_df papers authors pairs pr Hs H.
  unfold sql.split_tables in Hs. inversion Hs; subst. clear Hs.
  apply drop_duplicates_in in H as [H _].
  apply in_map_iff in H as (r & <- & Hr). split.
  - apply in_map_iff. exists (sql.paper_of r). split; [ reflexivity | ].
    apply drop_duplicates_in. split; [ now apply in_map | intros [] ].
  - apply in_map_iff. exists (sql.author_of r). split; [ reflexivity | ].
    apply drop_duplicates_in. split; [ now apply in_map | intros [] ].
Qed.

(** C5: the splitter drops equal author rows, not equal keys.  As soon as
    two rows of the formatted table have the same full name and differ in
    a name field, the authors relation holds that full name twice, and the
    three relations do not have the keys the specification asks for.  The
    two papers of [same_fullname_batch] format to such a table: its
    authors relation holds "l chen li wei" twice. *)
Theorem split_tables_full_name_twice :
  forall t_df r1 r2,
    In r1 t_df -> In r2 t_df ->
    sql.author_of r1 <> sql.author_of r2 ->
    sql.a_fullname (sql.author_of r1) = sql.a_fullname (sql.author_of r2) ->
    In (sql.author_of r1) (snd (fst (sql.split_tables t_df)))
    /\ In (sql.author_of r2) (snd (fst (sql.split_tables t_df)))
    /\ ~ NoDup (List.map sql.a_fullname (snd (fst (sql.split_tables t_df))))
    /\ ~ keys_hold (sql.split_tables t_df).
Proof.
  intros t_df r1 r2 H1 H2 Hne E.
  assert (Ha : forall r, In r t_df ->
                 In (sql.author_of r) (snd (fst (sql.split_tables t_df)))).
  { intros r Hr. unfold sql.split_tables. cbn [fst snd].
    apply drop_duplicates_in. split; [ now apply in_map | intros [] ]. }
  assert (Hdup : ~ NoDup (List.map sql.a_fullname
                            (snd (fst (sql.split_tables t_df))))).
  { intros Hn. apply Hne.
    exact (nodup_map_injective sql.a_fullname _ _ _ Hn (Ha r1 H1) (Ha r2 H2)
             E). }
  repeat split; [ exact (Ha r1 H1) | exact (Ha r2 H2) | exact Hdup | ].
  unfold keys_hold. unfold sql.split_tables in *. cbn [fst snd] in Hdup.
  intros (_ & Hn & _). exact (Hdup Hn).
Qed.

Lemma split_tables_full_name_twice_witness :
  pubmed_tool.format_df english same_fullname_batch = ret same_fullname_table
  /\ List.map sql.a_fullname
       (snd (fst (sql.split_tables same_fullname_table)))
     = [Some "l chen li wei"; Some "l chen li wei"]
  /\ ~ keys_hold (sql.split_tables same_fullname_table).
Proof.
  split; [ reflexivity | split; [ reflexivity | ] ].
  refine (proj2 (proj2 (proj2
    (split_tables_full_name_twice same_fullname_table
       (pubmed_tool.OutRow 1 formatted_cols 1 true
          (Some "li wei") (Some "chen") (Some "l"))
       (pubmed_tool.OutRow 2 formatted_cols 1 true
          (Some "wei") (Some "chen li") (Some "l"))
       _ _ _ eq_refl)))).
  - simpl. tauto.
  - simpl. tauto.
  - discriminate.
Defined.

(** Two authors whose first name is missing have both the missing full
    name, and the authors relation holds it twice. *)
Example split_tables_missing_full_name_twice :
  List.map sql.a_fullname
    (snd (fst (sql.split_tables
      [pubmed_tool.OutRow 1 formatted_cols 1 true None (Some "doe") None;
       pubmed_tool.OutRow 2 formatted_cols 1 true None (Some "roe") None])))
  = [None; None].
Proof. reflexivity. Qed.

(** ** The table formatter *)

Lemma mapM_returns :
  forall {A B} (f : A -> M B) (l : list A),
    Forall (fun x => exists y, f x = ret y) l ->
    exists ys, scr.mapM f l = ret ys /\ Forall2 (fun x y => f x = ret y) l ys.
Proof.
  intros A B f l H. induction H as [|x l [y Hy] Hl (ys & Hys & IH)].
  - exists []. split; [ reflexivity | constructor ].
  - exists (y :: ys). split.
    + simpl. rewrite Hy, bind_ret_l, Hys, bind_ret_l. reflexivity.
    + now constructor.
Qed.

Lemma joined_row_returns :
  forall lang_dict x, order_converts x = true ->
    exists y, pubmed_tool.joined_row lang_dict x = ret y.
Proof.
  intros lang_dict [r item] H. unfold order_converts in H. cbn [snd] in H.
  unfold pubmed_tool.joined_row.
  destruct item as [[d|]|]; try (eexists; reflexivity).
  destruct (pubmed_tool.order_int
              (pubmed_tool.blank_to_nan (Some (scr.order d))))
    as [n l | e l] eqn:E; [ | discriminate H ].
  assert (l = []).
  { unfold pubmed_tool.order_int in E.
    destruct (pubmed_tool.blank_to_nan (Some (scr.order d)));
      [ now apply int_no_message in E | now inversion E ]. }
  subst l. eexists. reflexivity.
Qed.

Lemma joined_row_pmid :
  forall lang_dict x y, pubmed_tool.joined_row lang_dict x = ret y ->
    pubmed_tool.pmid y = pubmed_tool.in_pmid (fst x).
Proof.
  intros lang_dict [r item] y H. unfold pubmed_tool.joined_row in H.
  destruct item as [[d|]|];
    apply bind_ret_inv in H as (n & _ & H); inversion H; reflexivity.
Qed.

Lemma joined_row_filler :
  forall lang_dict r item,
    item = pubmed_tool.Filler \/ item = pubmed_tool.Item None ->
    pubmed_tool.joined_row lang_dict (r, item)
    = ret (pubmed_tool.Row (pubmed_tool.in_pmid r)
             (pubmed_tool.format_paper lang_dict (pubmed_tool.in_paper r))
             (Some 0) None None None).
Proof. intros lang_dict r item [-> | ->]; reflexivity. Qed.

(** A missing or empty author cell explodes into one item with no name in
    it. *)
Lemma explode_no_author :
  forall r,
    pubmed_tool.in_authors r = None \/ pubmed_tool.in_authors r = Some [] ->
    exists item,
      pubmed_tool.explode r = [(r, item)]
      /\ (item = pubmed_tool.Filler \/ item = pubmed_tool.Item None).
Proof.
  intros r [H | H]; unfold pubmed_tool.explode; rewrite H; eauto.
Qed.

Lemma explode_fst :
  forall r x, In x (pubmed_tool.explode r) -> fst x = r.
Proof.
  intros r x H. unfold pubmed_tool.explode in H.
  destruct (pubmed_tool.in_authors r) as [[|d l]|].
  - destruct H as [<- | []]. reflexivity.
  - apply in_map_iff in H as (d' & <- & _). reflexivity.
  - destruct H as [<- | []]. reflexivity.
Qed.

Lemma items_of_app :
  forall a b, items_of (a ++ b) = (items_of a ++ items_of b)%list.
Proof. intros a b. unfold items_of. now rewrite map_app, concat_app. Qed.

Lemma items_of_fst :
  forall l x, In x (items_of l) -> In (fst x) l.
Proof.
  intros l x H. unfold items_of in H. apply in_concat in H as (e & He & Hx).
  apply in_map_iff in He as (r & <- & Hr).
  now rewrite (explode_fst r x Hx).
Qed.

Lemma filter_none :
  forall {A} (f : A -> bool) (l : list A),
    Forall (fun x => f x = false) l -> List.filter f l = [].
Proof.
  intros A f l H. induction H as [|x l Hx _ IH]; simpl;
    [ reflexivity | now rewrite Hx ].
Qed.

Lemma filter_length_zero :
  forall {A} (f : A -> bool) (l : list A),
    List.length (List.filter f l) = 0%nat -> Forall (fun x => f x = false) l.
Proof.
  intros A f. induction l as [|x l IH]; simpl; intros H; [ constructor | ].
  destruct (f x) eqn:E; [ discriminate H | constructor; auto ].
Qed.

(** A batch in which the identifier of [r] occurs once is [r] between rows
    with other identifiers. *)
Lemma occurs_once_split :
  forall in_df r,
    In r in_df -> occurrences (pubmed_tool.in_pmid r) in_df = 1%nat ->
    exists l1 l2,
      in_df = (l1 ++ r :: l2)%list
      /\ Forall (fun x => (pubmed_tool.in_pmid x =? pubmed_tool.in_pmid r)
                          = false) l1
      /\ Forall (fun x => (pubmed_tool.in_pmid x =? pubmed_tool.in_pmid r)
                          = false) l2.
Proof.
  intros in_df r Hin Hc. apply in_split in Hin as (l1 & l2 & ->).
  exists l1, l2. split; [ reflexivity | ].
  unfold occurrences in Hc. rewrite filter_app in Hc. simpl in Hc.
  rewrite Z.eqb_refl in Hc. rewrite length_app in Hc. simpl in Hc.
  split; apply filter_length_zero; lia.
Qed.

Lemma none_listed_pmid :
  forall t y, pubmed_tool.pmid (pubmed_tool.none_listed t y)
              = pubmed_tool.pmid y.
Proof.
  intros t y. unfold pubmed_tool.none_listed.
  destruct (_ && _); reflexivity.
Qed.

Lemma failed_capture_pmid :
  forall y, pubmed_tool.pmid (pubmed_tool.failed_capture y)
            = pubmed_tool.pmid y.
Proof.
  intros y. unfold pubmed_tool.failed_capture.
  destruct (_ && _); reflexivity.
Qed.

Lemma other_papers_map :
  forall p (f : pubmed_tool.row -> pubmed_tool.row) l,
    (forall y, pubmed_tool.pmid (f y) = pubmed_tool.pmid y) ->
    Forall (fun y => (pubmed_tool.pmid y =? p) = false) l ->
    Forall (fun y => (pubmed_tool.pmid y =? p) = false) (List.map f l).
Proof.
  intros p f l Hf H. induction H as [|y l Hy _ IH]; simpl; constructor.
  - now rewrite Hf.
  - exact IH.
Qed.

Lemma other_papers_filter :
  forall p (q : pubmed_tool.row -> bool) l,
    Forall (fun y => (pubmed_tool.pmid y =? p) = false) l ->
    Forall (fun y => (pubmed_tool.pmid y =? p) = false) (List.filter q l).
Proof.
  intros p q l H. induction H as [|y l Hy _ IH]; simpl; [ constructor | ].
  destruct (q y); [ now constructor | exact IH ].
Qed.

Lemma other_papers_out :
  forall p t l,
    Forall (fun y => (pubmed_tool.pmid y =? p) = false) l ->
    List.filter (fun r => pubmed_tool.out_pmid r =? p)
      (List.map (pubmed_tool.finish_row t) l) = [].
Proof.
  intros p t l H. induction H as [|y l Hy _ IH]; simpl; [ reflexivity | ].
  now rewrite Hy.
Qed.

Lemma joined_rows_other_papers :
  forall lang_dict p items ys,
    Forall2 (fun x y => pubmed_tool.joined_row lang_dict x = ret y) items ys ->
    Forall (fun x => (pubmed_tool.in_pmid (fst x) =? p) = false) items ->
    Forall (fun y => (pubmed_tool.pmid y =? p) = false) ys.
Proof.
  intros lang_dict p items ys H. induction H as [|x y items ys Hxy _ IH];
    intros Hf; [ constructor | ].
  inversion Hf; subst. constructor; [ | auto ].
  now rewrite (joined_row_pmid lang_dict x y Hxy).
Qed.

Lemma items_other_papers :
  forall p l,
    Forall (fun x => (pubmed_tool.in_pmid x =? p) = false) l ->
    Forall (fun x => (pubmed_tool.in_pmid (fst x) =? p) = false) (items_of l).
Proof.
  intros p l H. apply Forall_forall. intros x Hx.
  apply items_of_fst in Hx. rewrite Forall_forall in H. now apply H.
Qed.

(** The pipeline of [format_df] after the join, on a table in which the
    paper [p] has the single row of an empty author cell. *)
Lemma pipeline_none_listed :
  forall p paper t1 t2,
    Forall (fun y => (pubmed_tool.pmid y =? p) = false) t1 ->
    Forall (fun y => (pubmed_tool.pmid y =? p) = false) t2 ->
    let t_df :=
      (t1 ++ pubmed_tool.Row p paper (Some 0) None None None :: t2)%list in
    let a := List.map (pubmed_tool.none_listed t_df) t_df in
    let b := List.map pubmed_tool.failed_capture a in
    let c := pubmed_tool.dropna_last b in
    List.filter (fun r => pubmed_tool.out_pmid r =? p)
      (List.map (pubmed_tool.finish_row c) c)
    = [pubmed_tool.OutRow p paper 0 false None (Some "None Listed") None].
Proof.
  intros p paper t1 t2 H1 H2 t_df a b c.
  set (y0 := pubmed_tool.Row p paper (Some 0) None None None) in *.
  set (y1 := pubmed_tool.Row p paper None None (Some "None Listed") None).
  assert (Hcount : pubmed_tool.value_count p t_df = 1%nat).
  { unfold pubmed_tool.value_count, t_df. rewrite filter_app. simpl.
    rewrite Z.eqb_refl, (filter_none _ t1 H1), (filter_none _ t2 H2).
    reflexivity. }
  assert (Hy1 : pubmed_tool.none_listed t_df y0 = y1).
  { unfold pubmed_tool.none_listed. simpl. rewrite Hcount. reflexivity. }
  set (rest := fun t =>
                 pubmed_tool.dropna_last
                   (List.map pubmed_tool.failed_capture
                      (List.map (pubmed_tool.none_listed t_df) t))).
  assert (Hc : c = (rest t1 ++ y1 :: rest t2)%list).
  { unfold c, b, a, pubmed_tool.dropna_last.
    unfold t_df at 2. rewrite !map_app, !map_cons, filter_app, Hy1.
    reflexivity. }
  rewrite Hc at 2. rewrite map_app, map_cons, filter_app.
  cbn [List.filter pubmed_tool.finish_row pubmed_tool.out_pmid
       pubmed_tool.pmid y1].
  rewrite Z.eqb_refl, !other_papers_out.
  - reflexivity.
  - apply other_papers_filter, other_papers_map;
      [ apply failed_capture_pmid | ].
    apply other_papers_map; [ apply none_listed_pmid | exact H2 ].
  - apply other_papers_filter, other_papers_map;
      [ apply failed_capture_pmid | ].
    apply other_papers_map; [ apply none_listed_pmid | exact H1 ].
Qed.

(** A batch in which no paper has an author has no [order] column, and
    [format_df] raises. *)
Example format_df_no_author_at_all :
  pubmed_tool.format_df english [pubmed_tool.InRow 1 None sample_cols]
  = raise AttributeError.
Proof. reflexivity. Qed.

(** In a batch that has an author and a language somewhere and whose
    order cells are integers, a paper with an empty author cell whose
    identifier is on no other row comes out as exactly one row, with last
    name "None Listed", no author counted, and not a first author. *)
Lemma format_df_one_row_none_listed :
  forall lang_dict in_df r,
    In r in_df ->
    pubmed_tool.in_authors r = None \/ pubmed_tool.in_authors r = Some [] ->
    occurrences (pubmed_tool.in_pmid r) in_df = 1%nat ->
    pubmed_tool.has_order_column (items_of in_df) = true ->
    pubmed_tool.has_language in_df = true ->
    List.forallb order_converts (items_of in_df) = true ->
    exists out,
      pubmed_tool.format_df lang_dict in_df = ret out
      /\ none_listed_once out (pubmed_tool.in_pmid r).
Proof.
  intros lang_dict in_df r Hin Hauth Hocc Hcol Hlang Hord.
  unfold pubmed_tool.format_df. rewrite Hlang. clear Hlang.
  destruct (occurs_once_split in_df r Hin Hocc) as (l1 & l2 & -> & Hl1 & Hl2).
  set (p := pubmed_tool.in_pmid r) in *.
  destruct (explode_no_author r Hauth) as (item & Hex & Hitem).
  assert (Hitems : items_of (l1 ++ r :: l2)
                   = (items_of l1 ++ (r, item) :: items_of l2)%list).
  { rewrite items_of_app. f_equal. unfold items_of. simpl.
    rewrite Hex. reflexivity. }
  assert (Hall : Forall (fun x => exists y,
                            pubmed_tool.joined_row lang_dict x = ret y)
                   (items_of (l1 ++ r :: l2))).
  { apply Forall_forall. intros x Hx. apply joined_row_returns.
    rewrite forallb_forall in Hord. now apply Hord. }
  destruct (mapM_returns _ _ Hall) as (ys & Hys & Hrel).
  fold (items_of (l1 ++ r :: l2)).
  rewrite Hcol, Hys, bind_ret_l.
  eexists. split; [ reflexivity | ].
  rewrite Hitems in Hrel.
  apply Forall2_app_inv_l in Hrel as (t1 & t' & Hr1 & Hr' & ->).
  inversion Hr' as [|x y0 xs t2 Hy0 Hr2]; subst.
  rewrite (joined_row_filler lang_dict r item Hitem) in Hy0.
  inversion Hy0; subst y0. clear Hy0.
  pose proof (joined_rows_other_papers lang_dict p _ _ Hr1
                (items_other_papers p l1 Hl1)) as H1.
  pose proof (joined_rows_other_papers lang_dict p _ _ Hr2
                (items_other_papers p l2 Hl2)) as H2.
  eexists. split; [ apply (pipeline_none_listed p _ t1 t2 H1 H2) | ].
  repeat split; reflexivity.
Qed.

(** A batch without an author, or without a language, is not formatted. *)
Lemma format_df_raises :
  forall lang_dict in_df,
    List.forallb order_converts (items_of in_df) = true ->
    pubmed_tool.has_order_column (items_of in_df) = false
    \/ pubmed_tool.has_language in_df = false ->
    pubmed_tool.format_df lang_dict in_df = raise AttributeError.
Proof.
  intros lang_dict in_df Hord H. unfold pubmed_tool.format_df.
  fold (items_of in_df).
  destruct (pubmed_tool.has_order_column (items_of in_df));
    [ | reflexivity ].
  destruct H as [H | H]; [ discriminate H | ]. rewrite H.
  assert (Hall : Forall (fun x => exists y,
                            pubmed_tool.joined_row lang_dict x = ret y)
                   (items_of in_df)).
  { apply Forall_forall. intros x Hx. apply joined_row_returns.
    rewrite forallb_forall in Hord. now apply Hord. }
  destruct (mapM_returns _ _ Hall) as (ys & Hys & _).
  rewrite Hys, bind_ret_l. reflexivity.
Qed.

(** C4: a paper with an empty or missing author cell comes out as the one
    row "None Listed" only when some paper of the batch has an author and
    some paper a language.  In every other batch, and so in the batch of
    that paper alone, [format_df] raises [AttributeError] and there is no
    output at all. *)
Theorem format_df_author_less_paper :
  forall lang_dict in_df r,
    In r in_df ->
    pubmed_tool.in_authors r = None \/ pubmed_tool.in_authors r = Some [] ->
    occurrences (pubmed_tool.in_pmid r) in_df = 1%nat ->
    List.forallb order_converts (items_of in_df) = true ->
    pubmed_tool.format_df lang_dict [r] = raise AttributeError
    /\ (pubmed_tool.has_order_column (items_of in_df) = false
        \/ pubmed_tool.has_language in_df = false ->
        pubmed_tool.format_df lang_dict in_df = raise AttributeError)
    /\ (pubmed_tool.has_order_column (items_of in_df) = true ->
        pubmed_tool.has_language in_df = true ->
        exists out,
          pubmed_tool.format_df lang_dict in_df = ret out
          /\ none_listed_once out (pubmed_tool.in_pmid r)).
Proof.
  intros lang_dict in_df r Hin Hauth Hocc Hord.
  split; [ | split ].
  - destruct (explode_no_author r Hauth) as (item & Hex & Hitem).
    unfold pubmed_tool.format_df. cbn [List.map List.concat].
    rewrite Hex. destruct Hitem as [-> | ->]; reflexivity.
  - exact (format_df_raises lang_dict in_df Hord).
  - intros Hcol Hlang.
    exact (format_df_one_row_none_listed lang_dict in_df r Hin Hauth Hocc
             Hcol Hlang Hord).
Qed.

Lemma format_df_author_less_paper_witness :
  pubmed_tool.format_df english [pubmed_tool.InRow 1 None sample_cols]
  = raise AttributeError
  /\ exists out,
      pubmed_tool.format_df english mixed_batch = ret out
      /\ none_listed_once out 1.
Proof.
  refine ((fun T => conj (proj1 T) (proj2 (proj2 T) eq_refl eq_refl))
            (format_df_author_less_paper english mixed_batch
               (pubmed_tool.InRow 1 None sample_cols)
               (or_introl eq_refl) (or_introl eq_refl) eq_refl eq_refl)).
Defined.

(** ** The normalisers return *)

Lemma append_assoc :
  forall a b c : string, ((a ++ b) ++ c = a ++ b ++ c)%string.
Proof.
  induction a as [|x a IH]; intros b c; simpl; [ | rewrite IH ]; reflexivity.
Qed.

Lemma attempt_format_log :
  forall y m d, log_of (scr.attempt_format y m d) = [].
Proof.
  intros y m d. unfold scr.attempt_format, Strptime.strptime.
  repeat match goal with
         | |- context [if ?b then _ else _] => destruct b
         | |- context [match ?x with _ => _ end] => destruct x
         end; reflexivity.
Qed.

Lemma medline_date_log :
  forall v y m, log_of (scr.medline_date v y m) = [].
Proof.
  intros v y m. unfold scr.medline_date, scr.re_subject.
  destruct (negb (scr.truthy y)); [ | reflexivity ].
  apply bind_log; [ apply has_key_log | intros [] ]; [ | reflexivity ].
  apply bind_log; [ apply getitem_log | intros x ].
  apply bind_log; [ destruct x; reflexivity | intros s ].
  apply bind_log; [ apply getitem_log | intros x' ].
  apply bind_log; [ destruct x'; reflexivity | intros s' ]. reflexivity.
Qed.

Lemma format_date_body_log :
  forall v, log_of (scr.format_date_body v) = [].
Proof.
  intros v. unfold scr.format_date_body.
  apply bind_log; [ apply accept_year_log | intros y ].
  apply bind_log; [ apply accept_month_log | intros m ].
  apply bind_log; [ apply accept_day_log | intros d ].
  apply bind_log; [ apply medline_date_log | intros ym ].
  apply attempt_format_log.
Qed.

Lemma nonempty_lower_strip_log :
  forall d k, log_of (scr.nonempty_lower_strip d k) = [].
Proof.
  intros d k. unfold scr.nonempty_lower_strip.
  apply bind_log; [ apply nonempty_item_log | intros [x|] ];
    [ | reflexivity ].
  apply bind_log; [ apply lower_strip_log | reflexivity ].
Qed.

Lemma format_author_body_log :
  forall v index, log_of (scr.format_author_body v index) = [].
Proof.
  intros v index. unfold scr.format_author_body.
  apply bind_log; [ apply nonempty_lower_strip_log | intros f ].
  apply bind_log; [ apply nonempty_lower_strip_log | intros i ].
  apply bind_log; [ apply nonempty_lower_strip_log | intros l ].
  reflexivity.
Qed.

Lemma pmid_format_returns :
  forall pmid,
    (forall z, pmid = Some z -> Py.int_writes z = true) ->
    scr.pmid_format pmid = ret (id_text pmid).
Proof.
  intros [z|] H; [ | reflexivity ].
  unfold scr.pmid_format, Py.format. cbn [Py.writes].
  rewrite (H z eq_refl). reflexivity.
Qed.

(** The handler of the normalisers writes one message, which names the
    record, the stage and the exception, and returns the missing value. *)
Lemma report_message :
  forall {A} pmid place e,
    (forall z, pmid = Some z -> Py.int_writes z = true) ->
    scr.report (A := A) pmid place e
    = Returns None
        [Message "error"
           ("Unable to process search due to error in record: "
            ++ id_text pmid ++ ".  In " ++ place ++ ". Errors: "
            ++ exn_text e)].
Proof.
  intros A pmid place e H. unfold scr.report.
  rewrite (pmid_format_returns pmid H), bind_ret_l.
  unfold scr.error_message, display_message. cbn [bind ret app].
  do 3 f_equal. cbn [PyStr.join].
  rewrite !append_assoc. reflexivity.
Qed.

(** A body that writes nothing, under the handler: what the body
    returns, with no message; or the missing value with the one message
    of the handler. *)
Lemma try_except_report :
  forall {A} (body : M (option A)) pmid place,
    log_of body = [] ->
    (forall z, pmid = Some z -> Py.int_writes z = true) ->
    (exists r, body = ret r
               /\ try_except body (scr.report pmid place) = Returns r [])
    \/ (exists e,
          body = raise e
          /\ try_except body (scr.report pmid place)
             = Returns None
                 [Message "error"
                    ("Unable to process search due to error in record: "
                     ++ id_text pmid ++ ".  In " ++ place ++ ". Errors: "
                     ++ exn_text e)]).
Proof.
  intros A body pmid place Hl H.
  destruct body as [r l | e l]; cbn [log_of] in Hl; subst l.
  - left. exists r. split; reflexivity.
  - right. exists e. split; [ reflexivity | ].
    cbn [try_except]. rewrite (report_message pmid place e H). reflexivity.
Qed.

(** C7: with a record identifier that is missing or an integer of no more
    digits than the interpreter writes, each of the three normalisers
    returns on every input: either a result and no message, or the missing
    value and one error message, which reads "Unable to process search due
    to error in record: ", the identifier, ".  In ", the stage, ". Errors: "
    and the exception.  A date or an author that is no dictionary gets the
    missing value and that message for an [AttributeError]. *)
Theorem normalizers_return_or_report :
  forall (v : pyval) (index : Z) (pmid : option Z),
    (forall z, pmid = Some z -> Py.int_writes z = true) ->
    ((exists r, scr.format_date v pmid = Returns r [])
     \/ exists e,
         scr.format_date v pmid
         = Returns None
             [Message "error"
                ("Unable to process search due to error in record: "
                 ++ id_text pmid ++ ".  In Date. Errors: " ++ exn_text e)])
    /\ ((exists r, scr.format_author v index pmid = Returns (Some r) [])
        \/ exists e,
            scr.format_author v index pmid
            = Returns None
                [Message "error"
                   ("Unable to process search due to error in record: "
                    ++ id_text pmid ++ ".  In Author Processing. Errors: "
                    ++ exn_text e)])
    /\ ((exists r, scr.issue_vol v pmid = Returns (Some r) [])
        \/ exists e,
            scr.issue_vol v pmid
            = Returns None
                [Message "error"
                   ("Unable to process search due to error in record: "
                    ++ id_text pmid
                    ++ ".  In Volume/Issue Processing. Errors: "
                    ++ exn_text e)])
    /\ ((forall d, v <> PDict d) ->
        scr.format_date v pmid
        = Returns None
            [Message "error"
               ("Unable to process search due to error in record: "
                ++ id_text pmid ++ ".  In Date. Errors: "
                ++ exn_text AttributeError)]
        /\ scr.format_author v index pmid
           = Returns None
               [Message "error"
                  ("Unable to process search due to error in record: "
                   ++ id_text pmid ++ ".  In Author Processing. Errors: "
                   ++ exn_text AttributeError)]).
Proof.
  intros v index pmid H.
  split; [ | split; [ | split ] ].
  - unfold scr.format_date.
    destruct (try_except_report (scr.format_date_body v) pmid "Date"
                (format_date_body_log v) H)
      as [(r & _ & E) | (e & _ & E)];
      [ left; exists r; exact E | right; exists e; exact E ].
  - unfold scr.format_author.
    destruct (try_except_report
                (d <- scr.format_author_body v index ;; ret (Some d))
                pmid "Author Processing")
      as [(r & Hb & E) | (e & _ & E)];
      [ apply bind_log; [ apply format_author_body_log | reflexivity ]
      | exact H | left | right; exists e; exact E ].
    apply bind_ret_inv in Hb as (d & _ & Hr). apply returns_inj in Hr.
    subst r. exists d. exact E.
  - unfold scr.issue_vol.
    destruct (try_except_report
                (t <- scr.issue_vol_body v ;; ret (Some t))
                pmid "Volume/Issue Processing")
      as [(r & Hb & E) | (e & _ & E)];
      [ apply bind_log; [ apply issue_vol_body_log | reflexivity ]
      | exact H | left | right; exists e; exact E ].
    apply bind_ret_inv in Hb as (d & _ & Hr). apply returns_inj in Hr.
    subst r. exists d. exact E.
  - intros Hv.
    assert (Hd : scr.format_date_body v = raise AttributeError).
    { destruct v; try reflexivity. exfalso. exact (Hv _ eq_refl). }
    assert (Ha : scr.format_author_body v index = raise AttributeError).
    { destruct v; try reflexivity. exfalso. exact (Hv _ eq_refl). }
    unfold scr.format_date, scr.format_author. rewrite Hd, Ha.
    cbn [bind raise try_except].
    rewrite !(report_message pmid _ AttributeError H). split; reflexivity.
Qed.

Lemma normalizers_return_or_report_witness :
  scr.format_date (PInt 3) (Some 7)
  = Returns None
      [Message "error"
         ("Unable to process search due to error in record: 7."
          ++ "  In Date. Errors: " ++ exn_text AttributeError)]
  /\ scr.format_author (PInt 3) 0 (Some 7)
     = Returns None
         [Message "error"
            ("Unable to process search due to error in record: 7."
             ++ "  In Author Processing. Errors: "
             ++ exn_text AttributeError)].
Proof.
  refine (proj2 (proj2 (proj2
    (normalizers_return_or_report (PInt 3) 0 (Some 7) _))) _).
  - intros z E. injection E as <-. reflexivity.
  - intros d E. discriminate E.
Defined.

(** C7, as stated, fails: a year that is no number is malformed, and the
    date is missing without any message; a token that names neither a
    number nor a designator is malformed, and the result is not missing
    and comes without a message. *)
Lemma malformed_input_without_reason :
  scr.format_date (PDict [("Year", PStr "abcd")]) None = Returns None []
  /\ scr.issue_vol (PStr "???") None
     = Returns (Some (None, None, Some "")) [].
Proof. split; reflexivity. Qed.

(** A month that is a digit to [isdigit] but not to [int]: the body
    raises, and the caller gets the missing value and the reason. *)
Example format_date_superscript_month :
  let month := PStr (String (ascii_of_N 178) EmptyString) in
  let date_obj := PDict [("Year", PStr "2020"); ("Month", month)] in
  scr.format_date_body date_obj = raise ValueError
  /\ scr.format_date date_obj None
     = Returns None
         [Message "error"
            ("Unable to process search due to error in record: None."
             ++ "  In Date. Errors: " ++ exn_text ValueError)].
Proof. split; reflexivity. Qed.


(** * Further properties *)

(** ** More on volume and issue tokens *)

(** X1: a token of decimal digits alone, no more of them than the
    interpreter reads as an integer, resolves to the number it spells,
    with no designator kind and no auxiliary value. *)
Theorem issue_vol_numeric_token :
  forall s pmid,
    PyStr.forallb PyStr.is_ascii_digit s = true -> s <> "" ->
    Z.of_nat (String.length s) <= Py.max_str_digits ->
    scr.issue_vol (PStr s) pmid = ret (Some (Some (number s), None, None)).
Proof.
  intros s pmid H Hn Hb. apply issue_vol_returns.
  exact (issue_vol_body_digits s H Hn Hb).
Qed.

Lemma issue_vol_numeric_token_witness :
  scr.issue_vol (PStr "0042") (Some 7) = ret (Some (Some 42, None, None)).
Proof.
  refine (issue_vol_numeric_token "0042" (Some 7) eq_refl _ _).
  - discriminate.
  - vm_compute. discriminate.
Defined.

(** Beyond the bound [int] refuses the digits, and the token resolves to
    nothing, with the reason reported. *)
Lemma digits_int_long :
  forall s, PyStr.forallb PyStr.is_ascii_digit s = true ->
    Py.max_str_digits < Z.of_nat (String.length s) ->
    Py.int s = raise ValueError.
Proof.
  intros s H Hb. unfold Py.int. rewrite (digits_strip s H).
  destruct s as [|c r]; [ simpl in Hb; unfold Py.max_str_digits in Hb; lia | ].
  assert (Hc : PyStr.is_ascii_digit c = true).
  { simpl in H. now apply andb_prop in H as [Hc _]. }
  destruct (digit_facts c Hc) as (_ & _ & _ & -> & -> & _).
  rewrite (digits_int_body (String c r) 0 false H) by (right; discriminate).
  rewrite (digits_count _ H).
  destruct (Z.ltb_spec Py.max_str_digits
              (Z.of_nat (String.length (String c r)))) as [_ | Hle];
    [ reflexivity | lia ].
Qed.

Lemma issue_vol_long_token :
  forall s pmid,
    PyStr.forallb PyStr.is_ascii_digit s = true ->
    Py.max_str_digits < Z.of_nat (String.length s) ->
    (forall z, pmid = Some z -> Py.int_writes z = true) ->
    scr.issue_vol (PStr s) pmid
    = Returns None
        [Message "error"
           ("Unable to process search due to error in record: "
            ++ id_text pmid ++ ".  In Volume/Issue Processing. Errors: "
            ++ exn_text ValueError)].
Proof.
  intros s pmid H Hb Hp.
  assert (Hn : s <> "").
  { intros ->. simpl in Hb. unfold Py.max_str_digits in Hb. lia. }
  unfold scr.issue_vol.
  rewrite (issue_vol_body_digits_read s H Hn), (digits_int_long s H Hb).
  cbn [bind raise try_except].
  rewrite (report_message pmid _ ValueError Hp). reflexivity.
Qed.

Lemma span_app_stop :
  forall p a c r,
    PyStr.forallb p a = true -> p c = false ->
    PyStr.span p (a ++ String c r) = (a, String c r).
Proof.
  intros p. induction a as [|x a IH]; intros c r Ha Hc; simpl.
  - now rewrite Hc.
  - simpl in Ha. apply andb_prop in Ha as [Hx Ha].
    now rewrite Hx, (IH c r Ha Hc).
Qed.

Lemma span_all :
  forall p a, PyStr.forallb p a = true -> PyStr.span p a = (a, EmptyString).
Proof.
  intros p. induction a as [|x a IH]; intros Ha; simpl; [ reflexivity | ].
  simpl in Ha. apply andb_prop in Ha as [Hx Ha]. now rewrite Hx, (IH Ha).
Qed.

Lemma existsb_app_r :
  forall p a b, PyStr.existsb p b = true -> PyStr.existsb p (a ++ b) = true.
Proof.
  intros p. induction a as [|x a IH]; intros b H; simpl; [ exact H | ].
  rewrite (IH b H). apply orb_true_r.
Qed.

Lemma rstrip_app :
  forall x y, y <> "" -> PyStr.rstrip y = y -> PyStr.rstrip (x ++ y) = x ++ y.
Proof.
  induction x as [|c x IH]; intros y Hn Hy; simpl; [ exact Hy | ].
  rewrite (IH y Hn Hy). destruct (x ++ y) eqn:E; [ | reflexivity ].
  destruct x; [ simpl in E; congruence | discriminate E ].
Qed.

Lemma lower_app :
  forall a b, PyStr.lower (a ++ b) = PyStr.lower a ++ PyStr.lower b.
Proof.
  induction a as [|c a IH]; intros b; simpl; [ | rewrite IH ]; reflexivity.
Qed.

Lemma replace_digits_then :
  forall a b,
    PyStr.forallb PyStr.is_ascii_digit a = true ->
    PyStr.replace_from "\xa0" " " 0 (a ++ b)
    = a ++ PyStr.replace_from "\xa0" " " 0 b.
Proof.
  induction a as [|c a IH]; intros b H; [ reflexivity | ].
  simpl in H. apply andb_prop in H as [Hc Ha].
  destruct (digit_facts c Hc) as (_ & _ & _ & _ & _ & _ & Hb).
  cbn [append PyStr.replace_from prefix].
  destruct (ascii_dec "\"%char c) as [E|E]; [ discriminate Hb | ].
  now rewrite (IH b Ha).
Qed.

(** The text of a range token is left as it is by the initial
    formatting. *)
Lemma range_token_formatting :
  forall a b,
    PyStr.forallb PyStr.is_ascii_digit a = true -> a <> "" ->
    PyStr.forallb PyStr.is_ascii_digit b = true -> b <> "" ->
    PyStr.strip (PyStr.lower (PyStr.replace "\xa0" " " (a ++ "-" ++ b)))
    = a ++ "-" ++ b.
Proof.
  intros a b Ha Hna Hb Hnb.
  unfold PyStr.replace. rewrite (replace_digits_then a _ Ha).
  cbn [append PyStr.replace_from prefix].
  destruct (ascii_dec "\"%char "-"%char) as [E|_]; [ discriminate E | ].
  fold (PyStr.replace "\xa0" " " b). rewrite (digits_replace b Hb).
  rewrite lower_app, (digits_lower a Ha). cbn [PyStr.lower].
  rewrite (digits_lower b Hb).
  change (String (PyStr.lower_char "-") b) with ("-" ++ b).
  unfold PyStr.strip.
  assert (E : PyStr.lstrip (a ++ "-" ++ b) = a ++ "-" ++ b).
  { destruct a as [|c a]; [ congruence | ]. simpl in Ha |- *.
    apply andb_prop in Ha as [Hc _].
    destruct (digit_facts c Hc) as (-> & _). reflexivity. }
  rewrite E.
  change (a ++ "-" ++ b) with (a ++ (String "-" b)).
  replace (a ++ String "-" b) with ((a ++ "-") ++ b).
  - apply rstrip_app; [ exact Hnb | now apply digits_rstrip ].
  - clear. induction a as [|c a IH]; simpl; [ reflexivity | now rewrite IH ].
Qed.

(** X2: a range token, digits, a hyphen, digits, the first digits no more
    than the interpreter reads as an integer, resolves to the number
    before the hyphen, the kind "Issue Range", and the digits after the
    hyphen as auxiliary value. *)
Theorem issue_vol_range_token :
  forall a b pmid,
    PyStr.forallb PyStr.is_ascii_digit a = true -> a <> "" ->
    Z.of_nat (String.length a) <= Py.max_str_digits ->
    PyStr.forallb PyStr.is_ascii_digit b = true -> b <> "" ->
    scr.issue_vol (PStr (a ++ "-" ++ b)) pmid
    = ret (Some (Some (number a), Some "Issue Range", Some b)).
Proof.
  intros a b pmid Ha Hna Hba Hb Hnb. apply issue_vol_returns.
  unfold scr.issue_vol_body. rewrite format_str, bind_ret_l. cbv zeta.
  rewrite (range_token_formatting a b Ha Hna Hb Hnb).
  assert (Hex : PyStr.existsb (fun c => negb (PyStr.is_ascii_digit c))
                  (a ++ "-" ++ b) = true).
  { apply existsb_app_r. reflexivity. }
  rewrite Hex.
  assert (Hg : scr.three_groups (a ++ "-" ++ b) = (a, "-", b)).
  { unfold scr.three_groups.
    change (a ++ "-" ++ b) with (a ++ String "-" b).
    rewrite (span_app_stop _ a "-" b Ha eq_refl).
    destruct b as [|c b]; [ congruence | ].
    assert (Hc : PyStr.is_ascii_digit c = true).
    { simpl in Hb. now apply andb_prop in Hb as [Hc _]. }
    change (String "-" (String c b)) with ("-" ++ String c b).
    rewrite (span_app_stop (fun x => negb (PyStr.is_ascii_digit x))
               "-" c b eq_refl) by (now rewrite Hc).
    rewrite (span_all _ (String c b) Hb). reflexivity. }
  rewrite Hg. unfold scr.vol_of.
  destruct (String.eqb a "") eqn:Ea;
    [ apply String.eqb_eq in Ea; congruence | ].
  cbn [negb]. rewrite (digits_int a Ha Hna Hba), !bind_ret_l.
  reflexivity.
Qed.

Lemma issue_vol_range_token_witness :
  scr.issue_vol (PStr "11-12") None
  = ret (Some (Some 11, Some "Issue Range", Some "12")).
Proof.
  refine (issue_vol_range_token "11" "12" None eq_refl _ _ eq_refl _);
    discriminate.
Defined.

(** ** More on date resolution *)

Lemma search_4_digits_shape :
  forall s y, scr.search_4_digits s = Some y ->
    (4 <= String.length y)%nat /\ PyStr.isdigit y = true.
Proof.
  induction s as [|a r IH]; intros y H; [ discriminate H | ].
  cbn [scr.search_4_digits] in H.
  destruct r as [|b [|c [|d r']]]; try discriminate H.
  destruct (PyStr.forallb PyStr.is_ascii_digit
              (String a (String b (String c (String d EmptyString)))))
    eqn:E.
  - injection H as <-. split; [ simpl; lia | ].
    apply digits_isdigit; [ exact E | discriminate ].
  - now apply IH.
Qed.

(** X3: when no year is accepted and [MedlineDate] holds a text, the date
    is the first of January of the first run of four digits in it, or
    missing; a month named in the text plays no part. *)
Theorem medline_date_gives_first_of_january :
  forall date_obj pmid s om od,
    scr.accept_year date_obj = ret None ->
    scr.accept_month date_obj = ret om ->
    scr.accept_day date_obj = ret od ->
    Py.getitem date_obj "MedlineDate" = ret (PStr s) ->
    scr.format_date date_obj pmid
    = ret (match scr.search_4_digits s with
           | Some y => calendar_date y "01" "01"
           | None => None
           end).
Proof.
  intros date_obj pmid s om od Hy Hm Hd Hs.
  unfold scr.format_date, scr.format_date_body.
  rewrite Hy, bind_ret_l, Hm, bind_ret_l, Hd, bind_ret_l.
  unfold scr.medline_date. cbn [scr.truthy negb].
  rewrite (getitem_has_key _ _ _ Hs), bind_ret_l, Hs, !bind_ret_l.
  repeat (change (scr.re_subject (PStr s)) with (ret s); rewrite !bind_ret_l).
  cbn [fst snd].
  destruct (scr.search_4_digits s) as [y|] eqn:E.
  - destruct (search_4_digits_shape s y E) as [Hl Hdig].
    rewrite (attempt_format_accepted y None od Hl Hdig).
    + reflexivity.
    + intros m Hm'. discriminate Hm'.
    + intros d ->. apply day_texts_forms.
      exact (accept_day_values date_obj d Hd).
  - reflexivity.
Qed.

Lemma medline_date_gives_first_of_january_witness :
  scr.format_date (PDict [("MedlineDate", PStr "2020 Jan-Mar")]) (Some 1)
  = ret (Some (Date 2020 1 1)).
Proof.
  exact (medline_date_gives_first_of_january
           (PDict [("MedlineDate", PStr "2020 Jan-Mar")]) (Some 1)
           "2020 Jan-Mar" None None eq_refl eq_refl eq_refl eq_refl).
Defined.

Lemma calendar_date_valid :
  forall y m d dt, calendar_date y m d = Some dt ->
    dt = Date (number y) (number m) (number d)
    /\ valid_date (number y) (number m) (number d) = true.
Proof.
  intros y m d dt H. unfold calendar_date in H.
  destruct (four_digits y && valid_date (number y) (number m) (number d))
    eqn:E; [ | discriminate H ].
  apply andb_prop in E as [_ E]. inversion H. split; [ reflexivity | exact E ].
Qed.

Lemma day_texts_small : forall d, In d day_texts -> number d <= 9.
Proof.
  intros d H. simpl in H.
  repeat (destruct H as [<- | H]; [ vm_compute; discriminate | ]).
  contradiction.
Qed.

(** X4: every date that [format_date] returns is a calendar date, and its
    day is at most the ninth. *)
Theorem format_date_returns_calendar_dates :
  forall date_obj pmid dt log,
    scr.format_date date_obj pmid = Returns (Some dt) log ->
    valid_date (year dt) (month dt) (day dt) = true /\ day dt <= 9.
Proof.
  intros date_obj pmid dt log H. unfold scr.format_date in H.
  apply try_except_report_some in H.
  unfold scr.format_date_body in H.
  apply bind_returns in H as (oy & l1 & ? & Hy & H & _).
  apply bind_returns in H as (om & l2 & ? & Hm & H & _).
  apply bind_returns in H as (od & l3 & ? & Hd & H & _).
  apply bind_returns in H as ([y' m'] & l4 & l5 & Hmed & H & _).
  cbn [fst snd] in H.
  apply returns_ret in Hy; [ | apply accept_year_log ].
  apply returns_ret in Hm; [ | apply accept_month_log ].
  apply returns_ret in Hd; [ | apply accept_day_log ].
  apply returns_ret in H; [ | apply attempt_format_log ].
  assert (Hday : forall d, od = Some d -> In d day_texts).
  { intros d ->. exact (accept_day_values date_obj d Hd). }
  assert (Hshape : forall y, y' = Some y ->
            (4 <= String.length y)%nat /\ PyStr.isdigit y = true).
  { intros y ->. unfold scr.medline_date in Hmed.
    destruct (negb (scr.truthy oy)) eqn:Et.
    - apply bind_returns in Hmed as (has & ? & ? & _ & Hmed & _).
      destruct has.
      + apply bind_returns in Hmed as (v & ? & ? & _ & Hmed & _).
        apply bind_returns in Hmed as (s & ? & ? & _ & Hmed & _).
        apply bind_returns in Hmed as (v' & ? & ? & _ & Hmed & _).
        apply bind_returns in Hmed as (s' & ? & ? & _ & Hmed & _).
        inversion Hmed as [[Hs Hm']].
        now apply (search_4_digits_shape s).
      + inversion Hmed; subst oy.
        exact (accept_year_values date_obj y Hy).
    - inversion Hmed; subst oy.
      exact (accept_year_values date_obj y Hy). }
  assert (Hmonth : forall m, m' = Some m -> In m month_texts).
  { intros m ->. unfold scr.medline_date in Hmed.
    destruct (negb (scr.truthy oy)).
    - apply bind_returns in Hmed as (has & ? & ? & _ & Hmed & _).
      destruct has.
      + apply bind_returns in Hmed as (v & ? & ? & _ & Hmed & _).
        apply bind_returns in Hmed as (s & ? & ? & _ & Hmed & _).
        apply bind_returns in Hmed as (v' & ? & ? & _ & Hmed & _).
        apply bind_returns in Hmed as (s' & ? & ? & _ & Hmed & _).
        inversion Hmed.
      + inversion Hmed; subst om.
        exact (accept_month_values date_obj m Hm).
    - inversion Hmed; subst om.
      exact (accept_month_values date_obj m Hm). }
  destruct y' as [y|].
  - destruct (Hshape y eq_refl) as [Hl Hdig].
    rewrite (attempt_format_accepted y m' od Hl Hdig) in H.
    + inversion H as [Hres]. unfold resolved_date in Hres.
      destruct m' as [m|]; [ destruct od as [d|] | ];
        apply calendar_date_valid in Hres as [-> Hv]; cbn [year month day];
        (split; [ exact Hv | ]).
      * exact (day_texts_small d (Hday d eq_refl)).
      * vm_compute. discriminate.
      * vm_compute. discriminate.
    + intros m Hm'. apply month_texts_forms. now apply Hmonth.
    + intros d Hd'. apply day_texts_forms. now apply Hday.
  - unfold scr.attempt_format in H. cbn in H. discriminate H.
Qed.

Lemma format_date_returns_calendar_dates_witness :
  valid_date 2023 2 3 = true /\ 3 <= 9.
Proof.
  exact (format_date_returns_calendar_dates
           (PDict [("Year", PStr "2023"); ("Month", PStr "2");
                   ("Day", PStr "3")])
           None (Date 2023 2 3) [] eq_refl).
Defined.

(** ** Pages *)

Lemma getitem_nonempty_dict :
  forall v k x, Py.getitem v k = ret x -> exists n, Py.len v = ret (S n).
Proof.
  intros v k x H. destruct v; try discriminate H.
  destruct d as [|kv d]; [ discriminate H | ]. simpl. eauto.
Qed.

(** An entry that is present and is a dictionary with an entry of its own
    passes the guard on its length. *)
Lemma nonempty_item_dict :
  forall d k v k' x,
    Py.getitem d k = ret v -> Py.getitem v k' = ret x ->
    scr.nonempty_item d k = ret (Some v).
Proof.
  intros d k v k' x Hv Hx. unfold scr.nonempty_item.
  rewrite (getitem_has_key d k v Hv), bind_ret_l, Hv, bind_ret_l.
  destruct (getitem_nonempty_dict v k' x Hx) as [n ->].
  rewrite bind_ret_l. reflexivity.
Qed.

(** X5: with a start page and no end page, the end page is the start
    page. *)
Theorem pagination_single_page :
  forall record pg s,
    Py.getitem record "Pagination" = ret pg ->
    Py.getitem pg "StartPage" = ret (PStr s) -> s <> "" ->
    scr.nonempty_item pg "EndPage" = ret None ->
    scr.pagination_of record = ret (Some (PStr s), Some (PStr s)).
Proof.
  intros record pg s Hpg Hs Hn He. unfold scr.pagination_of.
  rewrite (nonempty_item_dict record "Pagination" pg "StartPage" _ Hpg Hs).
  rewrite bind_ret_l, (nonempty_item_str pg "StartPage" s Hs Hn), bind_ret_l.
  rewrite He, bind_ret_l.
  assert (Ht : Py.truthy (PStr s) = true)
    by (destruct s; [ congruence | reflexivity ]).
  cbn [scr.truthy_value]. rewrite Ht. cbn [orb negb].
  rewrite bind_ret_l. cbn [scr.truthy_value]. rewrite Ht. reflexivity.
Qed.

Lemma pagination_single_page_witness :
  scr.pagination_of
    (PDict [("Pagination", PDict [("StartPage", PStr "e123")])])
  = ret (Some (PStr "e123"), Some (PStr "e123")).
Proof.
  refine (pagination_single_page
            (PDict [("Pagination", PDict [("StartPage", PStr "e123")])])
            (PDict [("StartPage", PStr "e123")])
            "e123" eq_refl eq_refl _ eq_refl).
  discriminate.
Defined.

Lemma digit_is_page :
  forall c, PyStr.is_ascii_digit c = true ->
    scr.is_page_char c = true /\ scr.is_page_sep c = true.
Proof. intros c H. ascii_cases c; try discriminate H; split; reflexivity. Qed.

(** The search of [pgn_regex] in a text of three digits or more: the
    separator takes the last digit but one. *)
Lemma pgn_search_digits :
  forall a c1 c2 c3,
    PyStr.forallb PyStr.is_ascii_digit a = true ->
    PyStr.is_ascii_digit c1 = true -> PyStr.is_ascii_digit c2 = true ->
    PyStr.is_ascii_digit c3 = true ->
    scr.pgn_search (a ++ String c1 (String c2 (String c3 "")))
    = Some (a ++ String c1 "", String c3 "").
Proof.
  intros a c1 c2 c3 Ha H1 H2 H3.
  destruct (digit_is_page c1 H1) as [P1 S1].
  destruct (digit_is_page c2 H2) as [P2 S2].
  destruct (digit_is_page c3 H3) as [P3 S3].
  induction a as [|x a IH].
  - cbn [append scr.pgn_search scr.pgn_sep].
    unfold scr.pgn_end. cbn [PyStr.span].
    rewrite P1, P2, P3, S2, S3. reflexivity.
  - simpl in Ha. apply andb_prop in Ha as [Hx Ha].
    destruct (digit_is_page x Hx) as [Px _].
    cbn [append scr.pgn_search]. rewrite Px, (IH Ha). reflexivity.
Qed.

(** X6: a page label of three digits or more that is given as
    [MedlinePgn] alone is cut in two: the start page loses its last two
    digits and the end page is the last digit. *)
Theorem pagination_of_digits_is_split :
  forall record pg a c1 c2 c3,
    Py.getitem record "Pagination" = ret pg ->
    scr.nonempty_item pg "StartPage" = ret None ->
    scr.nonempty_item pg "EndPage" = ret None ->
    Py.getitem pg "MedlinePgn"
    = ret (PStr (a ++ String c1 (String c2 (String c3 "")))) ->
    PyStr.forallb PyStr.is_ascii_digit a = true ->
    PyStr.is_ascii_digit c1 = true -> PyStr.is_ascii_digit c2 = true ->
    PyStr.is_ascii_digit c3 = true ->
    scr.pagination_of record
    = ret (Some (PStr (a ++ String c1 "")), Some (PStr (String c3 ""))).
Proof.
  intros record pg a c1 c2 c3 Hpg Hs He Hm Ha H1 H2 H3.
  unfold scr.pagination_of.
  rewrite (nonempty_item_dict record "Pagination" pg "MedlinePgn" _ Hpg Hm).
  rewrite bind_ret_l, Hs, bind_ret_l, He, bind_ret_l.
  cbn [scr.truthy_value orb negb].
  assert (Hne : a ++ String c1 (String c2 (String c3 "")) <> "").
  { destruct a; discriminate. }
  rewrite (nonempty_item_str pg "MedlinePgn" _ Hm Hne), bind_ret_l.
  change (scr.re_subject (PStr (a ++ String c1 (String c2 (String c3 "")))))
    with (ret (a ++ String c1 (String c2 (String c3 "")))).
  rewrite bind_ret_l, (pgn_search_digits a c1 c2 c3 Ha H1 H2 H3).
  rewrite bind_ret_l. reflexivity.
Qed.

Lemma pagination_of_digits_is_split_witness :
  scr.pagination_of
    (PDict [("Pagination", PDict [("MedlinePgn", PStr "1234")])])
  = ret (Some (PStr "12"), Some (PStr "4")).
Proof.
  exact (pagination_of_digits_is_split
           (PDict [("Pagination", PDict [("MedlinePgn", PStr "1234")])])
           (PDict [("MedlinePgn", PStr "1234")]) "1" "2" "3" "4"
           eq_refl eq_refl eq_refl eq_refl eq_refl eq_refl eq_refl eq_refl).
Defined.

(** ** Assembling a record *)

(** X7: the publication date of an article is the date of its journal
    issue when there is one, and the article date only otherwise. *)
Theorem journal_date_precedes_article_date :
  forall record pmid ad log j jd lj od la,
    scr.article_content record pmid = Returns (Some ad) log ->
    Py.getitem record "Journal" = ret j ->
    scr.journal_content j pmid = Returns (Some jd) lj ->
    scr.article_date_of record pmid = Returns od la ->
    scr.pubdate (scr.jour ad)
    = match scr.pubdate jd with
      | Some d => Some d
      | None => od
      end.
Proof.
  intros record pmid ad log j jd lj od la H Hj Hjc Hd.
  unfold scr.article_content in H.
  apply try_except_report_some in H.
  apply bind_returns in H as (d & ? & ? & H & Hret & _).
  apply returns_inj in Hret. injection Hret as ->.
  unfold scr.article_content_body in H.
  apply bind_returns in H as (title & ? & ? & _ & H & _).
  apply bind_returns in H as (abstract & ? & ? & _ & H & _).
  apply bind_returns in H as (date & ? & ? & Hdate & H & _).
  apply bind_returns in H as (pages & ? & ? & _ & H & _).
  apply bind_returns in H as (authors & ? & ? & _ & H & _).
  apply bind_returns in H as (language & ? & ? & _ & H & _).
  rewrite Hj, bind_ret_l, Hjc in H.
  rewrite Hd in Hdate. apply returns_inj in Hdate. subst date.
  cbn [bind] in H. apply returns_inj in H. subst ad. cbn [scr.jour].
  destruct (scr.pubdate jd) as [d|] eqn:E; [ exact E | ].
  destruct od; [ reflexivity | exact E ].
Qed.

Lemma journal_date_precedes_article_date_witness :
  Some (Date 2020 1 1) = Some (Date 2020 1 1).
Proof.
  set (j := PDict [("JournalIssue",
                    PDict [("PubDate", PDict [("Year", PStr "2020")])])]).
  set (record := PDict [("ArticleDate", PList [PDict [("Year", PStr "2019")]]);
                        ("Journal", j)]).
  exact (journal_date_precedes_article_date record None
           (scr.ArticleData None None None None None None
              (scr.JourData None None None None None None
                 (Some (Date 2020 1 1))))
           [] j
           (scr.JourData None None None None None None (Some (Date 2020 1 1)))
           [] (Some (Date 2019 1 1)) []
           eq_refl eq_refl eq_refl eq_refl).
Defined.

(** The keywords collected so far stay distinct when one is added. *)
Lemma set_add_nodup :
  forall val set, NoDup set -> NoDup (scr.set_add val set).
Proof.
  intros val set H. unfold scr.set_add.
  destruct (List.existsb (String.eqb val) set) eqn:E; [ exact H | ].
  apply NoDup_app; [ exact H | constructor; [ intros [] | constructor ] | ].
  intros x Hx [Ex | []]. subst x.
  assert (List.existsb (String.eqb val) set = true).
  { apply existsb_exists. exists val.
    split; [ exact Hx | apply String.eqb_refl ]. }
  congruence.
Qed.

Lemma fold_set_add_nodup :
  forall vals set,
    NoDup set ->
    NoDup (List.fold_left (fun set val => scr.set_add val set) vals set).
Proof.
  induction vals as [|v vals IH]; intros set H; simpl; [ exact H | ].
  apply IH. now apply set_add_nodup.
Qed.

Lemma fold_set_add_in :
  forall vals set x,
    In x (List.fold_left (fun set val => scr.set_add val set) vals set) ->
    In x vals \/ In x set.
Proof.
  induction vals as [|v vals IH]; intros set x H; simpl in *; [ now right | ].
  apply IH in H as [H | H]; [ now left; right | ].
  unfold scr.set_add in H.
  destruct (List.existsb (String.eqb v) set); [ now right | ].
  apply in_app_or in H as [H | [<- | []]]; [ now right | now left; left ].
Qed.

Lemma mapM_forall :
  forall {A B} (f : A -> M B) (P : B -> Prop) (l : list A) ys log,
    (forall x y lg, f x = Returns y lg -> P y) ->
    scr.mapM f l = Returns ys log -> Forall P ys.
Proof.
  intros A B f P l. induction l as [|x r IH]; intros ys log Hf H.
  - apply returns_inj in H. subst ys. constructor.
  - cbn [scr.mapM] in H.
    apply bind_returns in H as (y & ? & ? & Hy & H & _).
    apply bind_returns in H as (ys' & ? & ? & Hys & H & _).
    apply returns_inj in H. subst ys.
    constructor; [ exact (Hf x y _ Hy) | exact (IH ys' _ Hf Hys) ].
Qed.

Lemma for_range_forall :
  forall {B} (f : pyval -> nat -> M B) (P : B -> Prop) v ys log,
    (forall x i y lg, f x i = Returns y lg -> P y) ->
    scr.for_range v f = Returns ys log -> Forall P ys.
Proof.
  intros B f P v ys log Hf H. unfold scr.for_range in H.
  apply bind_returns in H as (n & ? & ? & _ & H & _).
  apply mapM_forall with (P := P) in H; [ exact H | ].
  intros i y lg Hi.
  apply bind_returns in Hi as (el & ? & ? & _ & Hi & _).
  exact (Hf el i y _ Hi).
Qed.

(** X8: the keywords of a record are pairwise distinct, in lower case and
    without white space around them. *)
Theorem keywords_are_distinct_and_normalised :
  forall record kws log,
    scr.keywords_of record = Returns (Some kws) log ->
    NoDup kws
    /\ Forall (fun k => PyStr.strip (PyStr.lower k) = k) kws.
Proof.
  intros record kws log H. unfold scr.keywords_of in H.
  apply bind_returns in H as (k & ? & ? & _ & H & _).
  destruct k as [kl|];
    [ | apply returns_inj in H; discriminate H ].
  apply bind_returns in H as (groups & ? & ? & Hg & H & _).
  apply returns_inj in H. injection H as <-.
  split; [ apply fold_set_add_nodup; constructor | ].
  apply for_range_forall
    with (P := Forall (fun k => PyStr.strip (PyStr.lower k) = k)) in Hg.
  - apply Forall_forall. intros kw Hkw.
    apply fold_set_add_in in Hkw as [Hkw | []].
    apply in_concat in Hkw as (g & Hgin & Hkw).
    rewrite Forall_forall in Hg. specialize (Hg g Hgin).
    rewrite Forall_forall in Hg. exact (Hg kw Hkw).
  - intros g i ys lg Hys.
    apply for_range_forall
      with (P := fun k => PyStr.strip (PyStr.lower k) = k) in Hys;
      [ exact Hys | ].
    intros v j y lg' Hv. unfold scr.keyword_of in Hv.
    apply bind_returns in Hv as (s & ? & ? & Hs & Hv & _).
    apply returns_inj in Hv. subst y.
    destruct v; try discriminate Hs. apply returns_inj in Hs. subst s.
    now rewrite lower_idem, strip_lower, strip_idem.
Qed.

Lemma keywords_are_distinct_and_normalised_witness :
  NoDup ["cancer"; "genetics"]
  /\ Forall (fun k => PyStr.strip (PyStr.lower k) = k) ["cancer"; "genetics"].
Proof.
  exact (keywords_are_distinct_and_normalised
           (PDict [("KeywordList",
                    PList [PList [PStr "Cancer"; PStr " genetics"];
                           PList [PStr "cancer "]])])
           ["cancer"; "genetics"] [] eq_refl).
Defined.

Lemma keywords_of_log : forall record, log_of (scr.keywords_of record) = [].
Proof.
  intros record. unfold scr.keywords_of.
  apply bind_log; [ apply nonempty_item_log | intros [kl|]; [ | reflexivity ] ].
  apply bind_log; [ | reflexivity ].
  unfold scr.for_range.
  apply bind_log; [ apply len_log | intros n ].
  apply mapM_log. intros i.
  apply bind_log; [ apply getindex_log | intros g ].
  apply bind_log; [ apply len_log | intros n' ].
  apply mapM_log. intros i'.
  apply bind_log; [ apply getindex_log | intros v ].
  unfold scr.keyword_of. silent.
Qed.

(** Where the body of [single_record] raises on a record that can be
    written into a message, the result is missing and the one message
    quotes the record and the exception. *)
Lemma single_record_reports :
  forall record e,
    Py.writes record = true ->
    scr.single_record_body record = raise e ->
    scr.single_record record
    = Returns None
        [Message "error"
           ("Unable to process search due to error in record"
            ++ "  in any processing. Record: " ++ Py.str record
            ++ " " ++ nl ++ " " ++ tab ++ " Errors: " ++ exn_text e)].
Proof.
  intros record e Hw Hb. unfold scr.single_record. rewrite Hb.
  cbn [bind raise try_except]. unfold Py.format. rewrite Hw.
  rewrite bind_ret_l. unfold display_message. cbn [bind ret app].
  do 3 f_equal. cbn [PyStr.join]. rewrite !append_assoc. reflexivity.
Qed.

(** X9: a record whose [PMID] is absent or empty, and which can be written
    into a message, is not scraped: [single_record] returns nothing after
    one error message that quotes the record and the exception; when the
    keywords and the article of the record are read, the exception is the
    one for the local [pmid], which was never assigned. *)
Theorem single_record_needs_pmid :
  forall record,
    scr.nonempty_item record "PMID" = ret None ->
    Py.writes record = true ->
    exists e,
      scr.single_record record
      = Returns None
          [Message "error"
             ("Unable to process search due to error in record"
              ++ "  in any processing. Record: " ++ Py.str record
              ++ " " ++ nl ++ " " ++ tab ++ " Errors: " ++ exn_text e)]
      /\ (forall k a,
             scr.keywords_of record = ret k ->
             Py.getitem record "Article" = ret a ->
             e = UnboundLocalError).
Proof.
  intros record H Hw.
  assert (Hb : exists e,
             scr.single_record_body record = raise e
             /\ (forall k a,
                    scr.keywords_of record = ret k ->
                    Py.getitem record "Article" = ret a ->
                    e = UnboundLocalError)).
  { unfold scr.single_record_body. rewrite H, bind_ret_l, bind_ret_l.
    pose proof (keywords_of_log record) as Hk.
    destruct (scr.keywords_of record) as [k lk | e lk]; simpl in Hk; subst lk.
    - fold (ret k). rewrite bind_ret_l.
      pose proof (getitem_log record "Article") as Ha.
      destruct (Py.getitem record "Article") as [a la | e la];
        simpl in Ha; subst la.
      + exists UnboundLocalError. split; reflexivity.
      + exists e. split; [ reflexivity | ]. intros k' a' _ E. discriminate E.
    - exists e. split; [ reflexivity | ]. intros k' a' E. discriminate E. }
  destruct Hb as (e & Hb & He). exists e. split; [ | exact He ].
  exact (single_record_reports record e Hw Hb).
Qed.

Lemma single_record_needs_pmid_witness :
  scr.single_record
    (PDict [("Article",
             PDict [("ArticleTitle", PStr "Study X");
                    ("Journal", PDict [("Title", PStr "J Test")])])])
  = Returns None
      [Message "error"
         ("Unable to process search due to error in record"
          ++ "  in any processing. Record: "
          ++ "{'Article': {'ArticleTitle': 'Study X', "
          ++ "'Journal': {'Title': 'J Test'}}}"
          ++ " " ++ nl ++ " " ++ tab ++ " Errors: "
          ++ exn_text UnboundLocalError)].
Proof.
  destruct (single_record_needs_pmid
              (PDict [("Article",
                       PDict [("ArticleTitle", PStr "Study X");
                              ("Journal", PDict [("Title", PStr "J Test")])])])
              eq_refl eq_refl) as (e & H & He).
  rewrite (He _ _ eq_refl eq_refl) in H. exact H.
Defined.

(** X10: with an issue and no volume, the designator kind and value of the
    journal data are the ones the issue token resolves to. *)
Theorem issue_designator_kept_without_volume :
  forall record pmid ji i jd log,
    Py.getitem record "JournalIssue" = ret ji ->
    Py.getitem ji "Issue" = ret (PStr i) -> i <> "" ->
    scr.nonempty_item ji "Volume" = ret None ->
    scr.journal_content record pmid = Returns (Some jd) log ->
    scr.issue_vol_body (PStr i)
    = ret (scr.issue jd, scr.other_type jd, scr.other_val jd)
    /\ scr.volume jd = None.
Proof.
  intros record pmid ji i jd log Hji Hi Hin Hv Hjc.
  unfold scr.journal_content in Hjc.
  apply try_except_report_some in Hjc.
  apply bind_returns in Hjc as (d & l1 & l2 & Hbody & Hret & _).
  apply returns_inj in Hret. injection Hret as <-.
  unfold scr.journal_content_body in Hbody.
  apply bind_returns in Hbody as (title & ? & ? & _ & Hbody & _).
  apply bind_returns in Hbody as (abbrev & ? & ? & _ & Hbody & _).
  apply bind_returns in Hbody as (items & ? & ? & Hitems & Hret & _).
  destruct items as [[[[iss vol] oth] val] date].
  apply returns_inj in Hret. subst d. cbn [scr.issue scr.other_type
    scr.other_val scr.volume].
  unfold scr.journal_issue_items in Hitems.
  rewrite (getitem_has_key _ _ _ Hji), bind_ret_l in Hitems.
  rewrite !Hji, !bind_ret_l in Hitems.
  rewrite (nonempty_item_str ji "Issue" i Hi Hin), bind_ret_l in Hitems.
  rewrite Hi, bind_ret_l in Hitems.
  apply bind_returns in Hitems as (ti & ? & ? & Hti & Hitems & _).
  apply unpack_issue_vol_returns in Hti.
  destruct ti as [[iss' oth'] val']. rewrite bind_ret_l in Hitems.
  rewrite Hv, !bind_ret_l in Hitems.
  apply bind_returns in Hitems as (p & ? & ? & _ & Hitems & _).
  apply bind_returns in Hitems as (dt & ? & ? & _ & Hret & _).
  apply returns_inj in Hret. inversion Hret; subst.
  split; [ exact Hti | reflexivity ].
Qed.

Lemma issue_designator_kept_without_volume_witness :
  scr.issue_vol_body (PStr "Suppl 2")
  = ret (None, Some "Supplement", Some "2")
  /\ @None Z = None.
Proof.
  refine (issue_designator_kept_without_volume
            (PDict [("JournalIssue", PDict [("Issue", PStr "Suppl 2")])])
            None (PDict [("Issue", PStr "Suppl 2")]) "Suppl 2"
            (scr.JourData None None None None (Some "Supplement") (Some "2")
               None)
            [] eq_refl eq_refl _ eq_refl eq_refl).
  discriminate.
Defined.

(** ** Author names *)




Lemma first_char_nonempty :
  forall s, PyStr.nonempty s = true ->
    PyStr.nonempty (scr.first_char s) = true.
Proof. intros [|c r] H; [ discriminate H | reflexivity ]. Qed.

Lemma standardize_initials :
  forall index first_nm initials last_nm,
    scr.truthy (scr.first (scr.standardize index first_nm initials last_nm))
    = true ->
    scr.truthy
      (scr.initials (scr.standardize index first_nm initials last_nm))
    = true.
Proof.
  intros index first_nm initials last_nm. unfold scr.standardize.
  destruct first_nm as [f|]; [ | intros H; discriminate H ].
  destruct (PyStr.nonempty f && scr.opt_eqb (PyStr.replace " " "" f) initials);
    [ intros H; discriminate H | ].
  destruct (PyStr.nonempty f && PyStr.contains " " f).
  - destruct (scr.truthy initials) eqn:Ei.
    + destruct (scr.opt_eqb
                  (scr.poss_initials_of (scr.first_name_pieces f)) initials);
        cbn [andb scr.first scr.initials negb]; intros _; exact Ei.
    + cbn [andb scr.first scr.initials negb]. intros Hf.
      destruct (scr.truthy
                  (Some (scr.poss_initials_of (scr.first_name_pieces f))))
        eqn:Ep; [ exact Ep | ].
      rewrite Hf. cbn [option_map scr.truthy].
      now apply first_char_nonempty.
  - cbn [scr.first scr.initials]. intros Hf.
    destruct (scr.truthy initials) eqn:Ei; [ exact Ei | ].
    cbn [negb]. change (scr.truthy None) with false. cbn iota.
    rewrite Hf. cbn [option_map scr.truthy].
    now apply first_char_nonempty.
Qed.

(** X12: an author entry that keeps a first name also has initials: where
    the record gives none, they are taken from the first name. *)
Theorem format_author_first_name_has_initials :
  forall author_dict index pmid nd log,
    scr.format_author author_dict index pmid = Returns (Some nd) log ->
    scr.truthy (scr.first nd) = true ->
    scr.truthy (scr.initials nd) = true.
Proof.
  intros author_dict index pmid nd log H.
  unfold scr.format_author in H.
  apply try_except_report_some in H.
  apply bind_returns in H as (d & ? & ? & H & Hret & _).
  apply returns_inj in Hret. injection Hret as ->.
  unfold scr.format_author_body in H.
  apply bind_returns in H as (f & ? & ? & _ & H & _).
  apply bind_returns in H as (i & ? & ? & _ & H & _).
  apply bind_returns in H as (l & ? & ? & _ & H & _).
  apply returns_inj in H. subst nd.
  apply standardize_initials.
Qed.

Lemma format_author_first_name_has_initials_witness :
  scr.truthy (Some "j") = true.
Proof.
  exact (format_author_first_name_has_initials
           (PDict [("LastName", PStr "Doe"); ("ForeName", PStr "Jane")]) 0
           None (scr.NameDict "1" (Some "jane") (Some "doe") (Some "j")) []
           eq_refl eq_refl).
Defined.

(** ** More on the formatted table *)

Lemma filter_map_length :
  forall {A B} (f : A -> B) (p : B -> bool) (l : list A),
    List.length (List.filter p (List.map f l))
    = List.length (List.filter (fun x => p (f x)) l).
Proof.
  intros A B f p l. induction l as [|x l IH]; simpl; [ reflexivity | ].
  destruct (p (f x)); simpl; now rewrite IH.
Qed.

Lemma opt_is_spec :
  forall s o, pubmed_tool.opt_is s o = true <-> o = Some s.
Proof.
  intros s [t|]; simpl; [ | split; discriminate ].
  rewrite String.eqb_eq. split; [ now intros -> | now intros [= ->] ].
Qed.

Lemma value_count_member :
  forall t r,
    In r t -> (1 <= pubmed_tool.value_count (pubmed_tool.pmid r) t)%nat.
Proof.
  intros t r H. unfold pubmed_tool.value_count.
  assert (Hin : In r (List.filter
                        (fun r' => pubmed_tool.pmid r' =? pubmed_tool.pmid r)
                        t)).
  { apply filter_In. split; [ exact H | apply Z.eqb_refl ]. }
  destruct (List.filter _ t); [ destruct Hin | simpl; lia ].
Qed.

(** X13: every row of the formatted table has a last name; its number of
    authors is 0 exactly when that name is "None Listed", and is otherwise
    the number of rows the table has for its paper. *)
Theorem format_df_author_counts :
  forall lang_dict in_df out log r,
    pubmed_tool.format_df lang_dict in_df = Returns out log ->
    In r out ->
    pubmed_tool.out_last r <> None
    /\ (pubmed_tool.numauthors r = 0
        <-> pubmed_tool.out_last r = Some "None Listed")
    /\ (pubmed_tool.out_last r <> Some "None Listed" ->
        pubmed_tool.numauthors r
        = Z.of_nat
            (List.length
               (List.filter
                  (fun r' => pubmed_tool.out_pmid r' =? pubmed_tool.out_pmid r)
                  out))).
Proof.
  intros lang_dict in_df out log r H Hr. unfold pubmed_tool.format_df in H.
  destruct (pubmed_tool.has_order_column _); [ | discriminate H ].
  apply bind_returns in H as (t & ? & ? & _ & H & _).
  destruct (pubmed_tool.has_language in_df); [ | discriminate H ].
  apply returns_inj in H. subst out.
  set (T := pubmed_tool.dropna_last
              (List.map pubmed_tool.failed_capture
                 (List.map (pubmed_tool.none_listed t) t))) in *.
  apply in_map_iff in Hr as (r0 & <- & Hr0).
  assert (Hlast : pubmed_tool.last r0 <> None).
  { unfold T, pubmed_tool.dropna_last in Hr0.
    apply filter_In in Hr0 as [_ Hl].
    destruct (pubmed_tool.last r0); [ discriminate | discriminate Hl ]. }
  pose proof (value_count_member T r0 Hr0) as Hc.
  unfold pubmed_tool.finish_row.
  cbn [pubmed_tool.out_last pubmed_tool.numauthors pubmed_tool.out_pmid].
  split; [ exact Hlast | ].
  destruct (pubmed_tool.opt_is "None Listed" (pubmed_tool.last r0)) eqn:E.
  - apply opt_is_spec in E. split; [ tauto | congruence ].
  - assert (Hn : pubmed_tool.last r0 <> Some "None Listed").
    { intros Hs. apply opt_is_spec in Hs. congruence. }
    split; [ split; [ lia | congruence ] | ].
    intros _. rewrite filter_map_length. reflexivity.
Qed.

Lemma format_df_author_counts_witness :
  Some "None Listed" <> None
  /\ (0 = 0 <-> Some "None Listed" = Some "None Listed")
  /\ (Some "None Listed" <> Some "None Listed" -> 0 = Z.of_nat 1).
Proof.
  refine (format_df_author_counts english mixed_batch
            [pubmed_tool.OutRow 1
               (pubmed_tool.format_paper english sample_cols) 0 false
               None (Some "None Listed") None;
             pubmed_tool.OutRow 2
               (pubmed_tool.format_paper english sample_cols) 1 true
               (Some "jane") (Some "doe") (Some "jq")]
            []
            (pubmed_tool.OutRow 1
               (pubmed_tool.format_paper english sample_cols) 0 false
               None (Some "None Listed") None)
            eq_refl _).
  left. reflexivity.
Defined.

Lemma no_author_no_order_column :
  forall in_df,
    Forall (fun r => pubmed_tool.in_authors r = None) in_df ->
    pubmed_tool.has_order_column
      (List.concat (List.map pubmed_tool.explode in_df)) = false.
Proof.
  intros in_df H. induction H as [|r l Hr _ IH]; [ reflexivity | ].
  cbn [List.map List.concat]. unfold pubmed_tool.has_order_column in *.
  rewrite existsb_app, IH. unfold pubmed_tool.explode. rewrite Hr.
  reflexivity.
Qed.

(** X14: a batch of papers none of which has an author cell is not
    formatted: the joined table has no column [order], and [format_df]
    raises [AttributeError]. *)
Theorem format_df_needs_an_author :
  forall lang_dict in_df,
    in_df <> [] ->
    Forall (fun r => pubmed_tool.in_authors r = None) in_df ->
    pubmed_tool.format_df lang_dict in_df = raise AttributeError.
Proof.
  intros lang_dict in_df _ H. unfold pubmed_tool.format_df.
  now rewrite (no_author_no_order_column in_df H).
Qed.

Lemma format_df_needs_an_author_witness :
  pubmed_tool.format_df english
    [pubmed_tool.InRow 1 None sample_cols; pubmed_tool.InRow 2 None sample_cols]
  = raise AttributeError.
Proof.
  apply (format_df_needs_an_author english
           [pubmed_tool.InRow 1 None sample_cols;
            pubmed_tool.InRow 2 None sample_cols]).
  - discriminate.
  - repeat constructor.
Defined.

(** ** More on the three relations *)

(** X15: splitting loses nothing: every row of the formatted table is the
    join of a row of the papers, a row of the authors and a pair that
    names both. *)
Theorem split_tables_rejoin :
  forall t_df papers authors pairs r,
    sql.split_tables t_df = (papers, authors, pairs) ->
    In r t_df ->
    exists p a pr,
      In p papers /\ In a authors /\ In pr pairs
      /\ sql.r_pmid pr = sql.p_pmid p
      /\ sql.r_fullname pr = sql.a_fullname a
      /\ r = pubmed_tool.OutRow (sql.p_pmid p) (sql.p_cols p)
               (sql.p_numauthors p) (sql.r_firstauthor pr)
               (sql.a_first a) (sql.a_last a) (sql.a_initials a).
Proof.
  intros t_df papers authors pairs r Hs Hr.
  unfold sql.split_tables in Hs. injection Hs as <- <- <-.
  exists (sql.paper_of r), (sql.author_of r), (sql.pair_of r).
  repeat split;
    try (apply drop_duplicates_in; split; [ now apply in_map | intros [] ]).
  destruct r; reflexivity.
Qed.

Lemma split_tables_rejoin_witness :
  exists p a pr,
    In p (fst (fst (sql.split_tables shared_author_table)))
    /\ In a (snd (fst (sql.split_tables shared_author_table)))
    /\ In pr (snd (sql.split_tables shared_author_table))
    /\ sql.r_pmid pr = sql.p_pmid p
    /\ sql.r_fullname pr = sql.a_fullname a
    /\ pubmed_tool.OutRow 2 sample_cols 1 true
         (Some "jane") (Some "doe") (Some "jq")
       = pubmed_tool.OutRow (sql.p_pmid p) (sql.p_cols p)
           (sql.p_numauthors p) (sql.r_firstauthor pr)
           (sql.a_first a) (sql.a_last a) (sql.a_initials a).
Proof.
  refine (split_tables_rejoin shared_author_table _ _ _
            (pubmed_tool.OutRow 2 sample_cols 1 true
               (Some "jane") (Some "doe") (Some "jq"))
            eq_refl _).
  right. right. left. reflexivity.
Defined.

(** ** More on the query *)

Lemma assign_from_log : forall t s, log_of (sql.assign_from t s) = [].
Proof. intros t s. unfold sql.assign_from. silent. Qed.

Lemma normalize_log :
  forall a l f i, log_of (sql.normalize a l f i) = [].
Proof.
  intros a l f i. unfold sql.normalize.
  repeat (apply bind_log; [ apply assign_from_log | intros ? ]).
  reflexivity.
Qed.

(** X16: when one of the three tables is missing from the database,
    [query] returns nothing after one error message; no query text is
    announced and the database is not asked for rows. *)
Theorem query_missing_table :
  forall validate connect paper_name authors_name pairs_name
         any_nm last_nm first_nm initials_nm db_name terms conx l1 l2 l3,
    validate = Returns db_name l1 ->
    sql.normalize any_nm last_nm first_nm initials_nm = Returns terms l2 ->
    connect db_name = Returns conx l3 ->
    sql.has_table conx paper_name && sql.has_table conx authors_name
    && sql.has_table conx pairs_name = false ->
    sql.query validate connect paper_name authors_name pairs_name
      any_nm last_nm first_nm initials_nm
    = Returns None
        (l1 ++ l3
         ++ [Message "error"
               ("There was an error in querying SQLite." ++ nl ++ tab
                ++ " Error details: " ++ exn_text ValueError)])%list.
Proof.
  intros validate connect paper_name authors_name pairs_name
    any_nm last_nm first_nm initials_nm db_name terms conx l1 l2 l3
    Hv Hn Hc Ht.
  pose proof (normalize_log any_nm last_nm first_nm initials_nm) as Hl.
  rewrite Hn in Hl. cbn [log_of] in Hl. subst l2.
  unfold sql.query. rewrite Hv. cbn [bind]. rewrite Hn. cbn [bind].
  rewrite Hc. destruct terms as [[[a l] f] i].
  cbn [bind ret app]. rewrite ?app_nil_r.
  unfold sql.run_query, sql.require_table.
  destruct (sql.has_table conx paper_name);
    [ | cbn; rewrite !app_nil_r, <- ?app_assoc; reflexivity ].
  destruct (sql.has_table conx authors_name);
    [ | cbn; rewrite !app_nil_r, <- ?app_assoc; reflexivity ].
  destruct (sql.has_table conx pairs_name); [ discriminate Ht | ].
  cbn. rewrite !app_nil_r, <- ?app_assoc. reflexivity.
Qed.

Lemma query_missing_table_witness :
  sql.query (ret "pubs.db")
    (fun _ => ret (sql.Connection (fun n => String.eqb n "papers")
                     (fun _ => ret [])))
    "papers" "authors" "pairs" PNone (PStr "Doe") PNone PNone
  = Returns None
      [Message "error"
         ("There was an error in querying SQLite." ++ nl ++ tab
          ++ " Error details: " ++ exn_text ValueError)].
Proof.
  exact (query_missing_table (ret "pubs.db")
           (fun _ => ret (sql.Connection (fun n => String.eqb n "papers")
                            (fun _ => ret [])))
           "papers" "authors" "pairs" PNone (PStr "Doe") PNone PNone
           "pubs.db" (PNone, PStr "doe", PNone, PNone)
           (sql.Connection (fun n => String.eqb n "papers")
              (fun _ => ret []))
           [] [] [] eq_refl eq_refl eq_refl eq_refl).
Defined.

(** X17: a search by first name or by initials without a last name never
    returns: the term is taken from the missing last name, the connection
    is never opened, and closing it raises [UnboundLocalError]. *)
Theorem query_without_last_name_raises :
  forall validate connect paper_name authors_name pairs_name
         any_nm first_nm initials_nm,
    Py.truthy first_nm = true \/ Py.truthy initials_nm = true ->
    raised
      (sql.query validate connect paper_name authors_name pairs_name
         any_nm PNone first_nm initials_nm)
    = Some UnboundLocalError.
Proof.
  intros validate connect paper_name authors_name pairs_name
    any_nm first_nm initials_nm H.
  unfold sql.query.
  destruct validate as [db l | e l]; [ | reflexivity ].
  assert (Hn : exists e, sql.normalize any_nm PNone first_nm initials_nm
                         = raise e).
  { unfold sql.normalize, sql.assign_from. cbn [Py.truthy].
    rewrite bind_ret_l.
    destruct (Py.truthy first_nm); [ eexists; reflexivity | ].
    rewrite bind_ret_l.
    destruct H as [H | H]; [ discriminate H | ]. rewrite H.
    eexists. reflexivity. }
  destruct Hn as [e ->]. reflexivity.
Qed.

Lemma query_without_last_name_raises_witness :
  raised
    (sql.query (ret "pubs.db") (fun _ => ret three_tables)
       "papers" "authors" "pairs" PNone PNone (PStr "Jane") PNone)
  = Some UnboundLocalError.
Proof.
  apply (query_without_last_name_raises (ret "pubs.db")
           (fun _ => ret three_tables) "papers" "authors" "pairs"
           PNone (PStr "Jane") PNone).
  left. reflexivity.
Defined.

(** ** Printing and reading integers *)

Lemma uint_digits :
  forall d,
    PyStr.forallb PyStr.is_ascii_digit (NilEmpty.string_of_uint d) = true.
Proof. induction d; simpl; auto. Qed.

Lemma uint_value_acc :
  forall d acc,
    PyStr.digits_value (Z.pos acc) (NilEmpty.string_of_uint d)
    = Z.pos (Pos.of_uint_acc d acc).
Proof.
  induction d; intros acc; cbn [NilEmpty.string_of_uint PyStr.digits_value
    Pos.of_uint_acc]; [ reflexivity | rewrite <- IHd; f_equal.. ];
    match goal with
    | |- context [PyStr.digit_val ?c] =>
        let v := eval cbv in (PyStr.digit_val c) in
        change (PyStr.digit_val c) with v
    end; lia.
Qed.

Lemma uint_value :
  forall d,
    PyStr.digits_value 0 (NilEmpty.string_of_uint d) = Z.of_N (Pos.of_uint d).
Proof.
  induction d; cbn [NilEmpty.string_of_uint PyStr.digits_value Pos.of_uint];
    [ reflexivity | exact IHd | .. ];
    cbn [Z.of_N]; rewrite <- uint_value_acc; reflexivity.
Qed.

Lemma pos_text_value :
  forall p,
    PyStr.digits_value 0 (NilEmpty.string_of_uint (Pos.to_uint p)) = Z.pos p.
Proof.
  intros p. now rewrite uint_value, DecimalPos.Unsigned.of_to.
Qed.

Lemma pos_text_nonempty :
  forall p, NilEmpty.string_of_uint (Pos.to_uint p) <> "".
Proof.
  intros p H. pose proof (pos_text_value p) as Hv. rewrite H in Hv.
  discriminate Hv.
Qed.

Lemma pos_text :
  forall p,
    PyStr.of_Z (Z.pos p) = NilEmpty.string_of_uint (Pos.to_uint p)
    /\ PyStr.of_Z (Z.neg p)
       = String "-" (NilEmpty.string_of_uint (Pos.to_uint p)).
Proof.
  intros p. unfold PyStr.of_Z. cbn [Z.to_int NilZero.string_of_int].
  unfold NilZero.string_of_uint.
  pose proof (pos_text_nonempty p) as H.
  destruct (Pos.to_uint p); [ now contradiction H | split; reflexivity .. ].
Qed.

(** The text of a positive number does not start with a zero. *)
Lemma pos_text_head :
  forall p, exists c r,
    NilEmpty.string_of_uint (Pos.to_uint p) = String c r
    /\ PyStr.is_ascii_digit c = true /\ 1 <= PyStr.digit_val c.
Proof.
  intros p.
  pose proof (DecimalPos.Unsigned.to_of (Pos.to_uint p)) as H.
  rewrite DecimalPos.Unsigned.of_to in H. cbn [N.to_uint] in H.
  pose proof (pos_text_value p) as Hv.
  pose proof (DecimalFacts.nzhead_nonzero (Pos.to_uint p)) as Hz.
  unfold Decimal.unorm in H.
  remember (Pos.to_uint p) as d eqn:Ed. clear Ed.
  destruct (Decimal.nzhead d) as [|u|u|u|u|u|u|u|u|u|u] eqn:E;
    try (rewrite H; eexists; eexists;
         split; [ reflexivity | split; [ reflexivity | cbv; discriminate ] ]).
  - rewrite H in Hv. discriminate Hv.
  - exfalso. exact (Hz u eq_refl).
Qed.

Lemma digits_value_split :
  forall s acc,
    PyStr.digits_value acc s
    = acc * 10 ^ Z.of_nat (String.length s) + PyStr.digits_value 0 s.
Proof.
  induction s as [|c r IH]; intros acc.
  - cbn. lia.
  - cbn [PyStr.digits_value String.length].
    rewrite (IH (10 * acc + PyStr.digit_val c)),
      (IH (10 * 0 + PyStr.digit_val c)).
    rewrite Nat2Z.inj_succ, Z.pow_succ_r by lia. ring.
Qed.

Lemma digit_val_range :
  forall c, PyStr.is_ascii_digit c = true -> 0 <= PyStr.digit_val c <= 9.
Proof.
  intros c H. ascii_cases c; try discriminate H; cbv; split; discriminate.
Qed.

Lemma digits_value_range :
  forall s, PyStr.forallb PyStr.is_ascii_digit s = true ->
    0 <= PyStr.digits_value 0 s < 10 ^ Z.of_nat (String.length s).
Proof.
  induction s as [|c r IH]; intros H.
  - cbn. lia.
  - cbn [PyStr.forallb] in H. apply andb_prop in H as [Hc Hr].
    cbn [PyStr.digits_value String.length].
    rewrite digits_value_split, Nat2Z.inj_succ, Z.pow_succ_r by lia.
    pose proof (digit_val_range c Hc). specialize (IH Hr). nia.
Qed.

(** The number of characters of the text of a number, against its size. *)
Lemma pos_text_length :
  forall p n,
    (String.length (NilEmpty.string_of_uint (Pos.to_uint p)) <= n)%nat
    <-> Z.pos p < 10 ^ Z.of_nat n.
Proof.
  intros p n.
  pose proof (pos_text_value p) as Hv.
  pose proof (uint_digits (Pos.to_uint p)) as Hd.
  set (s := NilEmpty.string_of_uint (Pos.to_uint p)) in *.
  split; intros H.
  - pose proof (digits_value_range s Hd) as Hr. rewrite Hv in Hr.
    assert (10 ^ Z.of_nat (String.length s) <= 10 ^ Z.of_nat n)
      by (apply Z.pow_le_mono_r; lia).
    lia.
  - destruct (pos_text_head p) as (c & r & E & Hc & H1). fold s in E.
    rewrite E in *. cbn [PyStr.forallb] in Hd.
    apply andb_prop in Hd as [_ Hr].
    cbn [PyStr.digits_value] in Hv. rewrite digits_value_split in Hv.
    pose proof (digits_value_range r Hr) as Hrr.
    cbn [String.length].
    destruct (Nat.le_gt_cases (S (String.length r)) n) as [Hle | Hgt];
      [ exact Hle | exfalso ].
    assert (10 ^ Z.of_nat n <= 10 ^ Z.of_nat (String.length r))
      by (apply Z.pow_le_mono_r; lia).
    nia.
Qed.

Lemma no_space_rstrip :
  forall s, PyStr.existsb PyStr.isspace_char s = false -> PyStr.rstrip s = s.
Proof.
  induction s as [|c r IH]; intros H; [ reflexivity | ].
  cbn [PyStr.existsb] in H. apply orb_false_elim in H as [Hc Hr].
  cbn [PyStr.rstrip]. rewrite (IH Hr), Hc. destruct r; reflexivity.
Qed.

Lemma no_space_strip :
  forall s, PyStr.existsb PyStr.isspace_char s = false -> PyStr.strip s = s.
Proof.
  intros s H. unfold PyStr.strip.
  assert (E : PyStr.lstrip s = s).
  { destruct s as [|c r]; [ reflexivity | ]. cbn [PyStr.existsb] in H.
    apply orb_false_elim in H as [Hc _]. cbn. now rewrite Hc. }
  rewrite E. now apply no_space_rstrip.
Qed.

Lemma digits_no_space :
  forall s, PyStr.forallb PyStr.is_ascii_digit s = true ->
    PyStr.existsb PyStr.isspace_char s = false.
Proof.
  induction s as [|c r IH]; intros H; [ reflexivity | ].
  cbn [PyStr.forallb] in H. apply andb_prop in H as [Hc Hr].
  cbn [PyStr.existsb]. destruct (digit_facts c Hc) as (-> & _). now apply IH.
Qed.

(** The text of an integer is in lower case and has no white space around
    it, and reading it gives the integer back. *)
Lemma of_Z_lower_strip :
  forall z, PyStr.strip (PyStr.lower (PyStr.of_Z z)) = PyStr.of_Z z.
Proof.
  intros [|p|p]; [ reflexivity | | ]; destruct (pos_text p) as [E1 E2].
  - rewrite E1, (digits_lower _ (uint_digits _)).
    apply digits_strip, uint_digits.
  - rewrite E2. cbn [PyStr.lower].
    rewrite (digits_lower _ (uint_digits _)).
    apply no_space_strip. cbn [PyStr.existsb].
    now rewrite (digits_no_space _ (uint_digits _)).
Qed.

(** An integer of at most eight digits is written and read back. *)
Lemma small_int_writes :
  forall z, -10 ^ 8 < z < 10 ^ 8 -> Py.int_writes z = true.
Proof.
  intros z Hz. unfold Py.int_writes, Py.max_str_digits. apply Z.leb_le.
  assert (Hp : forall p, Z.pos p < 10 ^ 8 ->
                 Z.of_nat (String.length (PyStr.of_Z (Z.pos p))) <= 4300).
  { intros p H. destruct (pos_text p) as [E1 _]. rewrite E1.
    pose proof (proj2 (pos_text_length p 8)) as H8.
    change (Z.of_nat 8) with 8 in H8. specialize (H8 H). lia. }
  destruct z as [|p|p]; cbn [Z.abs].
  - cbv. discriminate.
  - apply Hp. lia.
  - apply Hp. lia.
Qed.

Lemma int_of_Z :
  forall z, Py.int_writes z = true -> Py.int (PyStr.of_Z z) = ret z.
Proof.
  intros [|p|p] Hw; [ reflexivity | | ]; destruct (pos_text p) as [E1 E2];
    unfold Py.int_writes in Hw; cbn [Z.abs] in Hw; rewrite E1 in Hw;
    apply Z.leb_le in Hw.
  - rewrite E1, (digits_int _ (uint_digits _) (pos_text_nonempty p) Hw).
    now rewrite pos_text_value.
  - rewrite E2. unfold Py.int.
    rewrite no_space_strip
      by (cbn [PyStr.existsb]; now rewrite (digits_no_space _ (uint_digits _))).
    cbn [Ascii.eqb Bool.eqb].
    rewrite (digits_int_body _ 0 false (uint_digits _))
      by (right; apply pos_text_nonempty).
    rewrite (digits_count _ (uint_digits _)).
    destruct (Z.ltb_spec Py.max_str_digits
                (Z.of_nat
                   (String.length (NilEmpty.string_of_uint (Pos.to_uint p)))))
      as [Hlt | _]; [ lia | ].
    now rewrite pos_text_value.
Qed.

Lemma of_Z_length :
  forall z, z <> 0 ->
    ((String.length (PyStr.of_Z z) <? 1)%nat
     || (8 <? String.length (PyStr.of_Z z))%nat = false
     <-> -10 ^ 7 < z < 10 ^ 8).
Proof.
  intros [|p|p] Hz; [ congruence | | ]; destruct (pos_text p) as [E1 E2].
  - rewrite E1. pose proof (pos_text_length p 8) as H8.
    pose proof (pos_text_nonempty p) as Hn.
    destruct (NilEmpty.string_of_uint (Pos.to_uint p)) as [|c r] eqn:E;
      [ congruence | ].
    cbn [String.length] in *. change (S (String.length r) <? 1)%nat with false.
    cbn [orb]. rewrite Nat.ltb_ge. change (Z.of_nat 8) with 8 in H8.
    rewrite H8. lia.
  - rewrite E2. pose proof (pos_text_length p 7) as H7.
    cbn [String.length]. change (Z.of_nat 7) with 7 in H7.
    change
      (S (String.length (NilEmpty.string_of_uint (Pos.to_uint p))) <? 1)%nat
      with false.
    cbn [orb]. rewrite Nat.ltb_ge.
    split; intros H; [ | apply le_n_S, H7; lia ].
    apply le_S_n in H. apply H7 in H. lia.
Qed.

Lemma of_Z_not_zero :
  forall z, z <> 0 -> String.eqb (PyStr.of_Z z) "0" = false.
Proof.
  intros [|p|p] Hz; [ congruence | | ]; destruct (pos_text p) as [E1 E2];
    apply String.eqb_neq; intros H.
  - pose proof (pos_text_value p) as Hv. rewrite <- E1, H in Hv.
    discriminate Hv.
  - rewrite E2 in H. discriminate H.
Qed.

(** ** [validators.pmid] *)

(** What [pmid] does once the text of its argument is read as [z]. *)
Lemma pmid_checks :
  forall z,
    (if (String.length (PyStr.of_Z z) <? 1)%nat
        || (8 <? String.length (PyStr.of_Z z))%nat
     then raise ValueError
     else if String.eqb (PyStr.of_Z z) "0" then raise ValueError
     else z' <- Py.int (PyStr.of_Z z) ;; ret (Some z'))
    = if (negb (z =? 0)) && (-10 ^ 7 <? z) && (z <? 10 ^ 8)
      then ret (Some z) else raise ValueError.
Proof.
  intros z. destruct (Z.eq_dec z 0) as [-> | Hz]; [ reflexivity | ].
  rewrite (of_Z_not_zero z Hz).
  pose proof (of_Z_length z Hz) as H.
  apply Z.eqb_neq in Hz. rewrite Hz. cbn [negb andb].
  destruct ((String.length (PyStr.of_Z z) <? 1)%nat
            || (8 <? String.length (PyStr.of_Z z))%nat).
  - destruct (-10 ^ 7 <? z) eqn:E1; [ | reflexivity ].
    destruct (z <? 10 ^ 8) eqn:E2; [ | reflexivity ].
    apply Z.ltb_lt in E1, E2.
    assert (true = false) by (apply H; lia). discriminate.
  - assert (H' : -10 ^ 7 < z < 10 ^ 8) by now apply H.
    rewrite (int_of_Z z) by (apply small_int_writes; lia).
    rewrite bind_ret_l.
    destruct H' as [H1 H2]. apply Z.ltb_lt in H1, H2.
    now rewrite H1, H2.
Qed.

(** X18: an identifier [pmid] returns is never 0 and lies strictly between
    -10^7 and 10^8, so negative numbers of up to seven digits pass; it
    comes without a warning, and validating it again returns it
    unchanged. *)
Theorem pmid_result_range :
  forall p_v z log,
    validators.pmid p_v = Returns (Some z) log ->
    log = [] /\ z <> 0 /\ -10 ^ 7 < z < 10 ^ 8
    /\ validators.pmid (PInt z) = ret (Some z).
Proof.
  intros p_v z log H.
  assert (Hb : validators.pmid_body p_v = Returns (Some z) log).
  { unfold validators.pmid in H.
    destruct (validators.pmid_body p_v) as [v l | e l]; [ exact H | ].
    cbn [try_except] in H. destruct (Py.format p_v); cbn in H;
      discriminate H. }
  clear H. unfold validators.pmid_body in Hb.
  apply bind_returns in Hb as (s & l1 & l2 & Hs & Hb & ->).
  assert (l1 = []).
  { destruct p_v; try discriminate Hs;
      exact (proj2 (format_returns _ _ _ Hs)). }
  subst l1.
  apply bind_returns in Hb as (z0 & l3 & l4 & Hi & Hb & ->).
  apply int_no_message in Hi as Hl. subst l3.
  cbv zeta in Hb. rewrite pmid_checks in Hb.
  destruct (negb (z0 =? 0) && (-10 ^ 7 <? z0) && (z0 <? 10 ^ 8)) eqn:E;
    [ | discriminate Hb ].
  inversion Hb; subst z0 l4. clear Hb.
  split; [ reflexivity | ].
  apply andb_prop in E as [E E3]. apply andb_prop in E as [E1 E2].
  apply negb_true_iff, Z.eqb_neq in E1. apply Z.ltb_lt in E2, E3.
  repeat split; try assumption.
  assert (Hw : Py.int_writes z = true) by (apply small_int_writes; lia).
  unfold validators.pmid, validators.pmid_body, Py.format.
  cbn [Py.writes]. rewrite Hw, bind_ret_l.
  cbn [Py.str Py.repr]. rewrite of_Z_lower_strip, (int_of_Z z Hw), bind_ret_l.
  cbv zeta. rewrite pmid_checks.
  apply Z.eqb_neq in E1. apply Z.ltb_lt in E2, E3.
  rewrite E1, E2, E3. reflexivity.
Qed.

Lemma pmid_result_range_witness :
  @nil message = [] /\ -5 <> 0 /\ -10 ^ 7 < -5 < 10 ^ 8
  /\ validators.pmid (PInt (-5)) = ret (Some (-5)).
Proof.
  exact (pmid_result_range (PStr " -5 ") (-5) [] eq_refl).
Defined.

(** X19: a text of decimal digits, no more of them than the interpreter
    reads as an integer, is accepted when the number it spells is not 0
    and has at most eight digits, whatever zeros come before it; the
    result is that number. *)
Theorem pmid_accepts_leading_zeros :
  forall s,
    PyStr.forallb PyStr.is_ascii_digit s = true -> s <> "" ->
    Z.of_nat (String.length s) <= Py.max_str_digits ->
    0 < number s < 10 ^ 8 ->
    validators.pmid (PStr s) = ret (Some (number s)).
Proof.
  intros s Hd Hn Hb [H1 H2].
  unfold validators.pmid, validators.pmid_body.
  rewrite format_str, bind_ret_l.
  rewrite (digits_lower s Hd), (digits_strip s Hd).
  rewrite (digits_int s Hd Hn Hb), bind_ret_l. cbv zeta.
  fold (number s). rewrite pmid_checks.
  assert (E1 : (number s =? 0) = false) by (apply Z.eqb_neq; lia).
  assert (E2 : (-10 ^ 7 <? number s) = true) by (apply Z.ltb_lt; lia).
  assert (E3 : (number s <? 10 ^ 8) = true) by (apply Z.ltb_lt; lia).
  rewrite E1, E2, E3. reflexivity.
Qed.

Lemma pmid_accepts_leading_zeros_witness :
  validators.pmid (PStr "000000000123") = ret (Some 123).
Proof.
  refine (pmid_accepts_leading_zeros "000000000123" eq_refl _ _ _).
  - discriminate.
  - discriminate.
  - cbv. split; reflexivity.
Defined.

(** ** [validators.date] *)

Lemma digit_cases :
  forall c, PyStr.is_ascii_digit c = true -> In c decimal_digits.
Proof.
  intros c H. ascii_cases c; try discriminate H; cbn; tauto.
Qed.

Lemma digit_not_sep :
  forall c, PyStr.is_ascii_digit c = true -> validators.is_date_sep c = false.
Proof. intros c H. ascii_cases c; try discriminate H; reflexivity. Qed.

Lemma four_digits_chars :
  forall y, four_digits y = true ->
    exists a b c e,
      y = String a (String b (String c (String e EmptyString)))
      /\ PyStr.is_ascii_digit a = true /\ PyStr.is_ascii_digit b = true
      /\ PyStr.is_ascii_digit c = true /\ PyStr.is_ascii_digit e = true.
Proof.
  intros y H. unfold four_digits in H. apply andb_prop in H as [Hl Hd].
  destruct y as [|a [|b [|c [|e [|g r]]]]]; try discriminate Hl.
  cbn [PyStr.forallb] in Hd.
  repeat (apply andb_prop in Hd as [? Hd]). exists a, b, c, e. auto.
Qed.

Lemma two_digits_chars :
  forall m, two_digits m = true ->
    exists a b,
      m = String a (String b EmptyString)
      /\ PyStr.is_ascii_digit a = true /\ PyStr.is_ascii_digit b = true.
Proof.
  intros m H. unfold two_digits in H. apply andb_prop in H as [Hl Hd].
  destruct m as [|a [|b [|g r]]]; try discriminate Hl.
  cbn [PyStr.forallb] in Hd.
  repeat (apply andb_prop in Hd as [? Hd]). exists a, b. auto.
Qed.

(** Printing the number of a text of digits and padding it with zeros
    gives the text back. *)
Lemma four_digits_print :
  forall y, four_digits y = true ->
    PyStr.rjust_zero 4 (PyStr.of_Z (number y)) = y.
Proof.
  intros y H.
  destruct (four_digits_chars y H) as (a & b & c & e & -> & Ha & Hb & Hc & He).
  apply digit_cases in Ha, Hb, Hc, He.
  assert (Hall :
    List.forallb (fun a => List.forallb (fun b => List.forallb (fun c =>
      List.forallb (fun e =>
        String.eqb
          (PyStr.rjust_zero 4
             (PyStr.of_Z
                (number (String a (String b (String c (String e ""))))))) 
          (String a (String b (String c (String e "")))))
        decimal_digits) decimal_digits) decimal_digits) decimal_digits
    = true) by (vm_compute; reflexivity).
  rewrite forallb_forall in Hall. specialize (Hall a Ha).
  rewrite forallb_forall in Hall. specialize (Hall b Hb).
  rewrite forallb_forall in Hall. specialize (Hall c Hc).
  rewrite forallb_forall in Hall. specialize (Hall e He).
  now apply String.eqb_eq.
Qed.

Lemma two_digits_print :
  forall m, two_digits m = true ->
    PyStr.rjust_zero 2 (PyStr.of_Z (number m)) = m.
Proof.
  intros m H.
  destruct (two_digits_chars m H) as (a & b & -> & Ha & Hb).
  apply digit_cases in Ha, Hb.
  assert (Hall :
    List.forallb (fun a => List.forallb (fun b =>
        String.eqb
          (PyStr.rjust_zero 2
             (PyStr.of_Z (number (String a (String b "")))))
          (String a (String b "")))
        decimal_digits) decimal_digits
    = true) by (vm_compute; reflexivity).
  rewrite forallb_forall in Hall. specialize (Hall a Ha).
  rewrite forallb_forall in Hall. specialize (Hall b Hb).
  now apply String.eqb_eq.
Qed.

(** A single digit is padded to the two-digit text of the same number. *)
Lemma one_digit_print :
  forall a, PyStr.is_ascii_digit a = true ->
    PyStr.rjust_zero 2 (PyStr.of_Z (number (String a "")))
    = String "0" (String a "")
    /\ number (String "0" (String a "")) = number (String a "").
Proof.
  intros a Ha. apply digit_cases in Ha. cbn in Ha.
  repeat (destruct Ha as [<- | Ha]; [ split; reflexivity | ]).
  destruct Ha.
Qed.

(** The checks of [date] against the calendar of a common year. *)
Lemma date_checks_common_year :
  forall y m d, 0 <= y ->
    negb (y =? 0) && validators.date_checks y m d
    = negb (y =? 0) && common_year_day m d.
Proof.
  intros y m d Hy. destruct (Z.eqb_spec y 0) as [E | E]; [ reflexivity | ].
  cbn [negb andb].
  unfold validators.date_checks, common_year_day, valid_date, days_in_month.
  change (is_leap 2001) with false. change (1 <=? 2001) with true.
  change (2001 <=? 9999) with true. cbn [andb].
  assert (Hl : (y mod 4 =? 0) && (y =? 2) = false).
  { destruct (Z.eqb_spec y 2) as [-> | _];
      [ reflexivity | apply andb_false_r ]. }
  rewrite Hl. cbn [andb].
  repeat (match goal with
          | |- context [?a =? ?b] => destruct (Z.eqb_spec a b)
          | |- context [?a <? ?b] => destruct (Z.ltb_spec a b)
          | |- context [?a <=? ?b] => destruct (Z.leb_spec a b)
          end; cbn [andb orb negb]; try reflexivity; try lia).
Qed.

Lemma day_group_two :
  forall a b,
    PyStr.is_ascii_digit a = true -> PyStr.is_ascii_digit b = true ->
    validators.day_group (String a (String b ""))
    = Some (String a (String b "")).
Proof. intros a b Ha Hb. cbn. now rewrite Ha, Hb. Qed.

Lemma sep_day_slash :
  forall a b,
    PyStr.is_ascii_digit a = true -> PyStr.is_ascii_digit b = true ->
    validators.sep_day (String "/" (String a (String b "")))
    = Some (String a (String b "")).
Proof.
  intros a b Ha Hb. unfold validators.sep_day. cbn [PyStr.span].
  change (validators.is_date_sep "/") with true. cbn iota.
  rewrite (digit_not_sep a Ha). cbn [snd]. now apply day_group_two.
Qed.

(** The groups [date_regex] finds in a date written [YYYY/MM/DD]. *)
Lemma date_elem_canonical :
  forall y m d,
    four_digits y = true -> two_digits m = true -> two_digits d = true ->
    validators.date_elem (y ++ "/" ++ m ++ "/" ++ d) = Some (y, m, d).
Proof.
  intros y m d Hy Hm Hd.
  pose proof Hy as Hy'. unfold four_digits in Hy'.
  apply andb_prop in Hy' as [_ Hy'].
  destruct (four_digits_chars y Hy) as (a & b & c & e & -> & _).
  destruct (two_digits_chars m Hm) as (m1 & m2 & -> & Hm1 & Hm2).
  destruct (two_digits_chars d Hd) as (d1 & d2 & -> & Hd1 & Hd2).
  cbn [append validators.date_elem]. rewrite Hy'.
  cbn [PyStr.span]. change (validators.is_date_sep "/") with true.
  cbn iota. rewrite (digit_not_sep m1 Hm1). cbn [snd].
  cbn [validators.month_day]. rewrite Hm1, Hm2.
  rewrite (sep_day_slash d1 d2 Hd1 Hd2). reflexivity.
Qed.

Lemma canonical_lower_strip :
  forall y m d,
    four_digits y = true -> two_digits m = true -> two_digits d = true ->
    PyStr.strip (PyStr.lower (y ++ "/" ++ m ++ "/" ++ d))
    = y ++ "/" ++ m ++ "/" ++ d.
Proof.
  intros y m d Hy Hm Hd.
  destruct (four_digits_chars y Hy) as (a & b & c & e & -> & Ha & Hb & Hc & He).
  destruct (two_digits_chars m Hm) as (m1 & m2 & -> & Hm1 & Hm2).
  destruct (two_digits_chars d Hd) as (d1 & d2 & -> & Hd1 & Hd2).
  cbn [append PyStr.lower].
  repeat match goal with
         | H : PyStr.is_ascii_digit ?x = true |- _ =>
             let Hs := fresh "Hs" in
             let Hl := fresh "Hl" in
             destruct (digit_facts x H) as (Hs & Hl & _); rewrite !Hl; clear H
         end.
  change (PyStr.lower_char "/") with "/"%char.
  apply no_space_strip. cbn [PyStr.existsb].
  change (PyStr.isspace_char "/") with false.
  repeat match goal with
         | H : PyStr.isspace_char _ = false |- _ => rewrite H; clear H
         end.
  reflexivity.
Qed.

Lemma four_digits_int :
  forall y, four_digits y = true -> Py.int y = ret (number y).
Proof.
  intros y H. pose proof H as H'. unfold four_digits in H'.
  apply andb_prop in H' as [_ Hd].
  destruct (four_digits_chars y H) as (a & b & c & e & E & _).
  apply digits_int;
    [ exact Hd | rewrite E; discriminate | rewrite E; discriminate ].
Qed.

Lemma two_digits_int :
  forall m, two_digits m = true -> Py.int m = ret (number m).
Proof.
  intros m H. pose proof H as H'. unfold two_digits in H'.
  apply andb_prop in H' as [_ Hd].
  destruct (two_digits_chars m H) as (a & b & E & _).
  apply digits_int;
    [ exact Hd | rewrite E; discriminate | rewrite E; discriminate ].
Qed.

Lemma number_nonneg :
  forall s, PyStr.forallb PyStr.is_ascii_digit s = true -> 0 <= number s.
Proof. intros s H. apply (digits_value_range s H). Qed.

(** [date] on a date written [YYYY/MM/DD]. *)
Lemma date_body_canonical :
  forall y m d,
    four_digits y = true -> two_digits m = true -> two_digits d = true ->
    validators.date_body (PStr (y ++ "/" ++ m ++ "/" ++ d))
    = if negb (number y =? 0) && common_year_day (number m) (number d)
      then ret (y ++ "/" ++ m ++ "/" ++ d)
      else raise ValueError.
Proof.
  intros y m d Hy Hm Hd. unfold validators.date_body. cbv zeta.
  rewrite (canonical_lower_strip y m d Hy Hm Hd).
  rewrite (date_elem_canonical y m d Hy Hm Hd).
  rewrite (four_digits_int y Hy), bind_ret_l.
  rewrite (two_digits_int m Hm), bind_ret_l.
  rewrite (two_digits_int d Hd), bind_ret_l.
  rewrite date_checks_common_year.
  - rewrite (four_digits_print y Hy), (two_digits_print m Hm),
      (two_digits_print d Hd).
    reflexivity.
  - apply number_nonneg. unfold four_digits in Hy.
    now apply andb_prop in Hy as [_ Hy].
Qed.

(** X20: a date written [YYYY/MM/DD] is accepted, and returned as it is
    without a warning, exactly when the year is not 0000 and the day
    exists in the month in a year that is no leap year; any other such
    date, 29 February of every year among them, is refused with one
    warning. *)
Theorem date_accepts_common_year_dates :
  forall y m d,
    four_digits y = true -> two_digits m = true -> two_digits d = true ->
    (validators.date (PStr (y ++ "/" ++ m ++ "/" ++ d))
     = ret (Some (y ++ "/" ++ m ++ "/" ++ d))
     <-> number y <> 0 /\ common_year_day (number m) (number d) = true)
    /\ (validators.date (PStr (y ++ "/" ++ m ++ "/" ++ d))
        = ret (Some (y ++ "/" ++ m ++ "/" ++ d))
        \/ exists msg,
             validators.date (PStr (y ++ "/" ++ m ++ "/" ++ d))
             = Returns None [Message "warning" msg]).
Proof.
  intros y m d Hy Hm Hd. unfold validators.date.
  rewrite (date_body_canonical y m d Hy Hm Hd).
  destruct (Z.eqb_spec (number y) 0) as [E | E]; cbn [negb andb].
  - split; [ split; [ intros H; discriminate H | tauto ] | ].
    right. eexists. reflexivity.
  - destruct (common_year_day (number m) (number d)).
    + split; [ split; [ tauto | reflexivity ] | left; reflexivity ].
    + split;
        [ split; [ intros H; discriminate H | intros [_ H]; discriminate H ]
        | ].
      right. eexists. reflexivity.
Qed.

Lemma date_accepts_common_year_dates_witness :
  ~ validators.date (PStr "2024/02/29") = ret (Some "2024/02/29").
Proof.
  intros H.
  apply (proj1 (date_accepts_common_year_dates "2024" "02" "29"
                  eq_refl eq_refl eq_refl)) in H.
  destruct H as [_ H]. discriminate H.
Defined.

Lemma day_group_shape :
  forall s d, validators.day_group s = Some d ->
    (exists a, d = String a "" /\ PyStr.is_ascii_digit a = true)
    \/ two_digits d = true.
Proof.
  intros s d H. unfold validators.day_group in H.
  destruct s as [|a r]; [ discriminate H | ].
  destruct (PyStr.is_ascii_digit a) eqn:Ha; [ | discriminate H ].
  destruct r as [|b r'].
  - injection H as <-. left. eauto.
  - destruct (PyStr.is_ascii_digit b && validators.at_end r') eqn:E.
    + injection H as <-. right. apply andb_prop in E as [Hb _].
      unfold two_digits. cbn. now rewrite Ha, Hb.
    + destruct (validators.at_end (String b r')); [ | discriminate H ].
      injection H as <-. left. eauto.
Qed.

Lemma month_day_shape :
  forall s m d, validators.month_day s = Some (m, d) ->
    ((exists a, m = String a "" /\ PyStr.is_ascii_digit a = true)
     \/ two_digits m = true)
    /\ ((exists a, d = String a "" /\ PyStr.is_ascii_digit a = true)
        \/ two_digits d = true).
Proof.
  intros s m d H. unfold validators.month_day in H.
  destruct s as [|a r]; [ discriminate H | ].
  destruct (PyStr.is_ascii_digit a) eqn:Ha; [ | discriminate H ].
  assert (Hone :
    option_map (fun d => (String a "", d)) (validators.sep_day r)
    = Some (m, d) ->
    ((exists a, m = String a "" /\ PyStr.is_ascii_digit a = true)
     \/ two_digits m = true)
    /\ ((exists a, d = String a "" /\ PyStr.is_ascii_digit a = true)
        \/ two_digits d = true)).
  { intros H1. destruct (validators.sep_day r) as [d'|] eqn:E;
      [ | discriminate H1 ].
    injection H1 as <- <-. split; [ left; eauto | ].
    exact (day_group_shape _ _ E). }
  destruct r as [|b r']; [ exact (Hone H) | ].
  destruct (PyStr.is_ascii_digit b) eqn:Hb; [ | exact (Hone H) ].
  destruct (validators.sep_day r') as [d'|] eqn:E; [ | exact (Hone H) ].
  injection H as <- <-. split.
  - right. unfold two_digits. cbn. now rewrite Ha, Hb.
  - exact (day_group_shape _ _ E).
Qed.

Lemma date_elem_shape :
  forall s y m d, validators.date_elem s = Some (y, m, d) ->
    four_digits y = true
    /\ ((exists a, m = String a "" /\ PyStr.is_ascii_digit a = true)
        \/ two_digits m = true)
    /\ ((exists a, d = String a "" /\ PyStr.is_ascii_digit a = true)
        \/ two_digits d = true).
Proof.
  intros s y m d H. unfold validators.date_elem in H.
  destruct s as [|a [|b [|c [|e r]]]]; try discriminate H.
  destruct (PyStr.forallb PyStr.is_ascii_digit
              (String a (String b (String c (String e ""))))) eqn:E;
    [ | discriminate H ].
  destruct (validators.month_day (snd (PyStr.span validators.is_date_sep r)))
    as [[m' d']|] eqn:Em; [ | discriminate H ].
  injection H as <- <- <-. split; [ exact E | ].
  exact (month_day_shape _ _ _ Em).
Qed.

(** One or two digits are printed as the two digits of the same number. *)
Lemma short_group_print :
  forall m,
    (exists a, m = String a "" /\ PyStr.is_ascii_digit a = true)
    \/ two_digits m = true ->
    Py.int m = ret (number m)
    /\ exists m',
         PyStr.rjust_zero 2 (PyStr.of_Z (number m)) = m'
         /\ two_digits m' = true /\ number m' = number m.
Proof.
  intros m [(a & -> & Ha) | H].
  - split.
    + apply digits_int; [ cbn; now rewrite Ha | discriminate | discriminate ].
    + destruct (one_digit_print a Ha) as [E1 E2].
      exists (String "0" (String a "")). repeat split; try assumption.
      unfold two_digits. cbn. now rewrite Ha.
  - split; [ now apply two_digits_int | ].
    exists m. repeat split; [ now apply two_digits_print | assumption ].
Qed.

(** X21: for a value that is no date object, a date [date] returns comes
    without a warning, is written [YYYY/MM/DD] with a year that is not
    0000 and a day of a common year, and is returned unchanged when it is
    validated again. *)
Theorem date_result_is_canonical :
  forall (d_v : pyval) t log,
    validators.date d_v = Returns (Some t) log ->
    log = []
    /\ (exists y m d,
          t = y ++ "/" ++ m ++ "/" ++ d
          /\ four_digits y = true /\ two_digits m = true
          /\ two_digits d = true
          /\ number y <> 0
          /\ common_year_day (number m) (number d) = true)
    /\ validators.date (PStr t) = ret (Some t).
Proof.
  intros d_v t log H.
  unfold validators.date in H.
  match type of H with
  | try_except ?b _ = _ => destruct b as [v l | e l] eqn:Hb
  end.
  2: { cbn [try_except] in H.
       destruct (validators.date_arg_format d_v); cbn in H; discriminate H. }
  cbn [try_except] in H. rewrite H in Hb. clear H. rename Hb into H.
  apply bind_returns in H as (t' & l1 & l2 & H & Hret & ->).
  inversion Hret; subst t' l2. clear Hret.
  unfold validators.date_body in H.
  destruct d_v as [| | |s| |]; try discriminate H. cbv zeta in H.
  destruct (validators.date_elem (PyStr.strip (PyStr.lower s)))
    as [[[y m] d]|] eqn:E; [ | discriminate H ].
  destruct (date_elem_shape _ _ _ _ E) as (Hy & Hm & Hd).
  destruct (short_group_print m Hm) as (Im & m' & Pm & Tm & Nm).
  destruct (short_group_print d Hd) as (Id & d' & Pd & Td & Nd).
  rewrite (four_digits_int y Hy), bind_ret_l in H.
  rewrite Im, bind_ret_l, Id, bind_ret_l in H.
  rewrite date_checks_common_year in H
    by (apply number_nonneg; unfold four_digits in Hy;
        now apply andb_prop in Hy as [_ Hy]).
  destruct (negb (number y =? 0) && common_year_day (number m) (number d))
    eqn:C; [ | discriminate H ].
  rewrite (four_digits_print y Hy), Pm, Pd in H.
  inversion H; subst t l1. clear H.
  apply andb_prop in C as [C1 C2].
  apply negb_true_iff, Z.eqb_neq in C1.
  split; [ reflexivity | ]. split.
  - exists y, m', d'. rewrite Nm, Nd. repeat split; assumption.
  - pose proof (date_body_canonical y m' d' Hy Tm Td) as Hc.
    cbn [append] in Hc. unfold validators.date. rewrite Hc, Nm, Nd, C2.
    apply Z.eqb_neq in C1. rewrite C1. reflexivity.
Qed.

Lemma date_result_is_canonical_witness :
  @nil message = []
  /\ (exists y m d,
        "2021/03/07" = y ++ "/" ++ m ++ "/" ++ d
        /\ four_digits y = true /\ two_digits m = true
        /\ two_digits d = true
        /\ number y <> 0
        /\ common_year_day (number m) (number d) = true)
  /\ validators.date (PStr "2021/03/07") = ret (Some "2021/03/07").
Proof.
  exact (date_result_is_canonical (PStr " 2021-3-7 ") "2021/03/07" []
           eq_refl).
Defined.

(** A date object is written out and returned as it is: the leap day of
    2024 comes back as a text that [date] itself refuses. *)
Example date_object_leap_day :
  validators.date (DateObject (Date 2024 2 29)) = ret (Some "2024/02/29")
  /\ exists msg,
      validators.date (PStr "2024/02/29")
      = Returns None [Message "warning" msg].
Proof. split; [ reflexivity | eexists; reflexivity ]. Qed.

(** ** [validators.email] *)

Lemma falsy_email :
  forall v, Py.truthy v = false -> validators.email v = ret v.
Proof.
  intros v H. unfold validators.email, validators.email_body.
  now rewrite H.
Qed.

Lemma email_of_text :
  forall s, PyStr.nonempty s = true ->
    (validators.email_match (PyStr.strip (PyStr.lower s)) = true
     /\ validators.email (PStr s) = ret (PStr (PyStr.strip (PyStr.lower s))))
    \/ (validators.email_match (PyStr.strip (PyStr.lower s)) = false
        /\ exists msg,
             validators.email (PStr s)
             = Returns PNone [Message "warning" msg]).
Proof.
  intros s H. unfold validators.email, validators.email_body.
  cbn [Py.truthy]. rewrite H. cbn [Py.lower]. rewrite bind_ret_l. cbv zeta.
  destruct (validators.email_match (PyStr.strip (PyStr.lower s)));
    [ left | right ]; split; try reflexivity.
  eexists. reflexivity.
Qed.

(** X22: on a value that can be written into a message, [email]
    returns.  What it returns it accepts again unchanged and without a
    message; a warning is written only when the result is [None]. *)
Theorem email_returns_stable_result :
  forall e_v,
    Py.writes e_v = true ->
    exists r log,
      validators.email e_v = Returns r log
      /\ validators.email r = ret r
      /\ (log = []
          \/ (r = PNone /\ exists msg, log = [Message "warning" msg])).
Proof.
  intros e_v Hw. destruct (Py.truthy e_v) eqn:T.
  - destruct e_v as [|b|z|s|l|d]; try discriminate T;
      try (exists PNone; eexists;
           split; [ unfold validators.email, validators.email_body,
                      Py.format;
                    rewrite T, Hw; reflexivity
                  | split; [ reflexivity
                           | right; split;
                             [ reflexivity | eexists; reflexivity ] ] ]).
    destruct (email_of_text s T) as [[E ->] | [E [msg ->]]].
    + exists (PStr (PyStr.strip (PyStr.lower s))), [].
      split; [ reflexivity | split; [ | now left ] ].
      assert (Hn : PyStr.nonempty (PyStr.strip (PyStr.lower s)) = true).
      { destruct (PyStr.strip (PyStr.lower s));
          [ discriminate E | reflexivity ]. }
      destruct (email_of_text _ Hn) as [[_ E'] | [E' _]].
      * rewrite E'. f_equal. f_equal.
        now rewrite (strip_lower s), lower_idem, <- (strip_lower s), strip_idem.
      * rewrite (strip_lower s), lower_idem, <- (strip_lower s), strip_idem
          in E'.
        congruence.
    + exists PNone, [Message "warning" msg].
      split; [ reflexivity | split; [ reflexivity | right; eauto ] ].
  - exists e_v, []. rewrite (falsy_email e_v T).
    split; [ reflexivity | split; [ reflexivity | now left ] ].
Qed.

Lemma email_returns_stable_result_witness :
  exists r log,
    validators.email (PStr " Jane.Doe@Example.org ") = Returns r log
    /\ validators.email r = ret r
    /\ (log = []
        \/ (r = PNone /\ exists msg, log = [Message "warning" msg])).
Proof.
  exact (email_returns_stable_result (PStr " Jane.Doe@Example.org ") eq_refl).
Defined.

(** An integer too long to be written is refused by the body, and the
    handler raises while it writes the warning. *)
Lemma email_raises_on_long_int :
  forall z, Py.int_writes z = false ->
    validators.email (PInt z) = raise ValueError.
Proof.
  intros z H.
  assert (T : Py.truthy (PInt z) = true).
  { destruct z; [ discriminate H | reflexivity | reflexivity ]. }
  unfold validators.email, validators.email_body, Py.format.
  rewrite T. cbn [Py.writes Py.lower bind raise try_except]. rewrite H.
  reflexivity.
Qed.

(** ** Composing the query *)

(** The text of the query for a last-name term alone. *)
Lemma compose_last_name :
  forall paper_name authors_name pairs_name t,
    t <> "" ->
    sql.compose paper_name authors_name pairs_name PNone (PStr t) PNone PNone
    = ret ("SELECT " ++ pairs_name ++ ".fullname, " ++ pairs_name
           ++ ".firstauthor, " ++ paper_name ++ ".* " ++ nl
           ++ "FROM " ++ paper_name ++ ", " ++ pairs_name ++ ", "
           ++ authors_name ++ " " ++ nl
           ++ "WHERE (" ++ authors_name ++ ".last LIKE '%" ++ t ++ "%')"
           ++ "AND " ++ pairs_name ++ ".fullname == " ++ authors_name
           ++ ".fullname AND " ++ paper_name ++ ".pmid == " ++ pairs_name
           ++ ".pmid" ++ nl ++ "GROUP BY " ++ pairs_name ++ ".fullname;").
Proof.
  intros paper_name authors_name pairs_name t Ht.
  assert (Tt : Py.truthy (PStr t) = true).
  { destruct t; [ congruence | reflexivity ]. }
  unfold sql.compose, sql.name_pieces, sql.any_name_query.
  rewrite Tt. cbn [Py.truthy app sql.join_names PyStr.join].
  unfold sql.like, sql.full_query, sql.select_clause, sql.join_clause.
  cbn [Py.str String.eqb negb app List.map sql.join_items option_map
       PyStr.join].
  unfold ret. do 2 f_equal. rewrite !append_assoc. reflexivity.
Qed.

(** X23: with a last-name term alone, not blank, and the three tables in
    the database, [query] composes the text of the query, the SELECT
    clause, [WHERE], the predicate on the last-name column for the
    stripped, lower-cased term, then the join conditions introduced by
    [AND]; it announces the text, sends it to the database, and returns
    the rows with [firstauthor] made a boolean. *)
Theorem query_by_last_name :
  forall validate connect paper_name authors_name pairs_name l
         db_name conx l1 l3 rows lq,
    validate = Returns db_name l1 ->
    connect db_name = Returns conx l3 ->
    sql.has_table conx paper_name = true ->
    sql.has_table conx authors_name = true ->
    sql.has_table conx pairs_name = true ->
    PyStr.lower (PyStr.strip l) <> "" ->
    let q :=
      "SELECT " ++ pairs_name ++ ".fullname, " ++ pairs_name
      ++ ".firstauthor, " ++ paper_name ++ ".* " ++ nl
      ++ "FROM " ++ paper_name ++ ", " ++ pairs_name ++ ", "
      ++ authors_name ++ " " ++ nl
      ++ "WHERE (" ++ authors_name ++ ".last LIKE '%"
      ++ PyStr.lower (PyStr.strip l) ++ "%')"
      ++ "AND " ++ pairs_name ++ ".fullname == " ++ authors_name
      ++ ".fullname AND " ++ paper_name ++ ".pmid == " ++ pairs_name
      ++ ".pmid" ++ nl ++ "GROUP BY " ++ pairs_name ++ ".fullname;" in
    sql.read_sql_query conx q = Returns rows lq ->
    sql.query validate connect paper_name authors_name pairs_name
      PNone (PStr l) PNone PNone
    = Returns (Some (List.map sql.firstauthor_bool rows))
        (l1 ++ l3
         ++ [Message "info"
               ("Attempting SQLite query on database:" ++ db_name
                ++ " " ++ nl ++ " " ++ tab ++ " Query text: " ++ nl ++ " "
                ++ tab ++ q)]
         ++ lq
         ++ [Message "info"
               ("Query successful. Returning "
                ++ PyStr.of_Z (Z.of_nat (List.length rows))
                ++ " records as pandas dataframe.")])%list.
Proof.
  intros validate connect paper_name authors_name pairs_name l
    db_name conx l1 l3 rows lq Hv Hc Hp Ha Hr Ht q Hq.
  assert (Hl : l <> "") by (intros ->; apply Ht; reflexivity).
  assert (Hn : sql.normalize PNone (PStr l) PNone PNone
               = ret (PNone, PStr (PyStr.lower (PyStr.strip l)), PNone,
                      PNone)).
  { rewrite (normalize_with_last_name PNone l PNone PNone Hl). reflexivity. }
  unfold sql.query. rewrite Hv. cbn [bind]. rewrite Hn. cbn [bind ret].
  rewrite Hc. cbn [bind ret app]. rewrite ?app_nil_r.
  unfold sql.run_query, sql.require_table. rewrite Hp, Ha, Hr.
  rewrite (compose_last_name paper_name authors_name pairs_name _ Ht).
  fold q. cbn [bind ret display_message app]. rewrite Hq.
  cbn [bind ret display_message app try_except]. rewrite length_map.
  rewrite ?app_nil_r, <- ?app_assoc. reflexivity.
Qed.

Lemma query_by_last_name_witness :
  sql.query (ret "pubs.db") (fun _ => ret three_tables)
    "papers" "authors" "pairs_authorpapers" PNone (PStr " Doe ") PNone PNone
  = Returns (Some [])
      [Message "info"
         ("Attempting SQLite query on database:pubs.db " ++ nl ++ " " ++ tab
          ++ " Query text: " ++ nl ++ " " ++ tab
          ++ "SELECT pairs_authorpapers.fullname, "
          ++ "pairs_authorpapers.firstauthor, papers.* " ++ nl
          ++ "FROM papers, pairs_authorpapers, authors " ++ nl
          ++ "WHERE (authors.last LIKE '%doe%')"
          ++ "AND pairs_authorpapers.fullname == authors.fullname AND "
          ++ "papers.pmid == pairs_authorpapers.pmid" ++ nl
          ++ "GROUP BY pairs_authorpapers.fullname;");
       Message "info"
         "Query successful. Returning 0 records as pandas dataframe."].
Proof.
  refine (query_by_last_name (ret "pubs.db") (fun _ => ret three_tables)
            "papers" "authors" "pairs_authorpapers" " Doe "
            "pubs.db" three_tables [] [] [] []
            eq_refl eq_refl eq_refl eq_refl eq_refl _ eq_refl).
  discriminate.
Defined.
